(** * errors: structured, traceable error values

    A shallow embedding of [errors/errors.go]: the trace-identifier codec
    ([generateErrorID], [DecodeErrorID]), the error value and its
    clone-and-mutate operations, the code-space translation tables and the
    conversion to and from a remote status.

    Go strings are byte strings; they are embedded as [string], one [ascii]
    per byte.  Go integers are embedded as [Z], with the wrap-around written
    out where the source converts.  [*Error] pointers and [map[string]string]
    references live in an explicit store, so that aliasing is visible. *)

From Stdlib Require Import ZArith Lia Bool List Ascii String.
From Stdlib Require Import Decimal DecimalString DecimalPos DecimalN DecimalZ.
From stdpp Require Import base option gmap strings.

Local Open Scope string_scope.
Local Open Scope Z_scope.

(* ===================================================================== *)
(** * Part I: the embedding *)
(* ===================================================================== *)

(** ** Bytes *)

Definition byte_val (c : ascii) : Z := Z.of_N (N_of_ascii c).

(** Go's [byte(x)] conversion keeps the low eight bits. *)
Definition byte_of (z : Z) : ascii := ascii_of_N (Z.to_N (Z.land z 255)).

Definition strlen (s : string) : Z := Z.of_nat (String.length s).

(** ** The parts of package [strings] the source calls *)

Module GoStrings.

(** [strings.Split(s, sep)] for a one-byte separator: always at least one
    field, and one more field than there are separators. *)
Fixpoint Split (s : string) (sep : ascii) : list string :=
  match s with
  | EmptyString => [EmptyString]
  | String c rest =>
      if Ascii.eqb c sep then EmptyString :: Split rest sep
      else match Split rest sep with
           | hd :: tl => String c hd :: tl
           | [] => [String c EmptyString]
           end
  end.

(** [strings.LastIndex(s, sep)] for a one-byte [sep]: the index of the last
    occurrence, or -1. *)
Fixpoint LastIndex (s : string) (sep : ascii) : Z :=
  match s with
  | EmptyString => -1
  | String c rest =>
      let i := LastIndex rest sep in
      if 0 <=? i then i + 1
      else if Ascii.eqb c sep then 0 else -1
  end.

(** [s[:i]] and [s[i:]] for an index within bounds. *)
Definition slice_to (s : string) (i : Z) : string :=
  String.substring 0 (Z.to_nat i) s.

Definition slice_from (s : string) (i : Z) : string :=
  String.substring (Z.to_nat i) (String.length s - Z.to_nat i) s.

(** [s[i:j]]. *)
Definition slice (s : string) (i j : Z) : string :=
  String.substring (Z.to_nat i) (Z.to_nat j - Z.to_nat i) s.

Fixpoint contains (s : string) (c : ascii) : bool :=
  match s with
  | EmptyString => false
  | String d rest => Ascii.eqb d c || contains rest c
  end.

Fixpoint last_byte (s : string) : option ascii :=
  match s with
  | EmptyString => None
  | String c EmptyString => Some c
  | String _ rest => last_byte rest
  end.

End GoStrings.

(** ** The parts of package [strconv] the source calls *)

Module Strconv.

Definition int64_min : Z := - 2 ^ 63.
Definition int64_max : Z := 2 ^ 63 - 1.
Definition uint64_max : Z := 2 ^ 64 - 1.

(** [strconv.FormatInt(z, 10)], [strconv.Itoa], and the [%d] verb. *)
Definition FormatInt (z : Z) : string := NilZero.string_of_int (Z.to_int z).

Definition Itoa : Z -> string := FormatInt.

(** [strconv.FormatUint(z, 10)]. *)
Definition FormatUint (z : Z) : string := NilZero.string_of_uint (N.to_uint (Z.to_N z)).

Definition digit_val (c : ascii) : option Z :=
  let n := byte_val c in
  if (48 <=? n) && (n <=? 57) then Some (n - 48) else None.

(** The digit loop of [ParseUint]; the range check is done by the callers
    on the exact value. *)
Fixpoint parse_digits (acc : Z) (s : string) : option Z :=
  match s with
  | EmptyString => Some acc
  | String c rest =>
      match digit_val c with
      | Some d => parse_digits (10 * acc + d) rest
      | None => None
      end
  end.

(** [strconv.ParseUint(s, 10, 64)]; [None] stands for a non-nil error
    (syntax or range). *)
Definition ParseUint (s : string) : option Z :=
  match s with
  | EmptyString => None
  | _ =>
      match parse_digits 0 s with
      | Some v => if v <=? uint64_max then Some v else None
      | None => None
      end
  end.

(** [strconv.ParseInt(s, 10, 64)]: an optional sign, then [ParseUint], then
    the signed range check. *)
Definition ParseInt (s : string) : option Z :=
  match s with
  | EmptyString => None
  | String c rest =>
      let neg := Ascii.eqb c "-" in
      let body := if Ascii.eqb c "+" || neg then rest else s in
      match ParseUint body with
      | None => None
      | Some un =>
          if negb neg && (2 ^ 63 <=? un) then None
          else if neg && (2 ^ 63 <? un) then None
          else Some (if neg then - un else un)
      end
  end.

(** [strconv.Atoi] on a platform whose [int] has 64 bits. *)
Definition Atoi : string -> option Z := ParseInt.

End Strconv.

(** ** The [%x] verb of package [fmt] *)

Module Fmt.

Definition hex_digit (v : Z) : ascii :=
  if v <? 10 then ascii_of_N (Z.to_N (48 + v)) else ascii_of_N (Z.to_N (87 + v)).

(** [fmt.Sprintf("%x", buf)] for a byte slice: two lower-case digits per
    byte. *)
Fixpoint hex_bytes (buf : list ascii) : string :=
  match buf with
  | [] => EmptyString
  | b :: rest =>
      String (hex_digit (Z.shiftr (byte_val b) 4))
        (String (hex_digit (Z.land (byte_val b) 15)) (hex_bytes rest))
  end.

Fixpoint hex_pos (p : positive) (acc : string) (fuel : nat) : string :=
  match fuel with
  | O => acc
  | S fuel' =>
      let acc' := String (hex_digit (Z.land (Zpos p) 15)) acc in
      match Z.shiftr (Zpos p) 4 with
      | Zpos q => hex_pos q acc' fuel'
      | _ => acc'
      end
  end.

(** [fmt.Sprintf("%x", v)] for an integer: no padding, a sign for negative
    values. *)
Definition hex_int (v : Z) : string :=
  match v with
  | Z0 => "0"
  | Zpos p => hex_pos p EmptyString (Pos.to_nat (Pos.size p))
  | Zneg p => String "-" (hex_pos p EmptyString (Pos.to_nat (Pos.size p)))
  end.

(** The digits [%x] writes: [0] to [9] and [a] to [f]. *)
Definition is_lower_hex (c : ascii) : bool :=
  let n := byte_val c in
  ((48 <=? n) && (n <=? 57)) || ((97 <=? n) && (n <=? 102)).

Fixpoint all_lower_hex (s : string) : bool :=
  match s with
  | EmptyString => true
  | String c rest => is_lower_hex c && all_lower_hex rest
  end.

End Fmt.

(** ** [encoding/base64], the standard padded encoding *)

Module Base64.

Definition encodeStd : string :=
  "ABCDEFGHIJKLMNOPQRSTUVWXYZabcdefghijklmnopqrstuvwxyz0123456789+/".

Definition padChar : ascii := "=".

(** [enc.encode[v]]. *)
Definition encode_idx (v : Z) : ascii :=
  match String.get (Z.to_nat v) encodeStd with
  | Some c => c
  | None => padChar
  end.

Fixpoint index_from (tbl : string) (c : ascii) (i : Z) : option Z :=
  match tbl with
  | EmptyString => None
  | String d rest => if Ascii.eqb d c then Some i else index_from rest c (i + 1)
  end.

(** [enc.decodeMap[c]]; [None] is the 0xFF entry of an invalid byte. *)
Definition decode_idx (c : ascii) : option Z := index_from encodeStd c 0.

(** [EncodeToString]: three bytes make four characters; a last group of one
    or two bytes is padded. *)
Fixpoint EncodeToString (src : string) : string :=
  match src with
  | EmptyString => EmptyString
  | String a EmptyString =>
      let val := Z.shiftl (byte_val a) 16 in
      String (encode_idx (Z.land (Z.shiftr val 18) 63))
        (String (encode_idx (Z.land (Z.shiftr val 12) 63))
           (String padChar (String padChar EmptyString)))
  | String a (String b EmptyString) =>
      let val := Z.lor (Z.shiftl (byte_val a) 16) (Z.shiftl (byte_val b) 8) in
      String (encode_idx (Z.land (Z.shiftr val 18) 63))
        (String (encode_idx (Z.land (Z.shiftr val 12) 63))
           (String (encode_idx (Z.land (Z.shiftr val 6) 63))
              (String padChar EmptyString)))
  | String a (String b (String c rest)) =>
      let val := Z.lor (Z.lor (Z.shiftl (byte_val a) 16) (Z.shiftl (byte_val b) 8))
                   (byte_val c) in
      String (encode_idx (Z.land (Z.shiftr val 18) 63))
        (String (encode_idx (Z.land (Z.shiftr val 12) 63))
           (String (encode_idx (Z.land (Z.shiftr val 6) 63))
              (String (encode_idx (Z.land val 63)) (EncodeToString rest))))
  end.

(** The value assembled from the four sextets of a quantum. *)
Definition quantum (v0 v1 v2 v3 : Z) : Z :=
  Z.lor (Z.lor (Z.lor (Z.shiftl v0 18) (Z.shiftl v1 12)) (Z.shiftl v2 6)) v3.

(** The decoder ignores carriage returns and line feeds wherever they
    stand. *)
Fixpoint strip_newlines (s : string) : string :=
  match s with
  | EmptyString => EmptyString
  | String c rest =>
      if Ascii.eqb c "010" || Ascii.eqb c "013" then strip_newlines rest
      else String c (strip_newlines rest)
  end.

(** Quantum by quantum; padding may only close the input, and an incomplete
    quantum is corrupt. *)
Fixpoint decode_quanta (s : string) : option string :=
  match s with
  | EmptyString => Some EmptyString
  | String c0 (String c1 (String c2 (String c3 rest))) =>
      match decode_idx c0, decode_idx c1 with
      | Some v0, Some v1 =>
          if Ascii.eqb c2 padChar then
            if Ascii.eqb c3 padChar then
              match rest with
              | EmptyString =>
                  let val := quantum v0 v1 0 0 in
                  Some (String (byte_of (Z.shiftr val 16)) EmptyString)
              | _ => None
              end
            else None
          else
            match decode_idx c2 with
            | None => None
            | Some v2 =>
                if Ascii.eqb c3 padChar then
                  match rest with
                  | EmptyString =>
                      let val := quantum v0 v1 v2 0 in
                      Some (String (byte_of (Z.shiftr val 16))
                              (String (byte_of (Z.shiftr val 8)) EmptyString))
                  | _ => None
                  end
                else
                  match decode_idx c3 with
                  | None => None
                  | Some v3 =>
                      let val := quantum v0 v1 v2 v3 in
                      match decode_quanta rest with
                      | Some out =>
                          Some (String (byte_of (Z.shiftr val 16))
                                  (String (byte_of (Z.shiftr val 8))
                                     (String (byte_of val) out)))
                      | None => None
                      end
                  end
            end
      | _, _ => None
      end
  | _ => None
  end.

(** [DecodeString]; [None] stands for a [CorruptInputError]. *)
Definition DecodeString (s : string) : option string :=
  decode_quanta (strip_newlines s).

End Base64.

(** ** [path/filepath.Base] with [/] as the separator *)

Module Filepath.

Fixpoint strip_trailing_slashes (s : string) : string :=
  match s with
  | EmptyString => EmptyString
  | String c rest =>
      match strip_trailing_slashes rest with
      | EmptyString => if Ascii.eqb c "/" then EmptyString else String c EmptyString
      | rest' => String c rest'
      end
  end.

Definition Base (path : string) : string :=
  match path with
  | EmptyString => "."
  | _ =>
      let p := strip_trailing_slashes path in
      let i := GoStrings.LastIndex p "/" in
      let p := if 0 <=? i then GoStrings.slice_from p (i + 1) else p in
      match p with
      | EmptyString => "/"
      | _ => p
      end
  end.

End Filepath.

(** ** The two code spaces *)

(** [google.golang.org/grpc/codes]: a [Code] is a [uint32]; seventeen values
    are named. *)
Module Codes.
Definition Code := Z.
Definition OK : Code := 0.
Definition Canceled : Code := 1.
Definition Unknown : Code := 2.
Definition InvalidArgument : Code := 3.
Definition DeadlineExceeded : Code := 4.
Definition NotFound : Code := 5.
Definition AlreadyExists : Code := 6.
Definition PermissionDenied : Code := 7.
Definition ResourceExhausted : Code := 8.
Definition FailedPrecondition : Code := 9.
Definition Aborted : Code := 10.
Definition OutOfRange : Code := 11.
Definition Unimplemented : Code := 12.
Definition Internal : Code := 13.
Definition Unavailable : Code := 14.
Definition DataLoss : Code := 15.
Definition Unauthenticated : Code := 16.

(** The named codes, in numeric order. *)
Definition named : list Code :=
  [OK; Canceled; Unknown; InvalidArgument; DeadlineExceeded; NotFound;
   AlreadyExists; PermissionDenied; ResourceExhausted; FailedPrecondition;
   Aborted; OutOfRange; Unimplemented; Internal; Unavailable; DataLoss;
   Unauthenticated].
End Codes.

(** The [net/http] status constants the tables use. *)
Module Http.
Definition StatusOK : Z := 200.
Definition StatusBadRequest : Z := 400.
Definition StatusUnauthorized : Z := 401.
Definition StatusForbidden : Z := 403.
Definition StatusNotFound : Z := 404.
Definition StatusConflict : Z := 409.
Definition StatusTooManyRequests : Z := 429.
Definition StatusInternalServerError : Z := 500.
Definition StatusNotImplemented : Z := 501.
Definition StatusServiceUnavailable : Z := 503.
Definition StatusGatewayTimeout : Z := 504.
End Http.

(** The web codes [ToGRPCCode] has a case for. *)
Definition web_table : list Z :=
  [Http.StatusOK; Http.StatusBadRequest; Http.StatusUnauthorized;
   Http.StatusForbidden; Http.StatusNotFound; Http.StatusConflict;
   Http.StatusTooManyRequests; Http.StatusInternalServerError;
   Http.StatusNotImplemented; Http.StatusServiceUnavailable;
   Http.StatusGatewayTimeout].

(** [ToGRPCCode] converts an HTTP error code into the corresponding gRPC
    response status. *)
Definition ToGRPCCode (code : Z) : Codes.Code :=
  if code =? Http.StatusOK then Codes.OK
  else if code =? Http.StatusBadRequest then Codes.InvalidArgument
  else if code =? Http.StatusUnauthorized then Codes.Unauthenticated
  else if code =? Http.StatusForbidden then Codes.PermissionDenied
  else if code =? Http.StatusNotFound then Codes.NotFound
  else if code =? Http.StatusConflict then Codes.Aborted
  else if code =? Http.StatusTooManyRequests then Codes.ResourceExhausted
  else if code =? Http.StatusInternalServerError then Codes.Internal
  else if code =? Http.StatusNotImplemented then Codes.Unimplemented
  else if code =? Http.StatusServiceUnavailable then Codes.Unavailable
  else if code =? Http.StatusGatewayTimeout then Codes.DeadlineExceeded
  else Codes.Unknown.

(** [ToHTTPCode] converts a gRPC error code into the corresponding HTTP
    response status. *)
Definition ToHTTPCode (code : Codes.Code) : Z :=
  if code =? Codes.OK then Http.StatusOK
  else if code =? Codes.Canceled then 499
  else if code =? Codes.Unknown then Http.StatusInternalServerError
  else if code =? Codes.InvalidArgument then Http.StatusBadRequest
  else if code =? Codes.DeadlineExceeded then Http.StatusGatewayTimeout
  else if code =? Codes.NotFound then Http.StatusNotFound
  else if code =? Codes.AlreadyExists then Http.StatusConflict
  else if code =? Codes.PermissionDenied then Http.StatusForbidden
  else if code =? Codes.Unauthenticated then Http.StatusUnauthorized
  else if code =? Codes.ResourceExhausted then Http.StatusTooManyRequests
  else if code =? Codes.FailedPrecondition then Http.StatusBadRequest
  else if code =? Codes.Aborted then Http.StatusConflict
  else if code =? Codes.OutOfRange then Http.StatusBadRequest
  else if code =? Codes.Unimplemented then Http.StatusNotImplemented
  else if code =? Codes.Internal then Http.StatusInternalServerError
  else if code =? Codes.Unavailable then Http.StatusServiceUnavailable
  else if code =? Codes.DataLoss then Http.StatusInternalServerError
  else Http.StatusInternalServerError.

(** ** The ambient readings of one identifier generation *)

(** What [runtime.Caller(skip)] reports when [ok]: the name of
    [runtime.FuncForPC(pc)] ([None] when that is nil), the file and the
    line. *)
Record Frame := mkFrame {
  frame_func : option string;
  frame_file : string;
  frame_line : Z
}.

(** The outcome of [rand.Read] on a four-byte buffer. *)
Inductive RandRead :=
| RandOk (b0 b1 b2 b3 : ascii)
| RandErr
| RandPanic.

Record Env := mkEnv {
  (** [runtime.Caller], by skip depth; [None] when not [ok]. *)
  runtime_Caller : Z -> option Frame;
  (** Whether a probe of [generateErrorIDInternal] panics. *)
  internal_panics : bool;
  (** [time.Now().UnixNano()] in [generateErrorIDInternal]. *)
  time_UnixNano : Z;
  (** The text [runtime.Stack] writes; [None] when the probe panics. *)
  runtime_Stack : option string;
  (** [os.Getpid()]. *)
  os_Getpid : Z;
  (** [rand.Read] in [generateRandomSuffix], and the clock it falls back
      to. *)
  suffix_rand : RandRead;
  suffix_UnixNano : Z;
  (** The clock and the four random bytes of [generateFallbackErrorID]. *)
  fallback_UnixNano : Z;
  fallback_rand : ascii * ascii * ascii * ascii
}.

(** ** The identifier codec *)

Fixpoint until_space (s : string) : Z :=
  match s with
  | EmptyString => 0
  | String c rest => if Ascii.eqb c " " then 0 else 1 + until_space rest
  end.

Definition getGoroutineID (env : Env) : Z :=
  match runtime_Stack env with
  | None => 0
  | Some stack =>
      let start := 10 in
      if strlen stack <=? start then 0
      else
        let end_ := start + until_space (GoStrings.slice_from stack start) in
        if start <? end_ then
          match Strconv.ParseUint (GoStrings.slice stack start end_) with
          | Some id => id
          | None => 0
          end
        else 0
  end.

Definition generateRandomSuffix (env : Env) : string :=
  match suffix_rand env with
  | RandOk b0 b1 b2 b3 => Fmt.hex_bytes [b0; b1; b2; b3]
  | RandErr | RandPanic => Fmt.hex_int (Z.land (suffix_UnixNano env) 4294967295)
  end.

Definition findLastDot (s : string) : Z := GoStrings.LastIndex s ".".

(** The caller fields of the record: function name, file name, line. *)
Definition callSite (skip : Z) (env : Env) : string * string * Z :=
  match runtime_Caller env skip with
  | None => ("unknown", "unknown", 0)
  | Some fr =>
      let filename := Filepath.Base (frame_file fr) in
      let funcName :=
        match frame_func fr with
        | Some fullName =>
            let lastDot := findLastDot fullName in
            if (0 <=? lastDot) && (lastDot <? strlen fullName - 1)
            then GoStrings.slice_from fullName (lastDot + 1)
            else if lastDot =? strlen fullName - 1 then fullName
            else fullName
        | None => "unknown"
        end in
      (funcName, filename, frame_line fr)
  end.

(** The record [func@file:line:timestamp:gid:pid:random] before encoding. *)
Definition internalRecord (skip : Z) (env : Env) : string :=
  let '(funcName, filename, line) := callSite skip env in
  let timestamp := time_UnixNano env in
  let goroutineID := getGoroutineID env in
  let pid := os_Getpid env in
  let randomSuffix := generateRandomSuffix env in
  funcName ++ "@" ++ filename ++ ":" ++ Strconv.Itoa line ++ ":" ++
  Strconv.FormatInt timestamp ++ ":" ++ Strconv.FormatUint goroutineID ++ ":" ++
  Strconv.Itoa pid ++ ":" ++ randomSuffix.

(** [None] stands for a panic. *)
Definition generateErrorIDInternal (skip : Z) (env : Env) : option string :=
  if internal_panics env then None
  else Some (Base64.EncodeToString (internalRecord skip env)).

(** The deferred [recover] turns a panic into the empty string. *)
Definition tryGenerateErrorID (skip : Z) (env : Env) : string :=
  match generateErrorIDInternal skip env with
  | Some id => id
  | None => EmptyString
  end.

Definition fallbackRecord (env : Env) : string :=
  let timestamp := fallback_UnixNano env in
  let pid := os_Getpid env in
  let '(r0, r1, r2, r3) := fallback_rand env in
  let randomNum :=
    Z.lor (Z.lor (Z.lor (Z.shiftl (byte_val r0) 24) (Z.shiftl (byte_val r1) 16))
             (Z.shiftl (byte_val r2) 8)) (byte_val r3) in
  "fallback:" ++ Strconv.FormatInt timestamp ++ ":" ++ Strconv.FormatInt pid ++
  ":" ++ Strconv.FormatInt randomNum.

Definition generateFallbackErrorID (env : Env) : string :=
  Base64.EncodeToString (fallbackRecord env).

Definition generateErrorID (skip : Z) (env : Env) : string :=
  match tryGenerateErrorID (skip + 1) env with
  | EmptyString => generateFallbackErrorID env
  | id => id
  end.

Record ErrorIDInfo := mkInfo {
  Function : string;
  File : string;
  Line : Z;
  Timestamp : Z;
  GoroutineID : Z;
  ProcessID : Z;
  RandomSuffix : string;
  TimeFormatted : string;
  Raw : string
}.

(** The two errors [DecodeErrorID] returns. *)
Inductive DecodeError :=
| ErrBase64                 (* "failed to decode error ID: ..." *)
| ErrFormat (got : Z).      (* "invalid error ID format, expected at least 6 parts, got %d" *)

Section Decode.

(** [time.Unix(0, ts).Format("2006-01-02 15:04:05.000")], which depends on
    the local time zone of the process. *)
Variable local_time_format : Z -> string.

Definition part (parts : list string) (i : nat) : string :=
  nth i parts EmptyString.

(** The pair [(info, err)] the function returns; [None] is nil. *)
Definition DecodeErrorID (encodedID : string)
  : option ErrorIDInfo * option DecodeError :=
  match Base64.DecodeString encodedID with
  | None => (None, Some ErrBase64)
  | Some raw =>
      let parts := GoStrings.Split raw ":" in
      if Z.of_nat (length parts) <? 6 then
        (Some (mkInfo "" "" 0 0 0 0 "" "" raw),
         Some (ErrFormat (Z.of_nat (length parts))))
      else
        let funcFilePart := part parts 0 in
        let atIndex := GoStrings.LastIndex funcFilePart "@" in
        let '(function, file) :=
          if 0 <=? atIndex
          then (GoStrings.slice_to funcFilePart atIndex,
                GoStrings.slice_from funcFilePart (atIndex + 1))
          else ("unknown", funcFilePart) in
        let line :=
          match Strconv.Atoi (part parts 1) with Some l => l | None => 0 end in
        let '(timestamp, timeFormatted) :=
          match Strconv.ParseInt (part parts 2) with
          | Some ts => (ts, local_time_format ts)
          | None => (0, "")
          end in
        let gid :=
          match Strconv.ParseUint (part parts 3) with Some g => g | None => 0 end in
        let pid :=
          match Strconv.Atoi (part parts 4) with Some p => p | None => 0 end in
        let randomSuffix :=
          if 5 <? Z.of_nat (length parts) then part parts 5 else "" in
        (Some (mkInfo function file line timestamp gid pid randomSuffix
                 timeFormatted raw),
         None)
  end.

End Decode.

(** ** Error values *)

Definition UnknownCode : Z := 500.
Definition UnknownReason : string := "".

(** The [int32(x)] conversion. *)
Definition int32 (z : Z) : Z := (z + 2 ^ 31) mod 2 ^ 32 - 2 ^ 31.

(** Addresses of [*Error] objects and of maps. *)
Definition loc := positive.

(** [Metadata] is a map reference: [None] is the nil map. *)
Record Status := mkStatus {
  Code : Z;
  Reason : string;
  Message : string;
  Metadata : option loc;
  ID : string
}.

(** The [errorspb.Status] message as it travels inside a detail. *)
Record StatusPB := mkStatusPB {
  pb_Code : Z;
  pb_Reason : string;
  pb_Message : string;
  pb_Metadata : gmap string string
}.

(** What [Details()] yields for one attached detail. *)
Inductive Detail :=
| DetailStatus (d : StatusPB)      (* a *errorspb.Status *)
| DetailAnyStatus (s : StatusPB)   (* a *anypb.Any for which MessageIs holds *)
| DetailOther.                     (* anything else *)

(** A non-nil [*status.Status]. *)
Record GrpcStatus := mkGrpcStatus {
  gs_Code : Codes.Code;
  gs_Message : string;
  gs_Details : list Detail
}.

(** A non-nil [error]: a [*Error] of this package, the [*status.Error] of a
    remote status, or an error of any other type with its display text; the
    last either wraps nothing or has an [Unwrap] that returns [inner]. *)
Inductive GoError :=
| ErrPtr (p : loc)
| ErrStatus (gs : GrpcStatus)
| ErrOther (text : string)
| ErrWrap (text : string) (inner : GoError).

Record Error := mkError {
  status : Status;
  cause : option GoError
}.

Record Store := mkStore {
  errs : gmap loc Error;
  maps : gmap loc (gmap string string)
}.

(** Computations on the store; [None] is a panic. *)
Definition M (A : Type) : Type := Store -> option (A * Store).

Definition ret {A} (a : A) : M A := fun h => Some (a, h).

Definition bind {A B} (m : M A) (k : A -> M B) : M B :=
  fun h => match m h with
           | Some (a, h') => k a h'
           | None => None
           end.

Definition panic {A} : M A := fun _ => None.

Notation "x <- m ;; k" := (bind m (fun x => k))
  (at level 100, m at next level, right associativity).
Notation "m ;;; k" := (bind m (fun _ => k))
  (at level 100, right associativity).

Definition load (p : loc) : M Error :=
  fun h => match errs h !! p with
           | Some e => Some (e, h)
           | None => None
           end.

Definition store (p : loc) (e : Error) : M unit :=
  fun h => Some (tt, mkStore (<[p := e]> (errs h)) (maps h)).

(** [&Error{...}]. *)
Definition new_error (e : Error) : M loc :=
  fun h => let p := fresh (dom (errs h)) in
           Some (p, mkStore (<[p := e]> (errs h)) (maps h)).

(** A map that holds [m] at a fresh address. *)
Definition new_map (m : gmap string string) : M loc :=
  fun h => let a := fresh (dom (maps h)) in
           Some (a, mkStore (errs h) (<[a := m]> (maps h))).

(** The entries of a map; the nil map reads as empty. *)
Definition entries (r : option loc) : M (gmap string string) :=
  match r with
  | None => ret ∅
  | Some a => fun h => match maps h !! a with
                       | Some m => Some (m, h)
                       | None => None
                       end
  end.

(** [m[k] = v]; an assignment to the nil map panics. *)
Definition map_assign (r : option loc) (k v : string) : M unit :=
  match r with
  | None => panic
  | Some a => fun h => match maps h !! a with
                       | Some m => Some (tt, mkStore (errs h) (<[a := <[k := v]> m]> (maps h)))
                       | None => None
                       end
  end.

(** [delete(m, k)]; a no-op on the nil map. *)
Definition map_delete (r : option loc) (k : string) : M unit :=
  match r with
  | None => ret tt
  | Some a => fun h => match maps h !! a with
                       | Some m => Some (tt, mkStore (errs h) (<[a := delete k m]> (maps h)))
                       | None => None
                       end
  end.

(** [for k, v := range src { dst[k] = v }] on entries. *)
Definition copy_into (src dst : gmap string string) : gmap string string :=
  src ∪ dst.

Definition set_ID (e : Error) (id : string) : Error :=
  mkError (mkStatus (Code (status e)) (Reason (status e)) (Message (status e))
             (Metadata (status e)) id) (cause e).

Definition set_Metadata (e : Error) (md : option loc) : Error :=
  mkError (mkStatus (Code (status e)) (Reason (status e)) (Message (status e))
             md (ID (status e))) (cause e).

Definition set_cause (e : Error) (c : option GoError) : Error :=
  mkError (status e) c.

(** [New] returns an error object for the code, reason, message. *)
Definition New (env : Env) (code : Z) (reason message : string) : M loc :=
  new_error (mkError (mkStatus (int32 code) reason message None
                        (generateErrorID 2 env)) None).

(** [Clone] deep clone error to a new error. *)
Definition Clone (err : option loc) : M (option loc) :=
  match err with
  | None => ret None
  | Some p =>
      e <- load p ;;
      src <- entries (Metadata (status e)) ;;
      metadata <- new_map (copy_into src ∅) ;;
      q <- new_error (mkError (mkStatus (Code (status e)) (Reason (status e))
                                 (Message (status e)) (Some metadata)
                                 (ID (status e)))
                        (cause e)) ;;
      ret (Some q)
  end.

(** The methods take a non-nil receiver [e]. *)

Definition WithCause (e : loc) (c : option GoError) : M loc :=
  err <- Clone (Some e) ;;
  match err with
  | None => panic
  | Some q => x <- load q ;; store q (set_cause x c) ;;; ret q
  end.

Definition WithMetadata (e : loc) (md : option loc) : M loc :=
  err <- Clone (Some e) ;;
  match err with
  | None => panic
  | Some q => x <- load q ;; store q (set_Metadata x md) ;;; ret q
  end.

Definition WithID (e : loc) (id : string) : M loc :=
  err <- Clone (Some e) ;;
  match err with
  | None => panic
  | Some q => x <- load q ;; store q (set_ID x id) ;;; ret q
  end.

(** [GetID] returns the error ID, generating one if it doesn't exist. *)
Definition GetID (env : Env) (e : loc) : M string :=
  x <- load e ;;
  match ID (status x) with
  | EmptyString =>
      let id := generateErrorID 3 env in
      store e (set_ID x id) ;;; ret id
  | id => ret id
  end.

(** ** [utf8.ValidString] *)

Module Utf8.

Definition in_range (c : ascii) (lo hi : Z) : bool :=
  (lo <=? byte_val c) && (byte_val c <=? hi).

(** The table [first] with [acceptRanges]: for a leading byte, the size of
    its sequence and the range its second byte must lie in; [None] is the
    entry of a byte that cannot lead. *)
Definition first (b : Z) : option (Z * (Z * Z)) :=
  if b <? 128 then Some (1, (0, 0))
  else if (194 <=? b) && (b <=? 223) then Some (2, (128, 191))
  else if b =? 224 then Some (3, (160, 191))
  else if (225 <=? b) && (b <=? 236) then Some (3, (128, 191))
  else if b =? 237 then Some (3, (128, 159))
  else if (238 <=? b) && (b <=? 239) then Some (3, (128, 191))
  else if b =? 240 then Some (4, (144, 191))
  else if (241 <=? b) && (b <=? 243) then Some (4, (128, 191))
  else if b =? 244 then Some (4, (128, 143))
  else None.

(** [utf8.ValidString(s)]: sequence by sequence; a sequence cut short by
    the end of the text is invalid. *)
Fixpoint ValidString (s : string) : bool :=
  match s with
  | EmptyString => true
  | String c0 rest =>
      match first (byte_val c0) with
      | None => false
      | Some (size, (lo, hi)) =>
          if size =? 1 then ValidString rest
          else
            match rest with
            | EmptyString => false
            | String c1 rest1 =>
                in_range c1 lo hi &&
                (if size =? 2 then ValidString rest1
                 else
                   match rest1 with
                   | EmptyString => false
                   | String c2 rest2 =>
                       in_range c2 128 191 &&
                       (if size =? 3 then ValidString rest2
                        else
                          match rest2 with
                          | EmptyString => false
                          | String c3 rest3 =>
                              in_range c3 128 191 && ValidString rest3
                          end)
                   end)
            end
      end
  end.

(** Texts below [utf8.RuneSelf]. *)
Fixpoint is_ascii (s : string) : bool :=
  match s with
  | EmptyString => true
  | String c rest => (byte_val c <? 128) && is_ascii rest
  end.

End Utf8.

(** ** Remote statuses *)

(** [status.New(c, msg)]. *)
Definition status_New (c : Codes.Code) (msg : string) : GrpcStatus :=
  mkGrpcStatus c msg [].

(** Whether [anypb.New(d)] can marshal the message [d]: every string of a
    proto3 message, the keys and values of a map field included, must be
    valid UTF-8. *)
Definition marshals (d : StatusPB) : bool :=
  Utf8.ValidString (pb_Reason d) && Utf8.ValidString (pb_Message d)
  && forallb (fun kv : string * string =>
                Utf8.ValidString (fst kv) && Utf8.ValidString (snd kv))
       (map_to_list (pb_Metadata d)).

(** [s.WithDetails(d)], with the error dropped as the caller does: the
    result is nil for a status with code OK, which takes no details, and for
    a detail that cannot be marshalled. *)
Definition status_WithDetails (s : GrpcStatus) (d : StatusPB) : option GrpcStatus :=
  if gs_Code s =? Codes.OK then None
  else if marshals d
  then Some (mkGrpcStatus (gs_Code s) (gs_Message s) (gs_Details s ++ [DetailStatus d]))
  else None.

(** [s.Err()]: nil for a nil status and for code OK. *)
Definition status_Err (s : option GrpcStatus) : option GoError :=
  match s with
  | None => None
  | Some gs => if gs_Code gs =? Codes.OK then None else Some (ErrStatus gs)
  end.

(** [GRPCStatus] returns the Status represented by [e]. *)
Definition GRPCStatus (env : Env) (e : loc) : M (option GrpcStatus) :=
  x <- load e ;;
  match ID (status x) with
  | EmptyString => store e (set_ID x (generateErrorID 3 env))
  | _ => ret tt
  end ;;;
  x <- load e ;;
  src <- entries (Metadata (status x)) ;;
  let metadata := <["error_id" := ID (status x)]> (copy_into src ∅) in
  ret (status_WithDetails
         (status_New (ToGRPCCode (Code (status x))) (Message (status x)))
         (mkStatusPB (Code (status x)) (Reason (status x)) (Message (status x))
            metadata)).

(** [errors.As(err, &se)] for [se] of type [*Error]: the first [*Error] of
    the chain. *)
Fixpoint errors_As (err : GoError) : option loc :=
  match err with
  | ErrPtr p => Some p
  | ErrStatus _ => None
  | ErrOther _ => None
  | ErrWrap _ inner => errors_As inner
  end.

(** The display text of a foreign error. *)
Definition foreign_text (err : GoError) : string :=
  match err with
  | ErrOther text | ErrWrap text _ => text
  | _ => EmptyString
  end.

Fixpoint wrapped_status (err : GoError) : option GrpcStatus :=
  match err with
  | ErrPtr _ => None
  | ErrStatus gs => Some gs
  | ErrOther _ => None
  | ErrWrap _ inner => wrapped_status inner
  end.

(** [status.FromError(err)] on an error whose chain holds no [*Error]:
    [Some gs] when [ok].  A status found behind wrappers comes back with the
    outer error's text as its message. *)
Definition status_FromError (err : GoError) : option GrpcStatus :=
  match err with
  | ErrStatus gs => Some gs
  | _ =>
      match wrapped_status err with
      | Some gs => Some (mkGrpcStatus (gs_Code gs) (foreign_text err) (gs_Details gs))
      | None => None
      end
  end.

(** The first detail one of the two cases of the type switch returns on. *)
Fixpoint first_status_detail (ds : list Detail) : option StatusPB :=
  match ds with
  | [] => None
  | DetailStatus d :: _ => Some d
  | DetailAnyStatus s :: _ => Some s
  | DetailOther :: rest => first_status_detail rest
  end.

(** The map field of an unmarshalled message: nil when it has no entry,
    else a map of its own. *)
Definition unmarshal_map (m : gmap string string) : M (option loc) :=
  if decide (m = ∅) then ret None
  else a <- new_map m ;; ret (Some a).

(** [FromError] try to convert an error to [*Error]. *)
Definition FromError (env : Env) (err : option GoError) : M (option loc) :=
  match err with
  | None => ret None
  | Some err =>
      match errors_As err with
      | Some se =>
          x <- load se ;;
          match ID (status x) with
          | EmptyString => store se (set_ID x (generateErrorID 3 env))
          | _ => ret tt
          end ;;;
          ret (Some se)
      | None =>
          match status_FromError err with
          | None =>
              q <- new_error (mkError (mkStatus UnknownCode UnknownReason
                                         (foreign_text err) None
                                         (generateErrorID 2 env)) None) ;;
              ret (Some q)
          | Some gs =>
              let fresh_id := generateErrorID 2 env in
              match first_status_detail (gs_Details gs) with
              | None =>
                  q <- new_error (mkError (mkStatus (int32 (ToHTTPCode (gs_Code gs)))
                                             UnknownReason (gs_Message gs) None
                                             fresh_id) None) ;;
                  ret (Some q)
              | Some d =>
                  md <- unmarshal_map (pb_Metadata d) ;;
                  src <- entries md ;;
                  let error_id := default EmptyString (src !! "error_id") in
                  match md, error_id with
                  | None, _ | _, EmptyString =>
                      q <- new_error (mkError (mkStatus (pb_Code d) (pb_Reason d)
                                                 (pb_Message d) md fresh_id) None) ;;
                      ret (Some q)
                  | Some _, _ =>
                      map_delete md "error_id" ;;;
                      q <- new_error (mkError (mkStatus (pb_Code d) (pb_Reason d)
                                                 (pb_Message d) md error_id) None) ;;
                      ret (Some q)
                  end
              end
          end
      end
  end.

(** [ID] returns the error ID for a particular error. *)
Definition ID_of (env env' : Env) (err : option GoError) : M string :=
  match err with
  | None => ret EmptyString
  | Some _ =>
      appErr <- FromError env err ;;
      match appErr with
      | Some p => GetID env' p
      | None => ret EmptyString
      end
  end.

(** ** Call sites of ordinary source files *)

(** What the runtime reports for a call in an ordinary Go source file: a
    function name that is not empty and has no colon, a base file name that
    has no colon and does not end in [@], and a line number that is a
    non-negative [int]. *)
Definition ordinary_frame (fr : Frame) : Prop :=
  match frame_func fr with
  | Some fullName =>
      fullName <> EmptyString /\ GoStrings.contains fullName ":" = false
  | None => True
  end
  /\ GoStrings.contains (Filepath.Base (frame_file fr)) ":" = false
  /\ GoStrings.last_byte (Filepath.Base (frame_file fr)) <> Some "@"%char
  /\ 0 <= frame_line fr <= Strconv.int64_max.

(** ** Sample readings *)

Definition sample_frame : Frame :=
  mkFrame (Some "github.com/acme/shop/internal/order.(*Service).Create")
    "/srv/shop/internal/order/service.go" 87.

Definition sample_env : Env :=
  mkEnv (fun _ => Some sample_frame) false 1700000000000000000
    (Some "goroutine 17 [running]:") 4242
    (RandOk "222" "173" "190" "239") 1700000000000000050
    1700000000000000100 ("001", "002", "003", "004")%char.

(** The readings of a later generation in the same process. *)
Definition sample_env_later : Env :=
  mkEnv (fun _ => Some sample_frame) false 1700000000000002000
    (Some "goroutine 17 [running]:") 4242
    (RandOk "016" "050" "084" "118") 1700000000000002050
    1700000000000002100 ("005", "006", "007", "008")%char.

(** Readings under which the probes of [generateErrorIDInternal] panic. *)
Definition sample_env_panicking : Env :=
  mkEnv (fun _ => None) true 1700000000000000000 None 4242
    RandPanic 1700000000000000050
    1700000000000000100 ("001", "002", "003", "004")%char.

(** Readings at a call site whose file name holds a colon. *)
Definition sample_frame_colon : Frame :=
  mkFrame (Some "github.com/acme/shop/internal/order.(*Service).Create")
    "/srv/shop/internal/order/:x.go" 87.

Definition sample_env_colon : Env :=
  mkEnv (fun _ => Some sample_frame_colon) false 1700000000000000000
    (Some "goroutine 17 [running]:") 4242
    (RandOk "222" "173" "190" "239") 1700000000000000050
    1700000000000000100 ("001", "002", "003", "004")%char.

(** ** A sample store *)

(** Three errors, each with a metadata map that holds [k = v]: one without an
    id, one with code 200, one with an id. *)
Definition sample_error : Error :=
  mkError (mkStatus 404 "USER_NOT_FOUND" "missing" (Some 1%positive) "") None.

Definition sample_ok_error : Error :=
  mkError (mkStatus 200 "OK" "fine" (Some 2%positive) "") None.

Definition sample_named_error : Error :=
  mkError (mkStatus 409 "CONFLICT" "taken" (Some 3%positive) "custom-error-id-12345")
    None.

Definition sample_store : Store :=
  mkStore
    (<[1%positive := sample_error]>
       (<[2%positive := sample_ok_error]> {[3%positive := sample_named_error]}))
    (<[1%positive := {["k" := "v"]}]>
       (<[2%positive := {["k" := "v"]}]> {[3%positive := {["k" := "v"]}]})).

(** An error whose message is the byte 0xFF alone, which is not valid UTF-8;
    it has an id and a nil metadata map. *)
Definition sample_invalid_error : Error :=
  mkError (mkStatus 404 "USER_NOT_FOUND" (String "255" EmptyString) None
             "custom-error-id-12345") None.

Definition sample_invalid_store : Store :=
  mkStore {[1%positive := sample_invalid_error]} ∅.

(** The time zone plays no part in the claims; this rendering is used where
    one has to be named. *)
Definition unix_nanos_text (ts : Z) : string := Strconv.FormatInt ts.

(** ** The rest of the error value *)

(** [Unwrap] provides compatibility for Go 1.13 error chains. *)
Definition Unwrap (e : loc) : M (option GoError) :=
  x <- load e ;; ret (cause x).

(** [Is] matches each error in the chain with the target value: the first
    [*Error] of [err]'s chain is compared by code and reason. *)
Definition Is (e : loc) (err : option GoError) : M bool :=
  match err with
  | None => ret false
  | Some err =>
      match errors_As err with
      | Some se =>
          y <- load se ;;
          x <- load e ;;
          ret ((Code (status y) =? Code (status x))
               && String.eqb (Reason (status y)) (Reason (status x)))
      | None => ret false
      end
  end.

(** [IsClientError], [IsServerError], [IsAuthError]. *)
Definition IsClientError (e : loc) : M bool :=
  x <- load e ;; ret ((400 <=? Code (status x)) && (Code (status x) <? 500)).

Definition IsServerError (e : loc) : M bool :=
  x <- load e ;; ret (500 <=? Code (status x)).

Definition IsAuthError (e : loc) : M bool :=
  x <- load e ;; ret ((Code (status x) =? 401) || (Code (status x) =? 403)).

(** [Code] returns the http code for an error; [FromError] reads [env]. *)
Definition Code_of (env : Env) (err : option GoError) : M Z :=
  match err with
  | None => ret 200
  | Some _ =>
      p <- FromError env err ;;
      match p with
      | Some p => x <- load p ;; ret (Code (status x))
      | None => panic
      end
  end.

(** [Reason] returns the reason for a particular error. *)
Definition Reason_of (env : Env) (err : option GoError) : M string :=
  match err with
  | None => ret UnknownReason
  | Some _ =>
      p <- FromError env err ;;
      match p with
      | Some p => x <- load p ;; ret (Reason (status x))
      | None => panic
      end
  end.

(** The convenience constructors. *)
Definition BadRequest (env : Env) (reason message : string) : M loc :=
  New env 400 reason message.
Definition Unauthorized (env : Env) (reason message : string) : M loc :=
  New env 401 reason message.
Definition Forbidden (env : Env) (reason message : string) : M loc :=
  New env 403 reason message.
Definition NotFound (env : Env) (reason message : string) : M loc :=
  New env 404 reason message.
Definition Conflict (env : Env) (reason message : string) : M loc :=
  New env 409 reason message.
Definition InternalServer (env : Env) (reason message : string) : M loc :=
  New env 500 reason message.
Definition ServiceUnavailable (env : Env) (reason message : string) : M loc :=
  New env 503 reason message.
Definition GatewayTimeout (env : Env) (reason message : string) : M loc :=
  New env 504 reason message.
Definition ClientClosed (env : Env) (reason message : string) : M loc :=
  New env 499 reason message.

(** The convenience checkers. *)
Definition IsBadRequest (env : Env) (err : option GoError) : M bool :=
  c <- Code_of env err ;; ret (c =? 400).
Definition IsUnauthorized (env : Env) (err : option GoError) : M bool :=
  c <- Code_of env err ;; ret (c =? 401).
Definition IsForbidden (env : Env) (err : option GoError) : M bool :=
  c <- Code_of env err ;; ret (c =? 403).
Definition IsNotFound (env : Env) (err : option GoError) : M bool :=
  c <- Code_of env err ;; ret (c =? 404).
Definition IsConflict (env : Env) (err : option GoError) : M bool :=
  c <- Code_of env err ;; ret (c =? 409).
Definition IsInternalServer (env : Env) (err : option GoError) : M bool :=
  c <- Code_of env err ;; ret (c =? 500).
Definition IsServiceUnavailable (env : Env) (err : option GoError) : M bool :=
  c <- Code_of env err ;; ret (c =? 503).
Definition IsGatewayTimeout (env : Env) (err : option GoError) : M bool :=
  c <- Code_of env err ;; ret (c =? 504).
Definition IsClientClosed (env : Env) (err : option GoError) : M bool :=
  c <- Code_of env err ;; ret (c =? 499).

(** The constructors with their codes and checkers, side by side. *)
Definition conveniences
  : list ((Env -> string -> string -> M loc) * Z * (Env -> option GoError -> M bool)) :=
  [(BadRequest, 400, IsBadRequest); (Unauthorized, 401, IsUnauthorized);
   (Forbidden, 403, IsForbidden); (NotFound, 404, IsNotFound);
   (Conflict, 409, IsConflict); (InternalServer, 500, IsInternalServer);
   (ServiceUnavailable, 503, IsServiceUnavailable);
   (GatewayTimeout, 504, IsGatewayTimeout); (ClientClosed, 499, IsClientClosed)].

(** ** The transport adapters of package [interceptor] *)

(** The JSON object of [ErrorResponseHandler]; [body_metadata] is [None]
    when the object has no such key. *)
Record ErrorBody := mkErrorBody {
  body_code : Z;
  body_reason : string;
  body_message : string;
  body_metadata : option (option loc);
  body_id : string
}.

(** [ErrorResponseHandler] is a custom error handler for go-zero HTTP routes.
    [FromError] reads [env], [GetID] reads [env']. *)
Definition ErrorResponseHandler (env env' : Env) (err : option GoError)
  : M (Z * ErrorBody) :=
  appErr <- FromError env err ;;
  match appErr with
  | None =>
      id <- ID_of env env' err ;;
      ret (Http.StatusInternalServerError,
           mkErrorBody Http.StatusInternalServerError UnknownReason
             "An unknown error occurred" None id)
  | Some p =>
      errorID <- GetID env' p ;;
      x <- load p ;;
      ret (Code (status x),
           mkErrorBody (Code (status x)) (Reason (status x)) (Message (status x))
             (Some (Metadata (status x))) errorID)
  end.

(** What the interceptors hand to [log.Printf]: the format is fixed, the
    arguments are the id and the error. *)
Inductive LogCall :=
| LogUnaryError (errorID : string) (err : GoError)
| LogStreamError (errorID : string) (err : GoError)
| LogUnhandled (err : GoError).

(** [status.Error(c, msg)]. *)
Definition status_Error (c : Codes.Code) (msg : string) : option GoError :=
  status_Err (Some (status_New c msg)).

(** The function [UnaryServerErrorInterceptor] returns, applied to a handler
    that has run and returned [(resp, err)].  [FromError], [GetID] and
    [GRPCStatus] read [env1], [env2] and [env3]. *)
Definition UnaryServerErrorInterceptor {Resp : Type} (env1 env2 env3 : Env)
    (resp : Resp) (err : option GoError)
  : M (Resp * option GoError * list LogCall) :=
  match err with
  | None => ret (resp, err, [])
  | Some e =>
      appErr <- FromError env1 err ;;
      match appErr with
      | Some p =>
          errorID <- GetID env2 p ;;
          s <- GRPCStatus env3 p ;;
          ret (resp, status_Err s, [LogUnaryError errorID e])
      | None =>
          ret (resp, status_Error Codes.Internal (foreign_text e), [LogUnhandled e])
      end
  end.

(** The function [StreamServerErrorInterceptor] returns, applied to the error
    of the stream handler. *)
Definition StreamServerErrorInterceptor (env1 env2 env3 : Env) (err : option GoError)
  : M (option GoError * list LogCall) :=
  match err with
  | None => ret (err, [])
  | Some e =>
      appErr <- FromError env1 err ;;
      match appErr with
      | Some p =>
          errorID <- GetID env2 p ;;
          s <- GRPCStatus env3 p ;;
          ret (status_Err s, [LogStreamError errorID e])
      | None =>
          ret (status_Error Codes.Internal (foreign_text e), [LogUnhandled e])
      end
  end.

(** ** [strconv] with the value returned beside the error *)

(** The command-line decoder drops the error of the parsers and keeps the
    value: 0 after a syntax error, the nearest bound after a range error. *)
Module StrconvValue.

Inductive NumError := ErrSyntax | ErrRange.

(** The digit loop of [ParseUint]: it stops at the first byte that is not a
    digit, or at the first digit that takes the value past 64 bits. *)
Fixpoint uint_loop (n : Z) (s : string) : Z * option NumError :=
  match s with
  | EmptyString => (n, None)
  | String c rest =>
      match Strconv.digit_val c with
      | None => (0, Some ErrSyntax)
      | Some d =>
          if Strconv.uint64_max <? 10 * n + d then (Strconv.uint64_max, Some ErrRange)
          else uint_loop (10 * n + d) rest
      end
  end.

Definition ParseUint (s : string) : Z * option NumError :=
  match s with
  | EmptyString => (0, Some ErrSyntax)
  | _ => uint_loop 0 s
  end.

Definition ParseInt (s : string) : Z * option NumError :=
  match s with
  | EmptyString => (0, Some ErrSyntax)
  | String c rest =>
      let neg := Ascii.eqb c "-" in
      let body := if Ascii.eqb c "+" || neg then rest else s in
      match ParseUint body with
      | (_, Some ErrSyntax) => (0, Some ErrSyntax)
      | (un, _) =>
          if negb neg && (2 ^ 63 <=? un) then (2 ^ 63 - 1, Some ErrRange)
          else if neg && (2 ^ 63 <? un) then (- 2 ^ 63, Some ErrRange)
          else (if neg then - un else un, None)
      end
  end.

Definition Atoi : string -> Z * option NumError := ParseInt.

End StrconvValue.

(** ** The command-line decoder, [cmd/error-decoder] *)

Module ErrorDecoder.

Record ErrorInfo := mkErrorInfo {
  Package : string;
  Function : string;
  File : string;
  Line : Z;
  Timestamp : Z;
  GoroutineID : Z;
  ProcessID : Z;
  Random : string;
  HumanTime : string;
  Raw : string
}.

Inductive ParseError :=
| ErrDecode            (* the identifier does not decode *)
| ErrParts (got : Z)   (* fewer than 6 parts *)
| ErrNoAt.             (* no [@] separator *)

Section Parse.

(** [time.Unix(0, ts).Format("2006-01-02 15:04:05.000000000")]. *)
Variable local_time_format_nanos : Z -> string.

(** [parseErrorID]; it is written against the [DecodeErrorID] that returns
    the decoded text under the key [raw] and fails only when the base64 step
    does. *)
Definition parseErrorID (errorID : string) : option ErrorInfo * option ParseError :=
  match Base64.DecodeString errorID with
  | None => (None, Some ErrDecode)
  | Some raw =>
      let parts := GoStrings.Split raw ":" in
      if Z.of_nat (length parts) <? 6 then
        (None, Some (ErrParts (Z.of_nat (length parts))))
      else
        let funcPart := part parts 0 in
        let atIndex := GoStrings.LastIndex funcPart "@" in
        if atIndex =? -1 then (None, Some ErrNoAt)
        else
          let pkgFunc := GoStrings.slice_to funcPart atIndex in
          let file := GoStrings.slice_from funcPart (atIndex + 1) in
          let lastDotIndex := GoStrings.LastIndex pkgFunc "." in
          let '(pkg, function) :=
            if negb (lastDotIndex =? -1)
            then (GoStrings.slice_to pkgFunc lastDotIndex,
                  GoStrings.slice_from pkgFunc (lastDotIndex + 1))
            else ("main", pkgFunc) in
          let line := fst (StrconvValue.Atoi (part parts 1)) in
          let timestamp := fst (StrconvValue.ParseInt (part parts 2)) in
          let goroutineID := fst (StrconvValue.ParseUint (part parts 3)) in
          let processID := fst (StrconvValue.Atoi (part parts 4)) in
          let random := part parts 5 in
          let humanTime := local_time_format_nanos timestamp in
          (Some (mkErrorInfo pkg function file line timestamp goroutineID
                   processID random humanTime raw),
           None)
  end.

End Parse.

End ErrorDecoder.

(** ** Lists of codes used in the statements *)

(** The RPC codes that come back unchanged from a translation to the web
    space and back. *)
Definition rpc_fixed : list Codes.Code :=
  [Codes.OK; Codes.InvalidArgument; Codes.DeadlineExceeded; Codes.NotFound;
   Codes.PermissionDenied; Codes.ResourceExhausted; Codes.Aborted;
   Codes.Unimplemented; Codes.Internal; Codes.Unavailable; Codes.Unauthenticated].

(** The web codes [ToHTTPCode] can return. *)
Definition web_image : list Z := 499 :: web_table.

(* ===================================================================== *)
(** * Part II: properties *)
(* ===================================================================== *)

(** ** The library models on known values *)

Example base64_known_texts :
  Base64.EncodeToString "" = ""
  /\ Base64.EncodeToString "f" = "Zg=="
  /\ Base64.EncodeToString "fo" = "Zm8="
  /\ Base64.EncodeToString "foobar" = "Zm9vYmFy"
  /\ Base64.DecodeString "Zm9vYmFy" = Some "foobar"
  /\ Base64.DecodeString "Zg=" = None
  /\ Base64.DecodeString "Zg==Zg==" = None
  /\ Base64.DecodeString "Zm9v*mFy" = None.
Proof. repeat split; reflexivity. Qed.

Example split_known_texts :
  GoStrings.Split "a:b::c" ":" = ["a"; "b"; ""; "c"]
  /\ GoStrings.Split "" ":" = [""]
  /\ GoStrings.LastIndex "f@a@b.go" "@" = 3
  /\ GoStrings.LastIndex "service.go" "@" = -1.
Proof. repeat split; reflexivity. Qed.

Example strconv_known_texts :
  Strconv.Atoi "87" = Some 87
  /\ Strconv.Atoi "+12" = Some 12
  /\ Strconv.Atoi "-0" = Some 0
  /\ Strconv.Atoi "" = None
  /\ Strconv.Atoi "x7" = None
  /\ Strconv.ParseInt "9223372036854775808" = None
  /\ Strconv.ParseInt "-9223372036854775808" = Some (-9223372036854775808)
  /\ Strconv.ParseUint "-3" = None
  /\ Strconv.ParseUint "18446744073709551615" = Some 18446744073709551615
  /\ Strconv.Itoa (-120) = "-120".
Proof. repeat split; reflexivity. Qed.

Example utf8_known_texts :
  Utf8.ValidString "" = true
  /\ Utf8.ValidString "USER_NOT_FOUND" = true
  /\ Utf8.ValidString (String "195" (String "169" "")) = true
  /\ Utf8.ValidString (String "226" (String "130" (String "172" "!"))) = true
  /\ Utf8.ValidString (String "240" (String "159" (String "152" (String "128" ""))))
     = true
  /\ Utf8.ValidString (String "255" "") = false
  /\ Utf8.ValidString (String "128" "") = false
  /\ Utf8.ValidString (String "192" (String "128" "")) = false
  /\ Utf8.ValidString (String "237" (String "160" (String "128" ""))) = false
  /\ Utf8.ValidString (String "226" (String "130" "")) = false
  /\ Utf8.ValidString (String "244" (String "144" (String "128" (String "128" ""))))
     = false
  /\ Utf8.ValidString ("bad " ++ String "255" " text") = false.
Proof. repeat split; reflexivity. Qed.

Example filepath_known_texts :
  Filepath.Base "/srv/shop/internal/order/service.go" = "service.go"
  /\ Filepath.Base "service.go" = "service.go"
  /\ Filepath.Base "/a/b//" = "b"
  /\ Filepath.Base "///" = "/"
  /\ Filepath.Base "" = ".".
Proof. repeat split; reflexivity. Qed.

Example sample_records :
  internalRecord 3 sample_env
    = "Create@service.go:87:1700000000000000000:17:4242:deadbeef"
  /\ generateErrorID 2 sample_env
      = "Q3JlYXRlQHNlcnZpY2UuZ286ODc6MTcwMDAwMDAwMDAwMDAwMDAwMDoxNzo0MjQyOmRlYWRiZWVm"
  /\ fallbackRecord sample_env_panicking
      = "fallback:1700000000000000100:4242:16909060"
  /\ generateErrorID 2 sample_env_panicking
      = "ZmFsbGJhY2s6MTcwMDAwMDAwMDAwMDAwMDEwMDo0MjQyOjE2OTA5MDYw".
Proof. repeat split; reflexivity. Qed.

(** ** Bytes and bit operations *)

Lemma byte_val_range (c : ascii) : 0 <= byte_val c < 256.
Proof.
  unfold byte_val. pose proof (N_ascii_bounded c). lia.
Qed.

Lemma mask_255 (z : Z) : Z.land z 255 = z mod 256.
Proof. exact (Z.land_ones z 8 ltac:(lia)). Qed.

Lemma mask_63 (z : Z) : Z.land z 63 = z mod 64.
Proof. exact (Z.land_ones z 6 ltac:(lia)). Qed.

Lemma byte_of_mod (z : Z) : byte_of z = byte_of (z mod 256).
Proof.
  unfold byte_of. rewrite !mask_255. now rewrite Z.mod_mod by lia.
Qed.

Lemma byte_of_val (c : ascii) : byte_of (byte_val c) = c.
Proof.
  unfold byte_of. rewrite mask_255.
  pose proof (byte_val_range c) as Hc.
  rewrite Z.mod_small by lia. unfold byte_val.
  rewrite N2Z.id. apply ascii_N_embedding.
Qed.

(** An [|] whose left operand is shifted clear of the right one is a sum. *)
Lemma lor_shiftl_low (a b n : Z) :
  0 <= n -> 0 <= b < 2 ^ n -> Z.lor (Z.shiftl a n) b = a * 2 ^ n + b.
Proof.
  intros Hn Hb.
  assert (Hdisj : Z.land (Z.shiftl a n) b = 0).
  { apply Z.bits_inj'. intros i Hi.
    rewrite Z.land_spec, Z.bits_0.
    destruct (Z.lt_ge_cases i n) as [Hlt | Hge].
    - now rewrite Z.shiftl_spec_low.
    - rewrite <- (Z.mod_small b (2 ^ n)) by lia.
      rewrite Z.mod_pow2_bits_high by lia. apply andb_false_r. }
  pose proof (Z.add_lor_land (Z.shiftl a n) b) as Hsum.
  rewrite Hdisj, Z.add_0_r in Hsum.
  rewrite Hsum. now rewrite Z.shiftl_mul_pow2.
Qed.

Ltac shifts_to_arith :=
  repeat first
    [ rewrite mask_63
    | rewrite mask_255
    | rewrite Z.shiftr_div_pow2 by lia
    | rewrite Z.shiftl_mul_pow2 by lia ];
  repeat match goal with
         | |- context [2 ^ ?n] =>
             let v := eval compute in (2 ^ n) in change (2 ^ n) with v
         end.

(** Linear arithmetic with division and remainder by constants. *)
Ltac divmod_lia := Z.div_mod_to_equations; lia.

(** ** Base64: decoding undoes encoding *)

Lemma string_by_three (P : string -> Prop) :
  P EmptyString ->
  (forall a, P (String a EmptyString)) ->
  (forall a b, P (String a (String b EmptyString))) ->
  (forall a b c rest, P rest -> P (String a (String b (String c rest)))) ->
  forall s, P s.
Proof.
  intros H0 H1 H2 H3 s.
  enough (P s /\ (forall a, P (String a s)) /\ (forall a b, P (String a (String b s))))
    by tauto.
  induction s as [| c rest (IHa & IHb & IHc)].
  - auto.
  - repeat split; auto.
Qed.

Lemma encode_idx_sound (v : Z) :
  0 <= v < 64 ->
  Base64.decode_idx (Base64.encode_idx v) = Some v
  /\ Ascii.eqb (Base64.encode_idx v) Base64.padChar = false
  /\ Ascii.eqb (Base64.encode_idx v) "010" = false
  /\ Ascii.eqb (Base64.encode_idx v) "013" = false.
Proof.
  intros Hv.
  rewrite <- (Z2Nat.id v) by lia.
  assert (Hn : (Z.to_nat v < 64)%nat) by lia.
  generalize dependent (Z.to_nat v). clear v Hv. intros n Hn.
  do 64 (destruct n as [| n]; [vm_compute; auto |]).
  lia.
Qed.

(** The three-byte group [a b c] as the source assembles it. *)
Lemma group_value (a b c : ascii) :
  Z.lor (Z.lor (Z.shiftl (byte_val a) 16) (Z.shiftl (byte_val b) 8)) (byte_val c)
  = byte_val a * 65536 + byte_val b * 256 + byte_val c.
Proof.
  pose proof (byte_val_range a). pose proof (byte_val_range b).
  pose proof (byte_val_range c).
  rewrite (lor_shiftl_low (byte_val a) (Z.shiftl (byte_val b) 8) 16);
    [| lia | rewrite Z.shiftl_mul_pow2 by lia; lia].
  rewrite Z.shiftl_mul_pow2 by lia.
  replace (byte_val a * 2 ^ 16 + byte_val b * 2 ^ 8)
    with ((byte_val a * 256 + byte_val b) * 2 ^ 8) by lia.
  rewrite <- (Z.shiftl_mul_pow2 _ 8) by lia.
  rewrite lor_shiftl_low by lia. lia.
Qed.

Lemma pair_value (a b : ascii) :
  Z.lor (Z.shiftl (byte_val a) 16) (Z.shiftl (byte_val b) 8)
  = byte_val a * 65536 + byte_val b * 256.
Proof.
  pose proof (byte_val_range a). pose proof (byte_val_range b).
  rewrite (lor_shiftl_low (byte_val a) (Z.shiftl (byte_val b) 8) 16);
    [| lia | rewrite Z.shiftl_mul_pow2 by lia; lia].
  rewrite Z.shiftl_mul_pow2 by lia. lia.
Qed.

Lemma quantum_value (v0 v1 v2 v3 : Z) :
  0 <= v0 < 64 -> 0 <= v1 < 64 -> 0 <= v2 < 64 -> 0 <= v3 < 64 ->
  Base64.quantum v0 v1 v2 v3 = v0 * 262144 + v1 * 4096 + v2 * 64 + v3.
Proof.
  intros H0 H1 H2 H3. unfold Base64.quantum.
  rewrite (lor_shiftl_low v0 (Z.shiftl v1 12) 18);
    [| lia | rewrite Z.shiftl_mul_pow2 by lia; lia].
  rewrite (Z.shiftl_mul_pow2 v1) by lia.
  replace (v0 * 2 ^ 18 + v1 * 2 ^ 12) with ((v0 * 64 + v1) * 2 ^ 12) by lia.
  rewrite <- (Z.shiftl_mul_pow2 _ 12) by lia.
  rewrite (lor_shiftl_low (v0 * 64 + v1) (Z.shiftl v2 6) 12);
    [| lia | rewrite Z.shiftl_mul_pow2 by lia; lia].
  rewrite (Z.shiftl_mul_pow2 v2) by lia.
  replace ((v0 * 64 + v1) * 2 ^ 12 + v2 * 2 ^ 6)
    with (((v0 * 64 + v1) * 64 + v2) * 2 ^ 6) by lia.
  rewrite <- (Z.shiftl_mul_pow2 _ 6) by lia.
  rewrite lor_shiftl_low by lia. lia.
Qed.

Lemma sextet_range (x : Z) : 0 <= Z.land x 63 < 64.
Proof. rewrite mask_63. apply Z.mod_pos_bound. lia. Qed.

Lemma byte_of_eq (z : Z) (c : ascii) : z mod 256 = byte_val c -> byte_of z = c.
Proof.
  intros Hz. rewrite byte_of_mod, Hz. apply byte_of_val.
Qed.

Lemma group_roundtrip (a b c : ascii) :
  let val := Z.lor (Z.lor (Z.shiftl (byte_val a) 16) (Z.shiftl (byte_val b) 8))
               (byte_val c) in
  let q := Base64.quantum (Z.land (Z.shiftr val 18) 63) (Z.land (Z.shiftr val 12) 63)
             (Z.land (Z.shiftr val 6) 63) (Z.land val 63) in
  byte_of (Z.shiftr q 16) = a /\ byte_of (Z.shiftr q 8) = b /\ byte_of q = c.
Proof.
  intros val q. subst q.
  rewrite quantum_value by apply sextet_range.
  subst val. rewrite group_value.
  pose proof (byte_val_range a). pose proof (byte_val_range b).
  pose proof (byte_val_range c).
  repeat split; apply byte_of_eq; shifts_to_arith; divmod_lia.
Qed.

Lemma pair_roundtrip (a b : ascii) :
  let val := Z.lor (Z.shiftl (byte_val a) 16) (Z.shiftl (byte_val b) 8) in
  let q := Base64.quantum (Z.land (Z.shiftr val 18) 63) (Z.land (Z.shiftr val 12) 63)
             (Z.land (Z.shiftr val 6) 63) 0 in
  byte_of (Z.shiftr q 16) = a /\ byte_of (Z.shiftr q 8) = b.
Proof.
  intros val q. subst q.
  rewrite quantum_value by (try apply sextet_range; lia).
  subst val. rewrite pair_value.
  pose proof (byte_val_range a). pose proof (byte_val_range b).
  repeat split; apply byte_of_eq; shifts_to_arith; divmod_lia.
Qed.

Lemma single_roundtrip (a : ascii) :
  let val := Z.shiftl (byte_val a) 16 in
  let q := Base64.quantum (Z.land (Z.shiftr val 18) 63) (Z.land (Z.shiftr val 12) 63)
             0 0 in
  byte_of (Z.shiftr q 16) = a.
Proof.
  intros val q. subst q.
  rewrite quantum_value by (try apply sextet_range; lia).
  subst val.
  pose proof (byte_val_range a).
  apply byte_of_eq; shifts_to_arith; divmod_lia.
Qed.

Ltac sextet_facts :=
  repeat match goal with
         | |- context [Base64.encode_idx (Z.land ?x 63)] =>
             lazymatch goal with
             | _ : Base64.decode_idx (Base64.encode_idx (Z.land x 63)) = _ |- _ => fail
             | _ => destruct (encode_idx_sound (Z.land x 63) (sextet_range x))
                      as (? & ? & ? & ?)
             end
         end.

Ltac use_facts :=
  repeat match goal with
         | H : _ = _ |- _ => rewrite H
         end.

Lemma pad_not_newline :
  Ascii.eqb Base64.padChar "010" || Ascii.eqb Base64.padChar "013" = false.
Proof. reflexivity. Qed.

Lemma strip_encoded (s : string) :
  Base64.strip_newlines (Base64.EncodeToString s) = Base64.EncodeToString s.
Proof.
  induction s as [| a | a b | a b c rest IH] using string_by_three;
    cbn [Base64.EncodeToString Base64.strip_newlines];
    sextet_facts; use_facts; cbn [orb]; rewrite ?pad_not_newline; reflexivity.
Qed.

Lemma decode_quanta_encoded (s : string) :
  Base64.decode_quanta (Base64.EncodeToString s) = Some s.
Proof.
  induction s as [| a | a b | a b c rest IH] using string_by_three;
    cbn [Base64.EncodeToString Base64.decode_quanta].
  - reflexivity.
  - sextet_facts. use_facts. rewrite !Ascii.eqb_refl.
    now rewrite single_roundtrip.
  - sextet_facts. use_facts. rewrite !Ascii.eqb_refl.
    destruct (pair_roundtrip a b) as [-> ->]. reflexivity.
  - sextet_facts. use_facts.
    destruct (group_roundtrip a b c) as (-> & -> & ->). reflexivity.
Qed.

Theorem DecodeString_EncodeToString (s : string) :
  Base64.DecodeString (Base64.EncodeToString s) = Some s.
Proof.
  unfold Base64.DecodeString. rewrite strip_encoded. apply decode_quanta_encoded.
Qed.

(** ** Strings *)

Lemma app_cons (d : ascii) (a b : string) : String d a ++ b = String d (a ++ b).
Proof. reflexivity. Qed.

Lemma app_empty (b : string) : EmptyString ++ b = b.
Proof. reflexivity. Qed.

Lemma contains_app (a b : string) (c : ascii) :
  GoStrings.contains (a ++ b) c = GoStrings.contains a c || GoStrings.contains b c.
Proof.
  induction a as [| d a IH]; rewrite ?app_cons, ?app_empty; cbn [GoStrings.contains].
  - reflexivity.
  - now rewrite IH, orb_assoc.
Qed.

Lemma Split_nonempty (s : string) (sep : ascii) : GoStrings.Split s sep <> [].
Proof.
  destruct s as [| c rest]; cbn [GoStrings.Split]; [discriminate |].
  destruct (Ascii.eqb c sep); [discriminate |].
  destruct (GoStrings.Split rest sep); discriminate.
Qed.

Lemma Split_whole (a : string) (sep : ascii) :
  GoStrings.contains a sep = false -> GoStrings.Split a sep = [a].
Proof.
  induction a as [| d a IH]; cbn [GoStrings.contains GoStrings.Split]; intros H.
  - reflexivity.
  - apply orb_false_elim in H as [Hd Ha]. rewrite Hd, (IH Ha). reflexivity.
Qed.

Lemma Split_field (a rest : string) (sep : ascii) :
  GoStrings.contains a sep = false ->
  GoStrings.Split (a ++ String sep rest) sep = a :: GoStrings.Split rest sep.
Proof.
  induction a as [| d a IH]; rewrite ?app_cons, ?app_empty;
    cbn [GoStrings.contains]; intros H.
  - cbn [GoStrings.Split]. now rewrite Ascii.eqb_refl.
  - apply orb_false_elim in H as [Hd Ha].
    cbn [GoStrings.Split]. rewrite Hd, (IH Ha). reflexivity.
Qed.

Lemma LastIndex_range (s : string) (c : ascii) :
  -1 <= GoStrings.LastIndex s c < strlen s.
Proof.
  unfold strlen.
  induction s as [| d s IH]; cbn [GoStrings.LastIndex String.length]; [lia |].
  destruct (Z.leb_spec 0 (GoStrings.LastIndex s c)); [lia |].
  destruct (Ascii.eqb d c); lia.
Qed.

Lemma LastIndex_absent (s : string) (c : ascii) :
  GoStrings.contains s c = false -> GoStrings.LastIndex s c = -1.
Proof.
  induction s as [| d s IH]; cbn [GoStrings.contains GoStrings.LastIndex]; intros H.
  - reflexivity.
  - apply orb_false_elim in H as [Hd Hs]. rewrite (IH Hs), Hd. reflexivity.
Qed.

(** Behind a prefix [a] that is followed by [c], the last [c] stands at or
    after the end of [a]. *)
Lemma LastIndex_after (a b : string) (c : ascii) :
  strlen a <= GoStrings.LastIndex (a ++ String c b) c.
Proof.
  unfold strlen.
  induction a as [| d a IH]; rewrite ?app_cons, ?app_empty;
    cbn [GoStrings.LastIndex String.length].
  - destruct (Z.leb_spec 0 (GoStrings.LastIndex b c)); [lia |].
    rewrite Ascii.eqb_refl. lia.
  - destruct (Z.leb_spec 0 (GoStrings.LastIndex (a ++ String c b) c)); lia.
Qed.

(** When the last [c] is the final byte. *)
Lemma LastIndex_final (s : string) (c : ascii) :
  0 <= GoStrings.LastIndex s c -> GoStrings.LastIndex s c = strlen s - 1 ->
  GoStrings.last_byte s = Some c.
Proof.
  unfold strlen.
  induction s as [| d s IH]; cbn [GoStrings.LastIndex String.length]; [lia |].
  pose proof (LastIndex_range s c) as Hr. unfold strlen in Hr.
  destruct (Z.leb_spec 0 (GoStrings.LastIndex s c)) as [Hge | Hlt].
  - intros _ Hlast. destruct s as [| e s]; [cbn in Hge; lia |].
    change (GoStrings.last_byte (String d (String e s)))
      with (GoStrings.last_byte (String e s)).
    apply IH; lia.
  - destruct (Ascii.eqb_spec d c) as [-> |]; [| lia].
    intros _ Hlast. destruct s; [reflexivity | cbn [String.length] in Hlast; lia].
Qed.

Lemma last_byte_app (a b : string) :
  b <> EmptyString -> GoStrings.last_byte (a ++ b) = GoStrings.last_byte b.
Proof.
  intros Hb. induction a as [| d a IH]; [reflexivity |].
  rewrite app_cons.
  destruct (a ++ b) eqn:E.
  - destruct a; [rewrite app_empty in E; congruence | rewrite app_cons in E; discriminate].
  - cbn [GoStrings.last_byte]. exact IH.
Qed.

Lemma slice_to_nonempty (s : string) (i : Z) :
  1 <= i -> s <> EmptyString -> GoStrings.slice_to s i <> EmptyString.
Proof.
  intros Hi Hs. unfold GoStrings.slice_to.
  destruct s as [| d s]; [congruence |].
  destruct (Z.to_nat i) eqn:E; [lia |]. cbn. discriminate.
Qed.

Lemma substring_nonempty (s : string) (n m : nat) :
  (n < String.length s)%nat -> (0 < m)%nat -> String.substring n m s <> EmptyString.
Proof.
  revert n m. induction s as [| d s IH]; intros n m Hn Hm; cbn in Hn; [lia |].
  destruct n as [| n]; cbn.
  - destruct m; [lia | discriminate].
  - apply IH; lia.
Qed.

Lemma slice_from_nonempty (s : string) (i : Z) :
  0 <= i < strlen s -> GoStrings.slice_from s i <> EmptyString.
Proof.
  unfold strlen, GoStrings.slice_from. intros Hi.
  apply substring_nonempty; lia.
Qed.

Lemma contains_substring (s : string) (n m : nat) (c : ascii) :
  GoStrings.contains s c = false ->
  GoStrings.contains (String.substring n m s) c = false.
Proof.
  revert n m. induction s as [| d s IH]; intros n m H.
  - destruct n, m; reflexivity.
  - cbn [GoStrings.contains] in H. apply orb_false_elim in H as [Hd Hs].
    destruct n as [| n]; cbn [String.substring].
    + destruct m as [| m]; [reflexivity |].
      cbn [GoStrings.contains]. now rewrite Hd, IH.
    + now apply IH.
Qed.

Lemma strlen_app (a b : string) : strlen (a ++ b) = strlen a + strlen b.
Proof.
  unfold strlen.
  induction a as [| d a IH]; rewrite ?app_cons, ?app_empty; cbn [String.length]; lia.
Qed.

(** ** Decimal rendering and parsing *)

Ltac eval_digits :=
  repeat match goal with
         | |- context [Strconv.digit_val (Ascii ?b0 ?b1 ?b2 ?b3 ?b4 ?b5 ?b6 ?b7)] =>
             let c := constr:(Ascii b0 b1 b2 b3 b4 b5 b6 b7) in
             let v := eval vm_compute in (Strconv.digit_val c) in
             change (Strconv.digit_val c) with v
         end.

Lemma digits_colon_free (d : uint) :
  GoStrings.contains (NilEmpty.string_of_uint d) ":" = false.
Proof.
  induction d; cbn [NilEmpty.string_of_uint GoStrings.contains]; auto.
Qed.

Lemma FormatUint_colon_free (z : Z) :
  GoStrings.contains (Strconv.FormatUint z) ":" = false.
Proof.
  unfold Strconv.FormatUint, NilZero.string_of_uint.
  destruct (N.to_uint (Z.to_N z)) eqn:E; try reflexivity;
    rewrite <- E; apply digits_colon_free.
Qed.

Lemma FormatInt_colon_free (z : Z) :
  GoStrings.contains (Strconv.FormatInt z) ":" = false.
Proof.
  unfold Strconv.FormatInt, NilZero.string_of_int.
  assert (Hu : forall d, GoStrings.contains (NilZero.string_of_uint d) ":" = false).
  { intros d. unfold NilZero.string_of_uint.
    destruct d eqn:E; try reflexivity; rewrite <- E; apply digits_colon_free. }
  destruct (Z.to_int z); [apply Hu |].
  cbn [GoStrings.contains]. now rewrite Hu.
Qed.

Lemma parse_digits_pos (d : uint) (p : positive) :
  Strconv.parse_digits (Zpos p) (NilEmpty.string_of_uint d)
  = Some (Zpos (Pos.of_uint_acc d p)).
Proof.
  revert p.
  induction d as [| d IH | d IH | d IH | d IH | d IH | d IH | d IH | d IH | d IH | d IH];
    intros p;
    cbn [NilEmpty.string_of_uint Strconv.parse_digits Pos.of_uint_acc];
    [reflexivity | ..]; eval_digits; cbv iota beta;
    rewrite <- IH; f_equal; lia.
Qed.

Lemma parse_digits_zero (d : uint) :
  Strconv.parse_digits 0 (NilEmpty.string_of_uint d) = Some (Z.of_N (Pos.of_uint d)).
Proof.
  induction d as [| d IH | d IH | d IH | d IH | d IH | d IH | d IH | d IH | d IH | d IH];
    cbn [NilEmpty.string_of_uint Strconv.parse_digits Pos.of_uint];
    [reflexivity | exact IH | ..]; eval_digits; cbv iota beta;
    cbn [Z.of_N]; rewrite <- parse_digits_pos; reflexivity.
Qed.

Lemma pos_digits_nonnil (p : positive) : Pos.to_uint p <> Nil.
Proof.
  intros E. pose proof (DecimalPos.Unsigned.of_to p) as H.
  rewrite E in H. discriminate.
Qed.

(** The decimal text of a positive number: it is not empty, it starts with a
    digit, and the digit loop reads the number back. *)
Lemma pos_text (p : positive) :
  exists c rest,
    NilZero.string_of_uint (Pos.to_uint p) = String c rest
    /\ Ascii.eqb c "-" = false /\ Ascii.eqb c "+" = false
    /\ Strconv.parse_digits 0 (String c rest) = Some (Zpos p).
Proof.
  pose proof (pos_digits_nonnil p) as Hn.
  pose proof (parse_digits_zero (Pos.to_uint p)) as Hp.
  rewrite DecimalPos.Unsigned.of_to in Hp. cbn [Z.of_N] in Hp.
  unfold NilZero.string_of_uint.
  destruct (Pos.to_uint p); [congruence | ..];
    cbn [NilEmpty.string_of_uint] in *; eauto 10.
Qed.

Lemma ParseUint_FormatUint (z : Z) :
  0 <= z <= Strconv.uint64_max -> Strconv.ParseUint (Strconv.FormatUint z) = Some z.
Proof.
  intros Hz. unfold Strconv.FormatUint.
  destruct z as [| p | p]; [reflexivity | | lia].
  cbn [Z.to_N N.to_uint].
  destruct (pos_text p) as (c & rest & -> & _ & _ & Hp).
  unfold Strconv.ParseUint. rewrite Hp.
  destruct (Z.leb_spec (Zpos p) Strconv.uint64_max); [reflexivity | lia].
Qed.

Lemma ParseInt_FormatInt (z : Z) :
  Strconv.int64_min <= z <= Strconv.int64_max ->
  Strconv.ParseInt (Strconv.FormatInt z) = Some z.
Proof.
  unfold Strconv.int64_min, Strconv.int64_max. intros Hz.
  unfold Strconv.FormatInt.
  destruct z as [| p | p]; [reflexivity | |]; cbn [Z.to_int NilZero.string_of_int];
    destruct (pos_text p) as (c & rest & -> & Hminus & Hplus & Hp).
  - unfold Strconv.ParseInt. rewrite Hminus, Hplus. cbn [orb negb andb].
    unfold Strconv.ParseUint. rewrite Hp.
    destruct (Z.leb_spec (Zpos p) Strconv.uint64_max) as [_ | Hbig];
      [| unfold Strconv.uint64_max in Hbig; lia].
    destruct (Z.leb_spec (2 ^ 63) (Zpos p)); [lia | reflexivity].
  - unfold Strconv.ParseInt. cbn [Ascii.eqb Bool.eqb orb negb andb].
    unfold Strconv.ParseUint. rewrite Hp.
    destruct (Z.leb_spec (Zpos p) Strconv.uint64_max) as [_ | Hbig];
      [| unfold Strconv.uint64_max in Hbig; lia].
    destruct (Z.ltb_spec (2 ^ 63) (Zpos p)); [lia | reflexivity].
Qed.

(** ** The identifier codec *)

Lemma app_assoc_s (a b c : string) : (a ++ b) ++ c = a ++ b ++ c.
Proof.
  induction a as [| d a IH]; rewrite ?app_cons, ?app_empty; [reflexivity |].
  now rewrite IH.
Qed.

Lemma colon_app (x : string) : ":" ++ x = String ":" x.
Proof. reflexivity. Qed.

Lemma app_sep_nonempty (a b : string) (c : ascii) : a ++ String c b <> EmptyString.
Proof.
  destruct a; rewrite ?app_cons, ?app_empty; discriminate.
Qed.

Lemma EncodeToString_nonempty (s : string) :
  s <> EmptyString -> Base64.EncodeToString s <> EmptyString.
Proof.
  destruct s as [| a [| b [| c rest]]]; [congruence | ..];
    cbn [Base64.EncodeToString]; discriminate.
Qed.

Lemma internalRecord_nonempty (skip : Z) (env : Env) :
  internalRecord skip env <> EmptyString.
Proof.
  unfold internalRecord. destruct (callSite skip env) as [[funcName filename] line].
  apply app_sep_nonempty.
Qed.

Lemma fallbackRecord_marked (env : Env) :
  exists rest, fallbackRecord env = "fallback:" ++ rest.
Proof.
  unfold fallbackRecord. destruct (fallback_rand env) as [[[r0 r1] r2] r3]. eauto.
Qed.

(** Which path an identifier comes from. *)
Lemma generateErrorID_paths (skip : Z) (env : Env) :
  generateErrorID skip env =
    if internal_panics env then generateFallbackErrorID env
    else Base64.EncodeToString (internalRecord (skip + 1) env).
Proof.
  unfold generateErrorID, tryGenerateErrorID, generateErrorIDInternal.
  destruct (internal_panics env); [reflexivity |].
  pose proof (EncodeToString_nonempty _ (internalRecord_nonempty (skip + 1) env)).
  destruct (Base64.EncodeToString (internalRecord (skip + 1) env)); congruence.
Qed.

Lemma generateErrorID_nonempty (skip : Z) (env : Env) :
  generateErrorID skip env <> EmptyString.
Proof.
  rewrite generateErrorID_paths. destruct (internal_panics env).
  - apply EncodeToString_nonempty.
    destruct (fallbackRecord_marked env) as [rest ->]. discriminate.
  - apply EncodeToString_nonempty, internalRecord_nonempty.
Qed.

Lemma fallback_fields (env : Env) :
  exists t p r,
    GoStrings.Split (fallbackRecord env) ":" = ["fallback"; t; p; r].
Proof.
  unfold fallbackRecord. destruct (fallback_rand env) as [[[r0 r1] r2] r3].
  do 3 eexists.
  change ("fallback:" ++ ?x) with ("fallback" ++ String ":" x).
  rewrite Split_field by reflexivity.
  rewrite !colon_app.
  rewrite !Split_field by apply FormatInt_colon_free.
  rewrite Split_whole by apply FormatInt_colon_free.
  reflexivity.
Qed.

(** [DecodeErrorID] on an identifier whose payload has fewer than six
    fields. *)
Lemma DecodeErrorID_short (tz : Z -> string) (id raw : string) :
  Base64.DecodeString id = Some raw ->
  (length (GoStrings.Split raw ":") < 6)%nat ->
  DecodeErrorID tz id =
    (Some (mkInfo "" "" 0 0 0 0 "" "" raw),
     Some (ErrFormat (Z.of_nat (length (GoStrings.Split raw ":"))))).
Proof.
  intros Hraw Hlen. unfold DecodeErrorID. rewrite Hraw.
  destruct (Z.ltb_spec (Z.of_nat (length (GoStrings.Split raw ":"))) 6);
    [reflexivity | lia].
Qed.

(** [DecodeErrorID] on an identifier whose payload has at least six
    fields. *)
Lemma DecodeErrorID_long (tz : Z -> string) (id raw : string) :
  Base64.DecodeString id = Some raw ->
  (6 <= length (GoStrings.Split raw ":"))%nat ->
  let parts := GoStrings.Split raw ":" in
  let atIndex := GoStrings.LastIndex (part parts 0) "@" in
  DecodeErrorID tz id =
    (Some (mkInfo
             (if 0 <=? atIndex then GoStrings.slice_to (part parts 0) atIndex
              else "unknown")
             (if 0 <=? atIndex then GoStrings.slice_from (part parts 0) (atIndex + 1)
              else part parts 0)
             (default 0 (Strconv.Atoi (part parts 1)))
             (default 0 (Strconv.ParseInt (part parts 2)))
             (default 0 (Strconv.ParseUint (part parts 3)))
             (default 0 (Strconv.Atoi (part parts 4)))
             (part parts 5)
             (match Strconv.ParseInt (part parts 2) with
              | Some ts => tz ts
              | None => ""
              end)
             raw),
     None).
Proof.
  intros Hraw Hlen parts atIndex. unfold DecodeErrorID. rewrite Hraw.
  fold parts. fold atIndex.
  destruct (Z.ltb_spec (Z.of_nat (length parts)) 6) as [Hlt | _];
    [subst parts; lia |].
  destruct (Z.ltb_spec 5 (Z.of_nat (length parts))) as [_ | Hge];
    [| subst parts; lia].
  destruct (0 <=? atIndex);
    destruct (Strconv.Atoi (part parts 1)), (Strconv.ParseInt (part parts 2)),
      (Strconv.ParseUint (part parts 3)), (Strconv.Atoi (part parts 4));
    reflexivity.
Qed.

(** C8: [DecodeErrorID] returns an error exactly when the base64 step fails
    or the payload splits on [:] into fewer than six fields.  With six fields
    or more it returns no error, and each of the integer fields (line,
    timestamp, goroutine id, process id) that does not parse is left at
    zero. *)
Theorem C8_decode_fails_iff_short (tz : Z -> string) (id : string) :
  (snd (DecodeErrorID tz id) <> None <->
     Base64.DecodeString id = None
     \/ exists raw, Base64.DecodeString id = Some raw
                    /\ (length (GoStrings.Split raw ":") < 6)%nat)
  /\ (forall raw,
        Base64.DecodeString id = Some raw ->
        (6 <= length (GoStrings.Split raw ":"))%nat ->
        let parts := GoStrings.Split raw ":" in
        exists info,
          DecodeErrorID tz id = (Some info, None)
          /\ Raw info = raw
          /\ Line info = default 0 (Strconv.Atoi (part parts 1))
          /\ Timestamp info = default 0 (Strconv.ParseInt (part parts 2))
          /\ GoroutineID info = default 0 (Strconv.ParseUint (part parts 3))
          /\ ProcessID info = default 0 (Strconv.Atoi (part parts 4))
          /\ RandomSuffix info = part parts 5).
Proof.
  split.
  - destruct (Base64.DecodeString id) as [raw |] eqn:Hraw.
    + destruct (Nat.lt_ge_cases (length (GoStrings.Split raw ":")) 6) as [Hlt | Hge].
      * rewrite (DecodeErrorID_short tz id raw Hraw Hlt). cbn [snd].
        split; [eauto | discriminate].
      * rewrite (DecodeErrorID_long tz id raw Hraw Hge). cbn [snd].
        split; [congruence |].
        intros [Hnone | (raw' & [= <-] & Hlt)]; [discriminate | lia].
    + unfold DecodeErrorID. rewrite Hraw. cbn [snd].
      split; [auto | discriminate].
  - intros raw Hraw Hge parts.
    rewrite (DecodeErrorID_long tz id raw Hraw Hge).
    eexists. split; [reflexivity |]. cbn. repeat split; reflexivity.
Qed.

Lemma C8_witness :
  let id := Base64.EncodeToString "Create@service.go:x7:12:-3:99999999999999999999:r" in
  exists info,
    DecodeErrorID unix_nanos_text id = (Some info, None)
    /\ Line info = 0 /\ Timestamp info = 12 /\ GoroutineID info = 0
    /\ ProcessID info = 0 /\ RandomSuffix info = "r".
Proof.
  intros id.
  destruct (proj2 (C8_decode_fails_iff_short unix_nanos_text id)
              "Create@service.go:x7:12:-3:99999999999999999999:r")
    as (info & Hdec & _ & Hline & Hts & Hgid & Hpid & Hrand).
  - vm_compute. reflexivity.
  - vm_compute. lia.
  - exists info. repeat split; assumption.
Defined.

(** *** Fallback identifiers *)

(** C2, as the source has it: an identifier of the fallback path is the
    base64 text of a record that starts with the marker [fallback:]; the
    base64 step of [DecodeErrorID] succeeds on it, but the record has four
    fields, so [DecodeErrorID] returns the format error for 4 parts, together
    with an info that holds the raw record and nothing else. *)
Theorem C2_fallback_is_reported_malformed (tz : Z -> string) (skip : Z) (env : Env) :
  internal_panics env = true ->
  generateErrorID skip env = Base64.EncodeToString (fallbackRecord env)
  /\ (exists rest, fallbackRecord env = "fallback:" ++ rest)
  /\ Base64.DecodeString (generateErrorID skip env) = Some (fallbackRecord env)
  /\ DecodeErrorID tz (generateErrorID skip env) =
       (Some (mkInfo "" "" 0 0 0 0 "" "" (fallbackRecord env)), Some (ErrFormat 4)).
Proof.
  intros Hpanic.
  assert (Hid : generateErrorID skip env = Base64.EncodeToString (fallbackRecord env)).
  { rewrite generateErrorID_paths, Hpanic. reflexivity. }
  rewrite Hid. repeat split.
  - apply fallbackRecord_marked.
  - apply DecodeString_EncodeToString.
  - destruct (fallback_fields env) as (t & p & r & Hsplit).
    rewrite (DecodeErrorID_short tz _ (fallbackRecord env)
               (DecodeString_EncodeToString _)); rewrite Hsplit.
    + reflexivity.
    + cbn [length]. lia.
Qed.

Lemma C2_witness :
  internal_panics sample_env_panicking = true
  /\ DecodeErrorID unix_nanos_text (generateErrorID 2 sample_env_panicking) =
       (Some (mkInfo "" "" 0 0 0 0 "" "" "fallback:1700000000000000100:4242:16909060"),
        Some (ErrFormat 4)).
Proof.
  split; [reflexivity |].
  exact (proj2 (proj2 (proj2
    (C2_fallback_is_reported_malformed unix_nanos_text 2 sample_env_panicking
       eq_refl)))).
Defined.

(** The claim of C2 fails on the fallback identifier of the sample readings:
    decoding it returns an error. *)
Lemma C2_fallback_decode_error :
  generateErrorID 2 sample_env_panicking
    = generateFallbackErrorID sample_env_panicking
  /\ snd (DecodeErrorID unix_nanos_text (generateFallbackErrorID sample_env_panicking))
     = Some (ErrFormat 4).
Proof. split; vm_compute; reflexivity. Qed.

(** *** Identifiers of the regular path *)

Lemma Base_nonempty (path : string) : Filepath.Base path <> EmptyString.
Proof.
  unfold Filepath.Base. destruct path as [| c rest]; [discriminate |].
  match goal with |- match ?p with _ => _ end <> _ => destruct p end; discriminate.
Qed.

(** The caller fields under the readings of an ordinary call site. *)
Lemma callSite_ordinary (skip : Z) (env : Env) :
  (forall fr, runtime_Caller env skip = Some fr -> ordinary_frame fr) ->
  let '(funcName, filename, line) := callSite skip env in
  funcName <> EmptyString /\ GoStrings.contains funcName ":" = false
  /\ filename <> EmptyString /\ GoStrings.contains filename ":" = false
  /\ GoStrings.last_byte filename <> Some "@"%char
  /\ 0 <= line <= Strconv.int64_max.
Proof.
  intros Hord. unfold callSite.
  destruct (runtime_Caller env skip) as [fr |].
  - destruct (Hord fr eq_refl) as (Hfn & Hcolon & Hat & Hline).
    split; [| split; [| split; [apply Base_nonempty | auto]]].
    + destruct (frame_func fr) as [fullName |]; [| discriminate].
      destruct Hfn as [Hne _].
      destruct ((0 <=? findLastDot fullName)
                && (findLastDot fullName <? strlen fullName - 1)) eqn:E.
      * apply andb_prop in E as [E1 E2].
        apply Z.leb_le in E1. apply Z.ltb_lt in E2.
        apply slice_from_nonempty. lia.
      * destruct (findLastDot fullName =? strlen fullName - 1); exact Hne.
    + destruct (frame_func fr) as [fullName |]; [| reflexivity].
      destruct Hfn as [_ Hfree].
      destruct ((0 <=? findLastDot fullName)
                && (findLastDot fullName <? strlen fullName - 1)).
      * apply contains_substring, Hfree.
      * destruct (findLastDot fullName =? strlen fullName - 1); exact Hfree.
  - unfold Strconv.int64_max. repeat split; try discriminate; lia.
Qed.

(** The fields of a regular record. *)
Lemma internalRecord_fields (skip : Z) (env : Env) :
  let '(funcName, filename, line) := callSite skip env in
  GoStrings.contains funcName ":" = false ->
  GoStrings.contains filename ":" = false ->
  exists suffix more,
    GoStrings.Split (internalRecord skip env) ":" =
      (funcName ++ "@" ++ filename) :: Strconv.Itoa line
        :: Strconv.FormatInt (time_UnixNano env)
        :: Strconv.FormatUint (getGoroutineID env)
        :: Strconv.Itoa (os_Getpid env) :: suffix :: more.
Proof.
  unfold internalRecord.
  destruct (callSite skip env) as [[funcName filename] line].
  intros Hf Hn.
  destruct (GoStrings.Split (generateRandomSuffix env) ":") as [| suffix more] eqn:Hs;
    [now apply Split_nonempty in Hs |].
  exists suffix, more.
  rewrite <- (app_assoc_s "@" filename), <- (app_assoc_s funcName).
  rewrite !colon_app.
  rewrite Split_field.
  2:{ rewrite !contains_app, Hf, Hn. reflexivity. }
  unfold Strconv.Itoa.
  rewrite !Split_field by
    first [apply FormatInt_colon_free | apply FormatUint_colon_free].
  now rewrite Hs.
Qed.

Lemma Split_length_app (a rest : string) (sep : ascii) :
  (length (GoStrings.Split rest sep) < length (GoStrings.Split (a ++ String sep rest) sep))%nat.
Proof.
  induction a as [| d a IH]; rewrite ?app_cons, ?app_empty; cbn [GoStrings.Split].
  - rewrite Ascii.eqb_refl. cbn [length]. lia.
  - destruct (Ascii.eqb d sep); cbn [length]; [lia |].
    destruct (GoStrings.Split (a ++ String sep rest) sep); cbn [length] in *; lia.
Qed.

Ltac count_fields r :=
  lazymatch r with
  | ?a ++ String ":" ?r' => pose proof (Split_length_app a r' ":"); count_fields r'
  | _ => idtac
  end.

(** There are five separators in a regular record, whatever the readings. *)
Lemma internalRecord_six_fields (skip : Z) (env : Env) :
  (6 <= length (GoStrings.Split (internalRecord skip env) ":"))%nat.
Proof.
  unfold internalRecord.
  destruct (callSite skip env) as [[funcName filename] line].
  rewrite <- (app_assoc_s "@" filename), <- (app_assoc_s funcName).
  rewrite !colon_app.
  match goal with
  | |- (_ <= length (GoStrings.Split ?r ":"))%nat => count_fields r
  end.
  assert (1 <= length (GoStrings.Split (generateRandomSuffix env) ":"))%nat.
  { destruct (GoStrings.Split (generateRandomSuffix env) ":") eqn:Hs;
      [now apply Split_nonempty in Hs | cbn [length]; lia]. }
  lia.
Qed.

Lemma strlen_pos (s : string) : s <> EmptyString -> 1 <= strlen s.
Proof.
  unfold strlen. destruct s; [congruence | cbn [String.length]; lia].
Qed.

(** An identifier of the regular path never meets the format error. *)
Lemma regular_id_decodes (tz : Z -> string) (skip : Z) (env : Env) (id : string) :
  generateErrorIDInternal skip env = Some id ->
  Base64.DecodeString id = Some (internalRecord skip env)
  /\ snd (DecodeErrorID tz id) = None.
Proof.
  unfold generateErrorIDInternal.
  destruct (internal_panics env); intros [= <-].
  split; [apply DecodeString_EncodeToString |].
  now rewrite (DecodeErrorID_long tz _ _ (DecodeString_EncodeToString _)
                 (internalRecord_six_fields skip env)).
Qed.

(** C4, as the source has it: for every identifier of the regular path
    whose call site is an ordinary one (a function name that is not empty and
    holds no colon, a file name that holds no colon and does not end in [@],
    a line that is not negative), [DecodeErrorID] succeeds and returns a
    function name and a file name that are not empty and a line that is not
    negative; the line is the one the runtime reported. *)
Theorem C4_regular_id_round_trip (tz : Z -> string) (skip : Z) (env : Env) (id : string) :
  generateErrorIDInternal skip env = Some id ->
  (forall fr, runtime_Caller env skip = Some fr -> ordinary_frame fr) ->
  exists info,
    DecodeErrorID tz id = (Some info, None)
    /\ Function info <> EmptyString
    /\ File info <> EmptyString
    /\ 0 <= Line info
    /\ Line info = snd (callSite skip env)
    /\ Raw info = internalRecord skip env.
Proof.
  intros Hid Hord.
  unfold generateErrorIDInternal in Hid.
  destruct (internal_panics env); [discriminate |]. injection Hid as <-.
  pose proof (callSite_ordinary skip env Hord) as Hsite.
  pose proof (internalRecord_fields skip env) as Hfields.
  destruct (callSite skip env) as [[funcName filename] line].
  destruct Hsite as (Hf & Hfc & Hn & Hnc & Hat & Hline).
  destruct (Hfields Hfc Hnc) as (suffix & more & Hsplit).
  rewrite (DecodeErrorID_long tz _ _ (DecodeString_EncodeToString _)
             (internalRecord_six_fields skip env)).
  cbv zeta. rewrite Hsplit. unfold part. cbn [nth].
  eexists. split; [reflexivity |]. cbn [Function File Line Raw snd].
  change ("@" ++ filename) with (String "@" filename).
  pose proof (LastIndex_after funcName filename "@") as Hafter.
  pose proof (LastIndex_range (funcName ++ String "@" filename) "@") as Hrange.
  pose proof (strlen_pos funcName Hf) as Hlen.
  pose proof (LastIndex_final (funcName ++ String "@" filename) "@") as Hfinal.
  set (atIndex := GoStrings.LastIndex (funcName ++ String "@" filename) "@") in *.
  destruct (Z.leb_spec 0 atIndex) as [_ | Hneg]; [| lia].
  unfold Strconv.Atoi, Strconv.Itoa.
  rewrite ParseInt_FormatInt by (unfold Strconv.int64_min; lia).
  cbn [default from_option id]. repeat split; try lia.
  - apply slice_to_nonempty; [lia | apply app_sep_nonempty].
  - apply slice_from_nonempty.
    destruct (Z.eq_dec atIndex (strlen (funcName ++ String "@" filename) - 1))
      as [Hend | Hmid]; [| lia].
    exfalso. apply Hat.
    rewrite <- Hfinal by lia.
    change (String "@" filename) with ("@" ++ filename).
    rewrite <- app_assoc_s. symmetry. now apply last_byte_app.
Qed.

Lemma C4_witness :
  exists info,
    DecodeErrorID unix_nanos_text
      "Q3JlYXRlQHNlcnZpY2UuZ286ODc6MTcwMDAwMDAwMDAwMDAwMDAwMDoxNzo0MjQyOmRlYWRiZWVm"
    = (Some info, None)
    /\ Function info <> EmptyString /\ File info <> EmptyString /\ 0 <= Line info
    /\ Line info = 87
    /\ Raw info = "Create@service.go:87:1700000000000000000:17:4242:deadbeef".
Proof.
  apply (C4_regular_id_round_trip unix_nanos_text 3 sample_env).
  - reflexivity.
  - intros fr [= <-]. unfold ordinary_frame, Strconv.int64_max.
    repeat split; try (vm_compute; congruence).
Defined.

(** The claim of C4 fails at a call site whose file name holds a colon: the
    record of the file [:x.go] splits inside the file name, and
    [DecodeErrorID] succeeds with an empty file name and the line 0 where the
    runtime reported the line 87. *)
Lemma C4_colon_in_file_name :
  callSite 3 sample_env_colon = ("Create", ":x.go", 87)
  /\ exists id info,
       generateErrorIDInternal 3 sample_env_colon = Some id
       /\ DecodeErrorID unix_nanos_text id = (Some info, None)
       /\ Function info = "Create"
       /\ File info = EmptyString
       /\ Line info = 0.
Proof.
  split; [reflexivity |].
  eexists _, _. split; [reflexivity |].
  split; [vm_compute; reflexivity |]. repeat split.
Qed.

(** ** Code-space translation *)

Ltac switch_cases :=
  repeat match goal with
         | |- context [?a =? ?b] => destruct (Z.eqb_spec a b)
         end.

(** C3, evaluated on the source: each listed pair is translated in both
    directions, except that web 499, which [ToHTTPCode] produces for
    [Canceled], has no case in [ToGRPCCode] and falls to [Unknown]. *)
Theorem C3_listed_pairs :
  (ToGRPCCode 404 = Codes.NotFound /\ ToHTTPCode Codes.NotFound = 404)
  /\ (ToGRPCCode 409 = Codes.Aborted /\ ToHTTPCode Codes.Aborted = 409)
  /\ (ToGRPCCode 429 = Codes.ResourceExhausted
      /\ ToHTTPCode Codes.ResourceExhausted = 429)
  /\ (ToGRPCCode 501 = Codes.Unimplemented /\ ToHTTPCode Codes.Unimplemented = 501)
  /\ (ToGRPCCode 503 = Codes.Unavailable /\ ToHTTPCode Codes.Unavailable = 503)
  /\ (ToGRPCCode 504 = Codes.DeadlineExceeded
      /\ ToHTTPCode Codes.DeadlineExceeded = 504)
  /\ (ToHTTPCode Codes.Canceled = 499 /\ ToGRPCCode 499 = Codes.Unknown).
Proof. repeat split; reflexivity. Qed.

(** No web code is translated to [Canceled]. *)
Lemma ToGRPCCode_never_Canceled (code : Z) : ToGRPCCode code <> Codes.Canceled.
Proof. unfold ToGRPCCode. switch_cases; discriminate. Qed.

(** C9: invalid-argument, failed-precondition and out-of-range all map to
    web 400; unknown and data-loss both map to web 500; an RPC code that is
    not one of the named ones maps to web 500, and a web code that has no
    case maps to [Unknown]. *)
Theorem C9_collapsing_and_defaults :
  ToHTTPCode Codes.InvalidArgument = 400
  /\ ToHTTPCode Codes.FailedPrecondition = 400
  /\ ToHTTPCode Codes.OutOfRange = 400
  /\ ToHTTPCode Codes.Unknown = 500
  /\ ToHTTPCode Codes.DataLoss = 500
  /\ (forall code : Codes.Code, ~ In code Codes.named -> ToHTTPCode code = 500)
  /\ (forall code : Z, ~ In code web_table -> ToGRPCCode code = Codes.Unknown).
Proof.
  repeat split; try reflexivity.
  - intros code Hout. unfold ToHTTPCode. switch_cases; try reflexivity;
      exfalso; apply Hout; subst code; cbn; tauto.
  - intros code Hout. unfold ToGRPCCode. switch_cases; try reflexivity;
      exfalso; apply Hout; subst code; cbn; tauto.
Qed.

Lemma C9_witness : ToHTTPCode 17 = 500 /\ ToGRPCCode 418 = Codes.Unknown.
Proof.
  destruct C9_collapsing_and_defaults as (_ & _ & _ & _ & _ & Hrpc & Hweb).
  split.
  - apply Hrpc. cbn. intros H.
    repeat (destruct H as [H | H]; [discriminate |]). exact H.
  - apply Hweb. cbn. intros H.
    repeat (destruct H as [H | H]; [discriminate |]). exact H.
Defined.

(** ** The store *)

Lemma bind_Some {A B} (m : M A) (k : A -> M B) (h h' : Store) (a : A) :
  m h = Some (a, h') -> bind m k h = k a h'.
Proof. unfold bind. now intros ->. Qed.

Lemma load_Some (h : Store) (p : loc) (e : Error) :
  errs h !! p = Some e -> load p h = Some (e, h).
Proof. unfold load. now intros ->. Qed.

Lemma fresh_error_unused (h : Store) : errs h !! fresh (dom (errs h)) = None.
Proof. apply not_elem_of_dom, is_fresh. Qed.

Lemma fresh_map_unused (h : Store) : maps h !! fresh (dom (maps h)) = None.
Proof. apply not_elem_of_dom, is_fresh. Qed.

(** A map reference that is read successfully is either nil or live. *)
Lemma entries_inv (h h' : Store) (r : option loc) (m : gmap string string) :
  entries r h = Some (m, h') ->
  h' = h /\ match r with
            | None => m = ∅
            | Some a => maps h !! a = Some m
            end.
Proof.
  destruct r as [a |]; cbn.
  - destruct (maps h !! a) eqn:E; [| discriminate]. intros [= <- <-]. auto.
  - intros [= <- <-]. auto.
Qed.

(** Reading a map is not affected by a change at another address or by a
    change of the error objects. *)
Lemma entries_frame (h : Store) (r : option loc) (m : gmap string string)
      (es : gmap loc Error) (a : loc) (m' : gmap string string) :
  entries r h = Some (m, h) ->
  r <> Some a ->
  entries r (mkStore es (<[a := m']> (maps h)))
  = Some (m, mkStore es (<[a := m']> (maps h))).
Proof.
  intros Hr Hne. apply entries_inv in Hr as [_ Hr].
  destruct r as [a0 |]; cbn.
  - rewrite lookup_insert_ne by congruence. now rewrite Hr.
  - now subst m.
Qed.

Lemma entries_fresh (h : Store) (r : option loc) (m : gmap string string) :
  entries r h = Some (m, h) -> r <> Some (fresh (dom (maps h))).
Proof.
  intros Hr. apply entries_inv in Hr as [_ Hr].
  destruct r as [a0 |]; [| discriminate].
  intros [= ->]. rewrite fresh_map_unused in Hr. discriminate.
Qed.

(** What [Clone] does to the store. *)
Lemma Clone_run (h : Store) (p : loc) (e : Error) (src : gmap string string) :
  errs h !! p = Some e ->
  entries (Metadata (status e)) h = Some (src, h) ->
  let a := fresh (dom (maps h)) in
  let q := fresh (dom (errs h)) in
  Clone (Some p) h =
    Some (Some q,
          mkStore (<[q := mkError (mkStatus (Code (status e)) (Reason (status e))
                                     (Message (status e)) (Some a) (ID (status e)))
                            (cause e)]> (errs h))
                  (<[a := src]> (maps h))).
Proof.
  intros Hp Hsrc a q. unfold Clone.
  rewrite (bind_Some _ _ _ _ _ (load_Some h p e Hp)).
  rewrite (bind_Some _ _ _ _ _ Hsrc).
  unfold copy_into. rewrite (right_id_L ∅ (∪)).
  reflexivity.
Qed.

(** C10: [Clone] of a nil pointer returns nil and leaves the store as it is.
    [Clone] of a live error returns a new error with the same code, reason,
    message, id and cause, and with a map of its own that holds the same
    entries; assigning to that map or deleting from it leaves the entries of
    the original's map, and the original error, unchanged. *)
Theorem C10_clone_is_deep (h : Store) :
  Clone None h = Some (None, h)
  /\ forall (p : loc) (e : Error) (src : gmap string string),
       errs h !! p = Some e ->
       entries (Metadata (status e)) h = Some (src, h) ->
       exists (q a : loc) (h' : Store),
         Clone (Some p) h = Some (Some q, h')
         /\ q <> p
         /\ errs h' !! p = Some e
         /\ errs h' !! q =
              Some (mkError (mkStatus (Code (status e)) (Reason (status e))
                               (Message (status e)) (Some a) (ID (status e)))
                      (cause e))
         /\ Metadata (status e) <> Some a
         /\ entries (Some a) h' = Some (src, h')
         /\ entries (Metadata (status e)) h' = Some (src, h')
         /\ (forall k v, exists h'',
               map_assign (Some a) k v h' = Some (tt, h'')
               /\ entries (Some a) h'' = Some (<[k := v]> src, h'')
               /\ entries (Metadata (status e)) h'' = Some (src, h'')
               /\ errs h'' !! p = Some e)
         /\ (forall k, exists h'',
               map_delete (Some a) k h' = Some (tt, h'')
               /\ entries (Some a) h'' = Some (delete k src, h'')
               /\ entries (Metadata (status e)) h'' = Some (src, h'')
               /\ errs h'' !! p = Some e).
Proof.
  split; [reflexivity |].
  intros p e src Hp Hsrc.
  pose proof (entries_fresh h _ _ Hsrc) as Hfresh.
  pose proof (fresh_error_unused h) as Hq.
  assert (Hqp : fresh (dom (errs h)) <> p) by (intros E; rewrite E in Hq; congruence).
  set (a := fresh (dom (maps h))) in *.
  set (q := fresh (dom (errs h))) in *.
  exists q, a,
    (mkStore (<[q := mkError (mkStatus (Code (status e)) (Reason (status e))
                                (Message (status e)) (Some a) (ID (status e)))
                       (cause e)]> (errs h))
             (<[a := src]> (maps h))).
  split; [exact (Clone_run h p e src Hp Hsrc) |].
  unfold map_assign, map_delete, entries at 1 3 5. cbn [maps errs].
  rewrite !lookup_insert_eq, !(lookup_insert_ne _ _ p) by exact Hqp.
  repeat split; try assumption.
  - now apply entries_frame.
  - intros k v. eexists. split; [reflexivity |]. cbn [maps errs].
    rewrite lookup_insert_eq, insert_insert_eq, lookup_insert_ne by exact Hqp.
    repeat split; try assumption. now apply entries_frame.
  - intros k. eexists. split; [reflexivity |]. cbn [maps errs].
    rewrite lookup_insert_eq, insert_insert_eq, lookup_insert_ne by exact Hqp.
    repeat split; try assumption. now apply entries_frame.
Qed.

Lemma C10_witness :
  exists (q a : loc) (h' : Store),
    Clone (Some 1%positive) sample_store = Some (Some q, h')
    /\ q <> 1%positive
    /\ entries (Some a) h' = Some ({["k" := "v"]}, h')
    /\ Metadata (status sample_error) <> Some a.
Proof.
  destruct (proj2 (C10_clone_is_deep sample_store) 1%positive sample_error
              {["k" := "v"]})
    as (q & a & h' & Hrun & Hne & _ & _ & Hsep & Hcopy & _).
  - reflexivity.
  - reflexivity.
  - exists q, a, h'. auto.
Defined.

(** ** Lazy identifiers *)

Lemma GetID_generates (env : Env) (h : Store) (p : loc) (e : Error) :
  errs h !! p = Some e ->
  ID (status e) = EmptyString ->
  GetID env p h =
    Some (generateErrorID 3 env,
          mkStore (<[p := set_ID e (generateErrorID 3 env)]> (errs h)) (maps h)).
Proof.
  intros Hp Hid. unfold GetID.
  rewrite (bind_Some _ _ _ _ _ (load_Some h p e Hp)), Hid. reflexivity.
Qed.

Lemma GetID_stored (env : Env) (h : Store) (p : loc) (e : Error) :
  errs h !! p = Some e ->
  ID (status e) <> EmptyString ->
  GetID env p h = Some (ID (status e), h).
Proof.
  intros Hp Hid. unfold GetID.
  rewrite (bind_Some _ _ _ _ _ (load_Some h p e Hp)).
  destruct (ID (status e)); [congruence | reflexivity].
Qed.



(** ** Replacing the metadata *)

(** What [WithMetadata] does to the store: the clone, then the assignment of
    the caller's reference. *)
Lemma WithMetadata_run (h : Store) (p : loc) (e : Error) (src : gmap string string)
      (md : option loc) :
  errs h !! p = Some e ->
  entries (Metadata (status e)) h = Some (src, h) ->
  let a := fresh (dom (maps h)) in
  let q := fresh (dom (errs h)) in
  WithMetadata p md h =
    Some (q,
          mkStore (<[q := mkError (mkStatus (Code (status e)) (Reason (status e))
                                     (Message (status e)) md (ID (status e)))
                            (cause e)]> (errs h))
                  (<[a := src]> (maps h))).
Proof.
  intros Hp Hsrc a q. unfold WithMetadata.
  rewrite (bind_Some _ _ _ _ _ (Clone_run h p e src Hp Hsrc)).
  fold a. fold q.
  erewrite bind_Some by (apply load_Some; cbn [errs]; apply lookup_insert_eq).
  unfold bind, store, ret. cbn [errs maps set_Metadata status cause Code Reason
                                 Message ID].
  now rewrite insert_insert_eq.
Qed.

(** C6, as the source has it: [WithMetadata] returns a new error whose
    metadata is the reference it was given and whose other fields, the id
    among them, are those of the receiver.  Nothing that existed before is
    changed: every other error, the receiver among them, is as it was, and
    so is every map, so the receiver's map and the caller's map hold the
    entries they held (the only new map is the one the clone made, which the
    result does not use).  When the receiver has an id, [GetID] of the result
    and [GetID] of the receiver both return it. *)
Theorem C6_WithMetadata_keeps_id (env1 env2 : Env) (h : Store) (p : loc) (e : Error)
        (src : gmap string string) (md : option loc) :
  errs h !! p = Some e ->
  entries (Metadata (status e)) h = Some (src, h) ->
  exists (q : loc) (h' : Store),
    WithMetadata p md h = Some (q, h')
    /\ q <> p
    /\ errs h' !! p = Some e
    /\ errs h' !! q =
         Some (mkError (mkStatus (Code (status e)) (Reason (status e))
                          (Message (status e)) md (ID (status e)))
                 (cause e))
    /\ errs h !! q = None
    /\ (forall p', p' <> q -> errs h' !! p' = errs h !! p')
    /\ (forall a m, maps h !! a = Some m -> maps h' !! a = Some m)
    /\ entries (Metadata (status e)) h' = Some (src, h')
    /\ (forall m, entries md h = Some (m, h) -> entries md h' = Some (m, h'))
    /\ (ID (status e) <> EmptyString ->
        GetID env1 q h' = Some (ID (status e), h')
        /\ GetID env2 p h' = Some (ID (status e), h')).
Proof.
  intros Hp Hsrc.
  pose proof (fresh_error_unused h) as Hq.
  pose proof (fresh_map_unused h) as Ha.
  assert (Hqp : fresh (dom (errs h)) <> p) by (intros E; rewrite E in Hq; congruence).
  eexists _, _. split; [exact (WithMetadata_run h p e src md Hp Hsrc) |].
  cbn [errs maps]. rewrite lookup_insert_eq, lookup_insert_ne by exact Hqp.
  split; [exact Hqp |]. split; [exact Hp |]. split; [reflexivity |].
  split; [exact Hq |].
  split; [intros p' Hne; now rewrite lookup_insert_ne |].
  split.
  { intros a m Hm. rewrite lookup_insert_ne; [exact Hm |].
    intros E. rewrite E in Ha. congruence. }
  split; [exact (entries_frame h _ _ _ _ _ Hsrc (entries_fresh h _ _ Hsrc)) |].
  split; [intros m Hm; exact (entries_frame h _ _ _ _ _ Hm (entries_fresh h _ _ Hm)) |].
  intros Hid. split.
  - apply (GetID_stored env1 _ _
             (mkError (mkStatus (Code (status e)) (Reason (status e))
                         (Message (status e)) md (ID (status e))) (cause e)));
      [cbn [errs]; apply lookup_insert_eq | assumption].
  - apply (GetID_stored env2 _ _ e); [| assumption].
    cbn [errs]. now rewrite lookup_insert_ne.
Qed.

Lemma C6_witness :
  exists (q : loc) (h' : Store),
    WithMetadata 3%positive None sample_store = Some (q, h')
    /\ GetID sample_env q h' = Some ("custom-error-id-12345", h')
    /\ GetID sample_env_later 3%positive h' = Some ("custom-error-id-12345", h').
Proof.
  destruct (C6_WithMetadata_keeps_id sample_env sample_env_later sample_store
              3%positive sample_named_error {["k" := "v"]} None eq_refl eq_refl)
    as (q & h' & Hrun & _ & _ & _ & _ & _ & _ & _ & _ & Hids).
  destruct Hids as [Hq Hp]; [discriminate |].
  exists q, h'. auto.
Defined.

(** The claim of C6 fails on an error without an id: the copy made by
    [WithMetadata] has no id either, and [GetID] mints one for the copy and
    another for the original. *)
Lemma C6_ids_differ_without_id :
  exists (id_copy id_orig : string) (h' : Store),
    (q <- WithMetadata 1%positive (Some 2%positive) ;;
     id_copy <- GetID sample_env q ;;
     id_orig <- GetID sample_env_later 1%positive ;;
     ret (id_copy, id_orig)) sample_store = Some ((id_copy, id_orig), h')
    /\ id_copy <> id_orig.
Proof.
  eexists _, _, _. split; [vm_compute; reflexivity | discriminate].
Qed.

(** ** Conversion from an arbitrary error *)

(** C5: [FromError] of nil is nil.  On an error whose chain holds no
    [*Error] and no remote status, [FromError] does not panic and returns a
    new error with code 500, an empty reason, the display text of the input
    as message, no metadata, no cause, and a freshly generated id that is not
    empty. *)
Theorem C5_FromError_generic (env : Env) (h : Store) :
  FromError env None h = Some (None, h)
  /\ forall err : GoError,
       errors_As err = None ->
       status_FromError err = None ->
       exists (q : loc) (h' : Store),
         FromError env (Some err) h = Some (Some q, h')
         /\ errs h' !! q =
              Some (mkError (mkStatus 500 "" (foreign_text err) None
                               (generateErrorID 2 env)) None)
         /\ generateErrorID 2 env <> EmptyString
         /\ (forall p, p <> q -> errs h' !! p = errs h !! p)
         /\ maps h' = maps h.
Proof.
  split; [reflexivity |].
  intros err Has Hst. unfold FromError. rewrite Has, Hst.
  eexists _, _. split; [reflexivity |].
  cbn [errs maps]. rewrite lookup_insert_eq.
  repeat split.
  - apply generateErrorID_nonempty.
  - intros p Hp. now rewrite lookup_insert_ne.
Qed.

Lemma C5_witness :
  exists (q : loc) (h' : Store),
    FromError sample_env (Some (ErrWrap "load user: connection refused"
                                  (ErrOther "connection refused")))
      sample_store = Some (Some q, h')
    /\ errs h' !! q =
         Some (mkError (mkStatus 500 "" "load user: connection refused" None
                          (generateErrorID 2 sample_env)) None)
    /\ generateErrorID 2 sample_env <> EmptyString.
Proof.
  destruct (proj2 (C5_FromError_generic sample_env sample_store)
              (ErrWrap "load user: connection refused"
                 (ErrOther "connection refused")) eq_refl eq_refl)
    as (q & h' & Hrun & Hq & Hne & _).
  exists q, h'. auto.
Defined.

(** ** The round trip through a remote status *)

Ltac codes_to_numbers :=
  cbv [Codes.OK Codes.Canceled Codes.Unknown Codes.InvalidArgument
       Codes.DeadlineExceeded Codes.NotFound Codes.AlreadyExists
       Codes.PermissionDenied Codes.ResourceExhausted Codes.FailedPrecondition
       Codes.Aborted Codes.OutOfRange Codes.Unimplemented Codes.Internal
       Codes.Unavailable Codes.DataLoss Codes.Unauthenticated
       Http.StatusOK Http.StatusBadRequest Http.StatusUnauthorized
       Http.StatusForbidden Http.StatusNotFound Http.StatusConflict
       Http.StatusTooManyRequests Http.StatusInternalServerError
       Http.StatusNotImplemented Http.StatusServiceUnavailable
       Http.StatusGatewayTimeout] in *.

Lemma ToGRPCCode_OK (code : Z) : ToGRPCCode code = Codes.OK <-> code = 200.
Proof.
  unfold ToGRPCCode. switch_cases; codes_to_numbers; lia.
Qed.

Lemma set_ID_same (e : Error) : set_ID e (ID (status e)) = e.
Proof. destruct e as [[c r m md i] cs]. reflexivity. Qed.

(** ** Texts a detail can carry *)

Lemma ascii_valid (s : string) :
  Utf8.is_ascii s = true -> Utf8.ValidString s = true.
Proof.
  induction s as [| c s IH]; [reflexivity |].
  cbn [Utf8.is_ascii]. intros H. apply andb_prop in H as [Hc Hs].
  cbn [Utf8.ValidString]. unfold Utf8.first. rewrite Hc.
  change (1 =? 1) with true. cbv iota. exact (IH Hs).
Qed.

Lemma encode_idx_ascii (v : Z) : (byte_val (Base64.encode_idx v) <? 128) = true.
Proof.
  unfold Base64.encode_idx. generalize (Z.to_nat v). intros n.
  do 64 (destruct n as [| n]; [reflexivity |]). reflexivity.
Qed.

Lemma EncodeToString_ascii (s : string) :
  Utf8.is_ascii (Base64.EncodeToString s) = true.
Proof.
  induction s as [| a | a b | a b c rest IH] using string_by_three;
    cbn [Base64.EncodeToString Utf8.is_ascii]; cbv zeta;
    rewrite ?encode_idx_ascii, ?IH; reflexivity.
Qed.

(** A generated identifier is base64 text, so it is valid UTF-8. *)
Lemma generateErrorID_valid (skip : Z) (env : Env) :
  Utf8.ValidString (generateErrorID skip env) = true.
Proof.
  rewrite generateErrorID_paths. unfold generateFallbackErrorID.
  destruct (internal_panics env); apply ascii_valid, EncodeToString_ascii.
Qed.

Lemma marshals_spec (d : StatusPB) :
  marshals d = true <->
  Utf8.ValidString (pb_Reason d) = true
  /\ Utf8.ValidString (pb_Message d) = true
  /\ forall k v, pb_Metadata d !! k = Some v ->
       Utf8.ValidString k = true /\ Utf8.ValidString v = true.
Proof.
  unfold marshals. rewrite !andb_true_iff, forallb_forall.
  split.
  - intros [[Hr Hm] Hall]. repeat split; try assumption;
      apply elem_of_map_to_list, list_elem_of_In in H;
      apply Hall in H; apply andb_prop in H; tauto.
  - intros (Hr & Hm & Hall). repeat split; try assumption.
    intros [k v] Hin. apply list_elem_of_In, elem_of_map_to_list in Hin.
    destruct (Hall k v Hin) as [Hk Hv]. cbn [fst snd]. now rewrite Hk, Hv.
Qed.

(** The detail [GRPCStatus] builds can be marshalled exactly when the
    reason, the message, the id and the entries of the metadata, the one
    under the reserved key apart, are valid UTF-8. *)
Lemma marshals_detail (code : Z) (reason message id : string)
      (src : gmap string string) :
  marshals (mkStatusPB code reason message (<["error_id" := id]> src)) = true <->
  Utf8.ValidString reason = true
  /\ Utf8.ValidString message = true
  /\ Utf8.ValidString id = true
  /\ forall k v, k <> "error_id" -> src !! k = Some v ->
       Utf8.ValidString k = true /\ Utf8.ValidString v = true.
Proof.
  rewrite marshals_spec. cbn [pb_Reason pb_Message pb_Metadata].
  split.
  - intros (Hr & Hm & Hall). repeat split; try assumption.
    + apply (Hall "error_id" id). apply lookup_insert_eq.
    + apply (Hall k v). now rewrite lookup_insert_ne.
    + apply (Hall k v). now rewrite lookup_insert_ne.
  - intros (Hr & Hm & Hid & Hall). repeat split; try assumption;
      destruct (decide (k = "error_id")) as [-> | Hne];
      rewrite ?lookup_insert_eq, ?lookup_insert_ne in H by congruence;
      first [ injection H as <-; first [reflexivity | exact Hid]
            | now apply (Hall k v Hne) ].
Qed.

(** What [GRPCStatus] does: the id is materialised in the error, and the
    status carries the metadata with the id under the reserved key. *)
Lemma copy_into_empty (src : gmap string string) : copy_into src ∅ = src.
Proof. unfold copy_into. apply (right_id_L ∅ (∪)). Qed.

Lemma GRPCStatus_run (env : Env) (h : Store) (p : loc) (e : Error)
      (src : gmap string string) :
  errs h !! p = Some e ->
  entries (Metadata (status e)) h = Some (src, h) ->
  exists (id : string) (h1 : Store),
    GRPCStatus env p h =
      Some (status_WithDetails
              (status_New (ToGRPCCode (Code (status e))) (Message (status e)))
              (mkStatusPB (Code (status e)) (Reason (status e)) (Message (status e))
                 (<["error_id" := id]> src)),
            h1)
    /\ id <> EmptyString
    /\ (ID (status e) <> EmptyString -> id = ID (status e))
    /\ (ID (status e) = EmptyString -> id = generateErrorID 3 env)
    /\ errs h1 !! p = Some (set_ID e id)
    /\ (forall p', p' <> p -> errs h1 !! p' = errs h !! p')
    /\ maps h1 = maps h.
Proof.
  intros Hp Hsrc. unfold GRPCStatus.
  rewrite (bind_Some _ _ _ _ _ (load_Some h p e Hp)).
  destruct (ID (status e)) as [| c rest] eqn:Hid.
  - exists (generateErrorID 3 env),
      (mkStore (<[p := set_ID e (generateErrorID 3 env)]> (errs h)) (maps h)).
    split.
    + unfold bind at 1. unfold store at 1.
      erewrite bind_Some by (apply load_Some; cbn [errs]; apply lookup_insert_eq).
      apply entries_inv in Hsrc as [_ Hsrc].
      unfold bind, ret, entries. cbn [set_ID status Metadata maps].
      destruct (Metadata (status e)) as [a |]; cbn [maps].
      * rewrite Hsrc, copy_into_empty. reflexivity.
      * subst src. unfold ret. rewrite copy_into_empty. reflexivity.
    + cbn [errs maps]. rewrite lookup_insert_eq.
      repeat split; try congruence.
      * apply generateErrorID_nonempty.
      * intros p' Hne. now rewrite lookup_insert_ne.
  - exists (String c rest), h.
    split.
    + unfold bind at 1. unfold ret at 1.
      rewrite (bind_Some _ _ _ _ _ (load_Some h p e Hp)).
      rewrite (bind_Some _ _ _ _ _ Hsrc).
      unfold ret. rewrite copy_into_empty, Hid. reflexivity.
    + rewrite <- Hid, set_ID_same. repeat split; congruence.
Qed.

(** What [FromError] does with the error of a remote status whose first
    structured detail carries a non-empty id under the reserved key. *)
Lemma FromError_status_run (env : Env) (h : Store) (gs : GrpcStatus) (pb : StatusPB)
      (id : string) (m : gmap string string) :
  gs_Code gs <> Codes.OK ->
  first_status_detail (gs_Details gs) = Some pb ->
  pb_Metadata pb = <["error_id" := id]> m ->
  id <> EmptyString ->
  let a := fresh (dom (maps h)) in
  let q := fresh (dom (errs h)) in
  FromError env (status_Err (Some gs)) h =
    Some (Some q,
          mkStore (<[q := mkError (mkStatus (pb_Code pb) (pb_Reason pb)
                                     (pb_Message pb) (Some a) id) None]> (errs h))
                  (<[a := delete "error_id" m]> (maps h))).
Proof.
  intros Hcode Hdetail Hmd Hid a q.
  unfold status_Err. destruct (Z.eqb_spec (gs_Code gs) Codes.OK); [contradiction |].
  unfold FromError. cbn [errors_As status_FromError]. rewrite Hdetail.
  unfold unmarshal_map. rewrite Hmd.
  destruct (decide (<["error_id" := id]> m = ∅)) as [Hempty | _];
    [now apply insert_non_empty in Hempty |].
  unfold bind, new_map, ret, entries. fold a. cbn [maps errs].
  rewrite !lookup_insert_eq. cbn [from_option Datatypes.id].
  destruct id as [| c rest]; [congruence |].
  unfold map_delete, new_error. cbn [maps errs]. fold q.
  rewrite ?lookup_insert_eq, insert_insert_eq, delete_insert_eq.
  reflexivity.
Qed.

(** The round trip for any metadata that can be marshalled: what comes back
    is the metadata without the reserved key, in a map of its own, under the
    id of the original. *)
Lemma remote_round_trip (env env' env'' : Env) (h : Store) (p : loc) (e : Error)
      (src : gmap string string) :
  errs h !! p = Some e ->
  entries (Metadata (status e)) h = Some (src, h) ->
  Code (status e) <> 200 ->
  Utf8.ValidString (Reason (status e)) = true ->
  Utf8.ValidString (Message (status e)) = true ->
  Utf8.ValidString (ID (status e)) = true ->
  (forall k v, k <> "error_id" -> src !! k = Some v ->
     Utf8.ValidString k = true /\ Utf8.ValidString v = true) ->
  exists (gs : GrpcStatus) (h1 : Store) (q a' : loc) (h2 : Store) (id : string),
    GRPCStatus env p h = Some (Some gs, h1)
    /\ FromError env' (status_Err (Some gs)) h1 = Some (Some q, h2)
    /\ errs h2 !! q =
         Some (mkError (mkStatus (Code (status e)) (Reason (status e))
                          (Message (status e)) (Some a') id) None)
    /\ maps h2 !! a' = Some (delete "error_id" src)
    /\ Metadata (status e) <> Some a'
    /\ id <> EmptyString
    /\ (ID (status e) <> EmptyString -> id = ID (status e))
    /\ GetID env'' p h2 = Some (id, h2).
Proof.
  intros Hp Hsrc Hcode Hreason Hmessage Hvalid Hentries.
  destruct (GRPCStatus_run env h p e src Hp Hsrc)
    as (id & h1 & Hrun & Hid & Hkeep & Hfresh & Hp1 & Hothers & Hmaps).
  assert (Hrpc : ToGRPCCode (Code (status e)) <> Codes.OK)
    by (rewrite ToGRPCCode_OK; exact Hcode).
  assert (Hidv : Utf8.ValidString id = true).
  { destruct (ID (status e)) as [| c rest] eqn:E.
    - rewrite (Hfresh eq_refl). apply generateErrorID_valid.
    - rewrite (Hkeep ltac:(discriminate)). exact Hvalid. }
  unfold status_WithDetails, status_New in Hrun. cbn [gs_Code gs_Message gs_Details] in Hrun.
  destruct (Z.eqb_spec (ToGRPCCode (Code (status e))) Codes.OK) as [| _];
    [contradiction |].
  rewrite (proj2 (marshals_detail _ _ _ _ _)
             (conj Hreason (conj Hmessage (conj Hidv Hentries)))) in Hrun.
  cbn [app] in Hrun.
  pose proof (fresh_error_unused h1) as Hq.
  assert (Hqp : fresh (dom (errs h1)) <> p)
    by (intros E; rewrite E in Hq; congruence).
  set (pb := mkStatusPB (Code (status e)) (Reason (status e)) (Message (status e))
               (<["error_id" := id]> src)) in *.
  set (gs := mkGrpcStatus (ToGRPCCode (Code (status e))) (Message (status e))
               [DetailStatus pb]) in *.
  pose proof (FromError_status_run env' h1 gs pb id src Hrpc eq_refl eq_refl Hid)
    as Hfrom.
  cbv zeta in Hfrom.
  eexists gs, h1, _, _, _, id.
  split; [exact Hrun |]. split; [exact Hfrom |].
  cbn [errs maps pb pb_Code pb_Reason pb_Message]. rewrite !lookup_insert_eq.
  repeat split; try assumption.
  - rewrite Hmaps. exact (entries_fresh h _ _ Hsrc).
  - apply (GetID_stored env'' _ p (set_ID e id)); [| exact Hid].
    cbn [errs]. now rewrite lookup_insert_ne.
Qed.

(** C1, as the source has it: for an error whose code is not 200, whose
    reason, message and id are valid UTF-8 and whose metadata is [k = v],
    converting it to a remote status and converting the error of that status
    back yields a new error with the same code, reason and message, whose
    metadata is a map of its own that holds exactly [k = v], without the
    reserved key, and whose id is the one [GetID] returns for the original. *)
Theorem C1_metadata_round_trip (env env' env'' : Env) (h : Store) (p : loc) (e : Error) :
  errs h !! p = Some e ->
  entries (Metadata (status e)) h = Some ({["k" := "v"]}, h) ->
  Code (status e) <> 200 ->
  Utf8.ValidString (Reason (status e)) = true ->
  Utf8.ValidString (Message (status e)) = true ->
  Utf8.ValidString (ID (status e)) = true ->
  exists (gs : GrpcStatus) (h1 : Store) (q a' : loc) (h2 : Store) (id : string),
    GRPCStatus env p h = Some (Some gs, h1)
    /\ FromError env' (status_Err (Some gs)) h1 = Some (Some q, h2)
    /\ errs h2 !! q =
         Some (mkError (mkStatus (Code (status e)) (Reason (status e))
                          (Message (status e)) (Some a') id) None)
    /\ entries (Some a') h2 = Some ({["k" := "v"]}, h2)
    /\ ({["k" := "v"]} : gmap string string) !! "error_id" = None
    /\ Metadata (status e) <> Some a'
    /\ GetID env'' p h2 = Some (id, h2).
Proof.
  intros Hp Hsrc Hcode Hreason Hmessage Hvalid.
  assert (Hentries : forall k v, k <> "error_id" ->
            ({["k" := "v"]} : gmap string string) !! k = Some v ->
            Utf8.ValidString k = true /\ Utf8.ValidString v = true).
  { intros k v _ Hkv. apply lookup_singleton_Some in Hkv as [<- <-].
    split; reflexivity. }
  destruct (remote_round_trip env env' env'' h p e _ Hp Hsrc Hcode Hreason Hmessage
              Hvalid Hentries)
    as (gs & h1 & q & a' & h2 & id & Hto & Hfrom & Hq & Hmd & Hown & _ & _ & Hget).
  exists gs, h1, q, a', h2, id.
  rewrite delete_id in Hmd by reflexivity.
  repeat split; try assumption.
  unfold entries. now rewrite Hmd.
Qed.

Lemma C1_witness :
  exists (gs : GrpcStatus) (h1 : Store) (q a' : loc) (h2 : Store) (id : string),
    GRPCStatus sample_env 1%positive sample_store = Some (Some gs, h1)
    /\ FromError sample_env_later (status_Err (Some gs)) h1 = Some (Some q, h2)
    /\ errs h2 !! q =
         Some (mkError (mkStatus 404 "USER_NOT_FOUND" "missing" (Some a') id) None)
    /\ entries (Some a') h2 = Some ({["k" := "v"]}, h2)
    /\ ({["k" := "v"]} : gmap string string) !! "error_id" = None
    /\ Metadata (status sample_error) <> Some a'
    /\ GetID sample_env_later 1%positive h2 = Some (id, h2).
Proof.
  apply (C1_metadata_round_trip sample_env sample_env_later sample_env_later
           sample_store 1%positive sample_error).
  - reflexivity.
  - reflexivity.
  - discriminate.
  - reflexivity.
  - reflexivity.
  - reflexivity.
Defined.

(** The claim of C1 fails on an error with code 200: its remote status is
    nil, the error of a nil status is nil, and [FromError] of nil is nil, so
    no error value comes back. *)
Lemma C1_code_200_yields_nil :
  Code (status sample_ok_error) = 200
  /\ entries (Metadata (status sample_ok_error)) sample_store
     = Some ({["k" := "v"]}, sample_store)
  /\ exists h',
       (s <- GRPCStatus sample_env 2%positive ;;
        FromError sample_env_later (status_Err s)) sample_store
       = Some (None, h').
Proof.
  split; [reflexivity |]. split; [reflexivity |].
  eexists. vm_compute. reflexivity.
Qed.

(** The same happens, whatever the code, when a text of the error is not
    valid UTF-8: the detail cannot be marshalled, the source drops that error
    and the remote status is nil. *)
Example invalid_text_yields_nil :
  Code (status sample_invalid_error) = 404
  /\ Utf8.ValidString (Message (status sample_invalid_error)) = false
  /\ GRPCStatus sample_env 1%positive sample_invalid_store
     = Some (None, sample_invalid_store).
Proof. repeat split; vm_compute; reflexivity. Qed.

(* ===================================================================== *)
(** * Part III: further properties of the code *)
(* ===================================================================== *)

(** ** More on strings and numbers *)

Lemma substring_prefix (a b : string) :
  String.substring 0 (String.length a) (a ++ b) = a.
Proof.
  induction a as [| d a IH]; rewrite ?app_cons, ?app_empty.
  - destruct b; reflexivity.
  - cbn [String.length String.substring]. now rewrite IH.
Qed.

Lemma substring_skip (a b : string) (m : nat) :
  String.substring (String.length a) m (a ++ b) = String.substring 0 m b.
Proof.
  induction a as [| d a IH]; rewrite ?app_cons, ?app_empty; [reflexivity |].
  cbn [String.length String.substring]. exact IH.
Qed.

Lemma substring_all (s : string) : String.substring 0 (String.length s) s = s.
Proof.
  induction s as [| d s IH]; [reflexivity |].
  cbn [String.length String.substring]. now rewrite IH.
Qed.

Lemma length_app (a b : string) :
  String.length (a ++ b) = (String.length a + String.length b)%nat.
Proof.
  induction a as [| d a IH]; rewrite ?app_cons, ?app_empty; cbn [String.length]; lia.
Qed.

Lemma slice_to_app (a b : string) : GoStrings.slice_to (a ++ b) (strlen a) = a.
Proof.
  unfold GoStrings.slice_to, strlen. rewrite Nat2Z.id. apply substring_prefix.
Qed.

Lemma slice_from_app (a b : string) : GoStrings.slice_from (a ++ b) (strlen a) = b.
Proof.
  unfold GoStrings.slice_from, strlen. rewrite Nat2Z.id, length_app.
  replace (String.length a + String.length b - String.length a)%nat
    with (String.length b) by lia.
  rewrite substring_skip. apply substring_all.
Qed.

(** The last separator of [a ++ c :: b] when [b] has none. *)
Lemma LastIndex_app_last (a b : string) (c : ascii) :
  GoStrings.contains b c = false ->
  GoStrings.LastIndex (a ++ String c b) c = strlen a.
Proof.
  intros Hb. unfold strlen.
  induction a as [| d a IH]; rewrite ?app_cons, ?app_empty;
    cbn [GoStrings.LastIndex String.length].
  - rewrite (LastIndex_absent b c Hb), Ascii.eqb_refl. reflexivity.
  - rewrite IH. destruct (Z.leb_spec 0 (Z.of_nat (String.length a))); lia.
Qed.

Lemma parse_digits_lower (s : string) (acc v : Z) :
  0 <= acc -> Strconv.parse_digits acc s = Some v -> acc <= v.
Proof.
  revert acc. induction s as [| c s IH]; intros acc Hacc; cbn [Strconv.parse_digits].
  - intros [= <-]. lia.
  - unfold Strconv.digit_val.
    destruct ((48 <=? byte_val c) && (byte_val c <=? 57)) eqn:E; [| discriminate].
    apply andb_prop in E as [E1 E2]. apply Z.leb_le in E1. apply Z.leb_le in E2.
    intros H. apply IH in H; lia.
Qed.

Lemma ParseUint_range (s : string) (v : Z) :
  Strconv.ParseUint s = Some v -> 0 <= v <= Strconv.uint64_max.
Proof.
  unfold Strconv.ParseUint. destruct s as [| c s]; [discriminate |].
  destruct (Strconv.parse_digits 0 (String c s)) as [w |] eqn:E; [| discriminate].
  apply parse_digits_lower in E; [| lia].
  destruct (Z.leb_spec w Strconv.uint64_max); [| discriminate].
  intros [= <-]. lia.
Qed.

Lemma ParseInt_range (s : string) (v : Z) :
  Strconv.ParseInt s = Some v -> Strconv.int64_min <= v <= Strconv.int64_max.
Proof.
  unfold Strconv.ParseInt, Strconv.int64_min, Strconv.int64_max.
  destruct s as [| c s]; [discriminate |].
  destruct (Strconv.ParseUint _) as [un |] eqn:E; [| discriminate].
  apply ParseUint_range in E.
  destruct (Ascii.eqb c "-"); cbn [negb andb].
  - destruct (Z.ltb_spec (2 ^ 63) un); [discriminate |]. intros [= <-]. lia.
  - destruct (Z.leb_spec (2 ^ 63) un); [discriminate |]. intros [= <-]. lia.
Qed.

Lemma FormatInt_injective (x y : Z) :
  Strconv.int64_min <= x <= Strconv.int64_max ->
  Strconv.int64_min <= y <= Strconv.int64_max ->
  Strconv.FormatInt x = Strconv.FormatInt y -> x = y.
Proof.
  intros Hx Hy E.
  pose proof (ParseInt_FormatInt x Hx) as Px.
  rewrite E, (ParseInt_FormatInt y Hy) in Px. congruence.
Qed.

Lemma FormatUint_injective (x y : Z) :
  0 <= x <= Strconv.uint64_max -> 0 <= y <= Strconv.uint64_max ->
  Strconv.FormatUint x = Strconv.FormatUint y -> x = y.
Proof.
  intros Hx Hy E.
  pose proof (ParseUint_FormatUint x Hx) as Px.
  rewrite E, (ParseUint_FormatUint y Hy) in Px. congruence.
Qed.

Lemma EncodeToString_injective (a b : string) :
  Base64.EncodeToString a = Base64.EncodeToString b -> a = b.
Proof.
  intros E. pose proof (DecodeString_EncodeToString a) as Ha.
  rewrite E, DecodeString_EncodeToString in Ha. congruence.
Qed.

(** ** The probes of the identifier *)

Lemma hex_digit_plain (v : Z) :
  0 <= v < 16 ->
  Ascii.eqb (Fmt.hex_digit v) ":" = false
  /\ Strconv.digit_val (Fmt.hex_digit v) = (if v <? 10 then Some v else None).
Proof.
  intros Hv. rewrite <- (Z2Nat.id v) by lia.
  assert (Hn : (Z.to_nat v < 16)%nat) by lia.
  generalize dependent (Z.to_nat v). clear v Hv. intros n Hn.
  do 16 (destruct n as [| n]; [vm_compute; auto |]).
  lia.
Qed.

Lemma nibble_low (x : Z) : 0 <= Z.land x 15 < 16.
Proof.
  replace (Z.land x 15) with (x mod 2 ^ 4) by (symmetry; exact (Z.land_ones x 4 ltac:(lia))).
  apply Z.mod_pos_bound. lia.
Qed.

Lemma nibble_high (b : ascii) : 0 <= Z.shiftr (byte_val b) 4 < 16.
Proof.
  pose proof (byte_val_range b). rewrite Z.shiftr_div_pow2 by lia.
  change (2 ^ 4) with 16. divmod_lia.
Qed.

Lemma hex_bytes_colon_free (buf : list ascii) :
  GoStrings.contains (Fmt.hex_bytes buf) ":" = false.
Proof.
  induction buf as [| b buf IH]; cbn [Fmt.hex_bytes GoStrings.contains]; [reflexivity |].
  rewrite (proj1 (hex_digit_plain _ (nibble_high b))).
  rewrite (proj1 (hex_digit_plain _ (nibble_low (byte_val b)))).
  exact IH.
Qed.

Lemma hex_digit_hex (v : Z) : 0 <= v < 16 -> Fmt.is_lower_hex (Fmt.hex_digit v) = true.
Proof.
  intros Hv. rewrite <- (Z2Nat.id v) by lia.
  assert (Hn : (Z.to_nat v < 16)%nat) by lia.
  generalize dependent (Z.to_nat v). clear v Hv. intros n Hn.
  do 16 (destruct n as [| n]; [reflexivity |]).
  lia.
Qed.

Lemma hex_bytes_hex (buf : list ascii) : Fmt.all_lower_hex (Fmt.hex_bytes buf) = true.
Proof.
  induction buf as [| b buf IH]; cbn [Fmt.hex_bytes Fmt.all_lower_hex]; [reflexivity |].
  rewrite (hex_digit_hex _ (nibble_high b)).
  rewrite (hex_digit_hex _ (nibble_low (byte_val b))).
  exact IH.
Qed.

Lemma hex_bytes_length (buf : list ascii) :
  String.length (Fmt.hex_bytes buf) = (2 * length buf)%nat.
Proof.
  induction buf as [| b buf IH]; cbn [Fmt.hex_bytes String.length length]; lia.
Qed.

Lemma hex_pos_colon_free (fuel : nat) (p : positive) (acc : string) :
  GoStrings.contains acc ":" = false ->
  GoStrings.contains (Fmt.hex_pos p acc fuel) ":" = false.
Proof.
  revert p acc. induction fuel as [| fuel IH]; intros p acc Hacc; cbn [Fmt.hex_pos];
    [exact Hacc |].
  assert (Hstep : GoStrings.contains
                    (String (Fmt.hex_digit (Z.land (Z.pos p) 15)) acc) ":" = false).
  { cbn [GoStrings.contains].
    now rewrite (proj1 (hex_digit_plain _ (nibble_low (Z.pos p)))). }
  destruct (Z.shiftr (Z.pos p) 4); auto.
Qed.

Lemma hex_pos_nonempty (fuel : nat) (p : positive) (acc : string) :
  acc <> EmptyString \/ fuel <> O -> Fmt.hex_pos p acc fuel <> EmptyString.
Proof.
  revert p acc. induction fuel as [| fuel IH]; intros p acc H; cbn [Fmt.hex_pos].
  - destruct H; congruence.
  - destruct (Z.shiftr (Z.pos p) 4); try discriminate.
    apply IH. left. discriminate.
Qed.

Lemma hex_int_colon_free (v : Z) : GoStrings.contains (Fmt.hex_int v) ":" = false.
Proof.
  destruct v as [| p | p]; cbn [Fmt.hex_int GoStrings.contains]; [reflexivity | |].
  - now apply hex_pos_colon_free.
  - change (Ascii.eqb "-" ":") with false. now apply hex_pos_colon_free.
Qed.

Lemma hex_int_nonempty (v : Z) : Fmt.hex_int v <> EmptyString.
Proof.
  destruct v as [| p | p]; cbn [Fmt.hex_int]; try discriminate.
  apply hex_pos_nonempty. right. pose proof (Pos2Nat.is_pos (Pos.size p)). lia.
Qed.

Lemma generateRandomSuffix_colon_free (env : Env) :
  GoStrings.contains (generateRandomSuffix env) ":" = false.
Proof.
  unfold generateRandomSuffix.
  destruct (suffix_rand env); auto using hex_bytes_colon_free, hex_int_colon_free.
Qed.

(** X5: the random suffix is never empty and never holds a colon, whether
    the random source answers, fails or panics; when it answers, the suffix
    is eight hexadecimal characters, the two digits of each of the four
    bytes in turn. *)
Theorem generateRandomSuffix_is_one_field (env : Env) :
  generateRandomSuffix env <> EmptyString
  /\ GoStrings.contains (generateRandomSuffix env) ":" = false
  /\ GoStrings.Split (generateRandomSuffix env) ":" = [generateRandomSuffix env]
  /\ (forall b0 b1 b2 b3, suffix_rand env = RandOk b0 b1 b2 b3 ->
        String.length (generateRandomSuffix env) = 8%nat
        /\ Fmt.all_lower_hex (generateRandomSuffix env) = true
        /\ generateRandomSuffix env = Fmt.hex_bytes [b0; b1; b2; b3]).
Proof.
  pose proof (generateRandomSuffix_colon_free env) as Hfree.
  split; [| split; [exact Hfree | split; [now apply Split_whole |]]].
  - unfold generateRandomSuffix.
    destruct (suffix_rand env); cbn [Fmt.hex_bytes]; try discriminate;
      apply hex_int_nonempty.
  - intros b0 b1 b2 b3 Hok. unfold generateRandomSuffix. rewrite Hok.
    split; [apply hex_bytes_length |]. split; [apply hex_bytes_hex | reflexivity].
Qed.

Lemma generateRandomSuffix_witness :
  String.length (generateRandomSuffix sample_env) = 8%nat
  /\ Fmt.all_lower_hex (generateRandomSuffix sample_env) = true
  /\ generateRandomSuffix sample_env = "deadbeef".
Proof.
  destruct (proj2 (proj2 (proj2 (generateRandomSuffix_is_one_field sample_env)))
              "222"%char "173"%char "190"%char "239"%char eq_refl)
    as (Hlen & Hhex & Htext).
  split; [exact Hlen |]. split; [exact Hhex |]. rewrite Htext. reflexivity.
Defined.

Lemma until_space_digits (d : uint) (rest : string) :
  until_space (NilEmpty.string_of_uint d ++ String " " rest)
  = strlen (NilEmpty.string_of_uint d).
Proof.
  unfold strlen.
  induction d; cbn [NilEmpty.string_of_uint]; rewrite ?app_cons, ?app_empty;
    cbn [until_space String.length Ascii.eqb Bool.eqb]; rewrite ?IHd; lia.
Qed.

Lemma until_space_FormatUint (n : Z) (rest : string) :
  until_space (Strconv.FormatUint n ++ String " " rest) = strlen (Strconv.FormatUint n).
Proof.
  unfold Strconv.FormatUint, NilZero.string_of_uint.
  destruct (N.to_uint (Z.to_N n)) eqn:E; try (rewrite <- E; apply until_space_digits).
  reflexivity.
Qed.

Lemma slice_middle (a b c : string) :
  GoStrings.slice (a ++ b ++ c) (strlen a) (strlen a + strlen b) = b.
Proof.
  unfold GoStrings.slice, strlen. rewrite <- Nat2Z.inj_add, !Nat2Z.id.
  replace (String.length a + String.length b - String.length a)%nat
    with (String.length b) by lia.
  rewrite substring_skip. apply substring_prefix.
Qed.

Lemma getGoroutineID_range (env : Env) :
  0 <= getGoroutineID env <= Strconv.uint64_max.
Proof.
  unfold getGoroutineID, Strconv.uint64_max.
  destruct (runtime_Stack env) as [stack |]; [| lia].
  destruct (strlen stack <=? 10); [lia |].
  match goal with |- context [if ?c then _ else _] => destruct c end; [| lia].
  match goal with |- context [Strconv.ParseUint ?s] =>
    destruct (Strconv.ParseUint s) eqn:E end; [| lia].
  apply ParseUint_range in E. exact E.
Qed.

(** X4: from a stack trace that starts with [goroutine N ] the probe reads
    [N]; whatever the runtime writes, the result fits 64 bits, and it is 0
    when the probe panics or the text is no longer than the prefix. *)
Theorem getGoroutineID_reads_header (env : Env) :
  0 <= getGoroutineID env <= Strconv.uint64_max
  /\ (runtime_Stack env = None -> getGoroutineID env = 0)
  /\ (forall stack, runtime_Stack env = Some stack -> strlen stack <= 10 ->
        getGoroutineID env = 0)
  /\ (forall n rest,
        0 <= n <= Strconv.uint64_max ->
        runtime_Stack env
          = Some ("goroutine " ++ Strconv.FormatUint n ++ String " " rest) ->
        getGoroutineID env = n).
Proof.
  split; [apply getGoroutineID_range |].
  unfold getGoroutineID. repeat split.
  - now intros ->.
  - intros stack -> Hlen. destruct (Z.leb_spec (strlen stack) 10); [reflexivity | lia].
  - intros n rest Hn ->.
    set (digits := Strconv.FormatUint n).
    assert (Hd : 1 <= strlen digits).
    { apply strlen_pos. intros E.
      pose proof (ParseUint_FormatUint n Hn) as P. fold digits in P.
      rewrite E in P. discriminate. }
    assert (Hlen : strlen ("goroutine " ++ digits ++ String " " rest)
                   = 10 + strlen digits + (1 + strlen rest)).
    { rewrite !strlen_app. unfold strlen. cbn [String.length]. lia. }
    assert (Hpre : strlen "goroutine " = 10) by reflexivity.
    assert (Hrest : 0 <= strlen rest) by (unfold strlen; lia).
    cbv zeta. change 10 with (strlen "goroutine ").
    destruct (Z.leb_spec (strlen ("goroutine " ++ digits ++ String " " rest))
                (strlen "goroutine ")); [lia |].
    rewrite slice_from_app. unfold digits at 1 3. rewrite until_space_FormatUint.
    fold digits.
    destruct (Z.ltb_spec (strlen "goroutine ") (strlen "goroutine " + strlen digits));
      [| lia].
    rewrite slice_middle. unfold digits. now rewrite ParseUint_FormatUint.
Qed.

Lemma getGoroutineID_witness : getGoroutineID sample_env = 17.
Proof.
  apply (proj2 (proj2 (proj2 (getGoroutineID_reads_header sample_env)))
           17 "[running]:").
  - unfold Strconv.uint64_max. lia.
  - reflexivity.
Defined.

(** ** Identifiers and their records *)

(** The six fields of a regular record whose names hold no colon. *)
Lemma internalRecord_exact_fields (skip : Z) (env : Env)
      (funcName filename : string) (line : Z) :
  callSite skip env = (funcName, filename, line) ->
  GoStrings.contains funcName ":" = false ->
  GoStrings.contains filename ":" = false ->
  GoStrings.Split (internalRecord skip env) ":" =
    [funcName ++ "@" ++ filename; Strconv.Itoa line;
     Strconv.FormatInt (time_UnixNano env);
     Strconv.FormatUint (getGoroutineID env);
     Strconv.Itoa (os_Getpid env); generateRandomSuffix env].
Proof.
  intros Hsite Hf Hn.
  pose proof (internalRecord_fields skip env) as Hfields. rewrite Hsite in Hfields.
  destruct (Hfields Hf Hn) as (suffix & more & Hsplit).
  rewrite Hsplit.
  assert (Hs : GoStrings.Split (generateRandomSuffix env) ":" = suffix :: more).
  { unfold internalRecord in Hsplit. rewrite Hsite in Hsplit.
    rewrite <- (app_assoc_s "@" filename), <- (app_assoc_s funcName) in Hsplit.
    rewrite !colon_app in Hsplit.
    rewrite Split_field in Hsplit by (rewrite !contains_app, Hf, Hn; reflexivity).
    unfold Strconv.Itoa in Hsplit.
    rewrite !Split_field in Hsplit by
      first [apply FormatInt_colon_free | apply FormatUint_colon_free].
    congruence. }
  rewrite (Split_whole _ _ (generateRandomSuffix_colon_free env)) in Hs.
  congruence.
Qed.

(** X1: decoding a regular identifier gives back every field that went into
    it.  The names must hold no colon and the file name no [@], and the line,
    the timestamp and the process id must be 64-bit integers. *)
Theorem regular_id_decodes_to_its_fields (tz : Z -> string) (skip : Z) (env : Env)
        (id funcName filename : string) (line : Z) :
  generateErrorIDInternal skip env = Some id ->
  callSite skip env = (funcName, filename, line) ->
  GoStrings.contains funcName ":" = false ->
  GoStrings.contains filename ":" = false ->
  GoStrings.contains filename "@" = false ->
  Strconv.int64_min <= line <= Strconv.int64_max ->
  Strconv.int64_min <= time_UnixNano env <= Strconv.int64_max ->
  Strconv.int64_min <= os_Getpid env <= Strconv.int64_max ->
  DecodeErrorID tz id =
    (Some (mkInfo funcName filename line (time_UnixNano env) (getGoroutineID env)
             (os_Getpid env) (generateRandomSuffix env) (tz (time_UnixNano env))
             (internalRecord skip env)),
     None).
Proof.
  intros Hid Hsite Hf Hn Hat Hline Hts Hpid.
  unfold generateErrorIDInternal in Hid.
  destruct (internal_panics env); [discriminate |]. injection Hid as <-.
  rewrite (DecodeErrorID_long tz _ _ (DecodeString_EncodeToString _)
             (internalRecord_six_fields skip env)).
  cbv zeta.
  rewrite (internalRecord_exact_fields skip env _ _ _ Hsite Hf Hn).
  unfold part. cbn [nth].
  change ("@" ++ filename) with (String "@" filename).
  rewrite (LastIndex_app_last funcName filename "@" Hat).
  destruct (Z.leb_spec 0 (strlen funcName)) as [_ | Hneg];
    [| unfold strlen in Hneg; lia].
  rewrite slice_to_app.
  change (String "@" filename) with ("@" ++ filename).
  rewrite <- app_assoc_s.
  replace (strlen funcName + 1) with (strlen (funcName ++ "@"))
    by (rewrite strlen_app; reflexivity).
  rewrite slice_from_app.
  unfold Strconv.Atoi, Strconv.Itoa.
  rewrite !ParseInt_FormatInt by assumption.
  rewrite ParseUint_FormatUint by apply getGoroutineID_range.
  reflexivity.
Qed.

Lemma regular_id_decodes_to_its_fields_witness :
  DecodeErrorID unix_nanos_text
    "Q3JlYXRlQHNlcnZpY2UuZ286ODc6MTcwMDAwMDAwMDAwMDAwMDAwMDoxNzo0MjQyOmRlYWRiZWVm"
  = (Some (mkInfo "Create" "service.go" 87 1700000000000000000 17 4242 "deadbeef"
             "1700000000000000000"
             "Create@service.go:87:1700000000000000000:17:4242:deadbeef"),
     None).
Proof.
  apply (regular_id_decodes_to_its_fields unix_nanos_text 3 sample_env _
           "Create" "service.go" 87);
    try reflexivity; unfold Strconv.int64_min, Strconv.int64_max; cbn; lia.
Defined.

(** X2: an identifier of the regular path is never equal to one of the
    fallback path, whatever the readings of either: the first has at least
    six fields, the second four. *)
Theorem regular_and_fallback_ids_differ (skip : Z) (env env' : Env) (id : string) :
  generateErrorIDInternal skip env = Some id ->
  id <> generateFallbackErrorID env'.
Proof.
  unfold generateErrorIDInternal, generateFallbackErrorID.
  destruct (internal_panics env); [discriminate |]. intros [= <-] E.
  apply EncodeToString_injective in E.
  pose proof (internalRecord_six_fields skip env) as Hsix. rewrite E in Hsix.
  destruct (fallback_fields env') as (t & p & r & Hfour).
  rewrite Hfour in Hsix. cbn [length] in Hsix. lia.
Qed.

Lemma regular_and_fallback_ids_differ_witness :
  generateErrorID 2 sample_env <> generateErrorID 2 sample_env_panicking.
Proof.
  apply (regular_and_fallback_ids_differ 3 sample_env sample_env_panicking).
  reflexivity.
Defined.

(** Two regular identifiers are equal only if they were made from the same
    line, timestamp, goroutine id, process id and random suffix (and the same
    [func@file] text). *)
Lemma equal_regular_ids_have_equal_fields (skip skip' : Z) (env env' : Env)
        (id funcName filename funcName' filename' : string) (line line' : Z) :
  generateErrorIDInternal skip env = Some id ->
  generateErrorIDInternal skip' env' = Some id ->
  callSite skip env = (funcName, filename, line) ->
  callSite skip' env' = (funcName', filename', line') ->
  GoStrings.contains funcName ":" = false ->
  GoStrings.contains filename ":" = false ->
  GoStrings.contains funcName' ":" = false ->
  GoStrings.contains filename' ":" = false ->
  Strconv.int64_min <= line <= Strconv.int64_max ->
  Strconv.int64_min <= line' <= Strconv.int64_max ->
  Strconv.int64_min <= time_UnixNano env <= Strconv.int64_max ->
  Strconv.int64_min <= time_UnixNano env' <= Strconv.int64_max ->
  Strconv.int64_min <= os_Getpid env <= Strconv.int64_max ->
  Strconv.int64_min <= os_Getpid env' <= Strconv.int64_max ->
  funcName ++ "@" ++ filename = funcName' ++ "@" ++ filename'
  /\ line = line'
  /\ time_UnixNano env = time_UnixNano env'
  /\ getGoroutineID env = getGoroutineID env'
  /\ os_Getpid env = os_Getpid env'
  /\ generateRandomSuffix env = generateRandomSuffix env'.
Proof.
  intros Hid Hid' Hsite Hsite' Hf Hn Hf' Hn' Hl Hl' Ht Ht' Hp Hp'.
  unfold generateErrorIDInternal in Hid, Hid'.
  destruct (internal_panics env); [discriminate |].
  destruct (internal_panics env'); [discriminate |].
  rewrite <- Hid' in Hid. injection Hid as E.
  apply EncodeToString_injective in E.
  pose proof (internalRecord_exact_fields skip env _ _ _ Hsite Hf Hn) as S.
  pose proof (internalRecord_exact_fields skip' env' _ _ _ Hsite' Hf' Hn') as S'.
  rewrite E, S' in S. injection S as E0 E1 E2 E3 E4 E5.
  unfold Strconv.Itoa in *.
  pose proof (getGoroutineID_range env). pose proof (getGoroutineID_range env').
  repeat split; auto using FormatInt_injective, FormatUint_injective, eq_sym.
Qed.

(** X3: two generations on the regular path that differ in the line, the
    timestamp, the goroutine id, the process id or the random suffix give
    different identifiers (names without colon, 64-bit integers). *)
Theorem regular_ids_differ_when_a_field_differs (skip skip' : Z) (env env' : Env)
        (id id' funcName filename funcName' filename' : string) (line line' : Z) :
  generateErrorIDInternal skip env = Some id ->
  generateErrorIDInternal skip' env' = Some id' ->
  callSite skip env = (funcName, filename, line) ->
  callSite skip' env' = (funcName', filename', line') ->
  GoStrings.contains funcName ":" = false ->
  GoStrings.contains filename ":" = false ->
  GoStrings.contains funcName' ":" = false ->
  GoStrings.contains filename' ":" = false ->
  Strconv.int64_min <= line <= Strconv.int64_max ->
  Strconv.int64_min <= line' <= Strconv.int64_max ->
  Strconv.int64_min <= time_UnixNano env <= Strconv.int64_max ->
  Strconv.int64_min <= time_UnixNano env' <= Strconv.int64_max ->
  Strconv.int64_min <= os_Getpid env <= Strconv.int64_max ->
  Strconv.int64_min <= os_Getpid env' <= Strconv.int64_max ->
  line <> line'
  \/ time_UnixNano env <> time_UnixNano env'
  \/ getGoroutineID env <> getGoroutineID env'
  \/ os_Getpid env <> os_Getpid env'
  \/ generateRandomSuffix env <> generateRandomSuffix env' ->
  id <> id'.
Proof.
  intros Hid Hid' Hsite Hsite' Hf Hn Hf' Hn' Hl Hl' Ht Ht' Hp Hp' Hdiff E.
  subst id'.
  destruct (equal_regular_ids_have_equal_fields skip skip' env env' id
              _ _ _ _ _ _ Hid Hid' Hsite Hsite' Hf Hn Hf' Hn' Hl Hl' Ht Ht' Hp Hp')
    as (_ & E1 & E2 & E3 & E4 & E5).
  tauto.
Qed.

Lemma regular_ids_differ_when_a_field_differs_witness :
  generateErrorID 2 sample_env <> generateErrorID 2 sample_env_later.
Proof.
  refine (regular_ids_differ_when_a_field_differs 3 3 sample_env sample_env_later
            _ _ "Create" "service.go" "Create" "service.go" 87 87
            eq_refl eq_refl eq_refl eq_refl eq_refl eq_refl eq_refl eq_refl
            _ _ _ _ _ _ _);
    unfold Strconv.int64_min, Strconv.int64_max; cbn; lia.
Defined.

(** ** Translating there and back *)

Lemma ToGRPCCode_default (w : Z) : ~ In w web_table -> ToGRPCCode w = Codes.Unknown.
Proof.
  intros Hout. unfold ToGRPCCode. switch_cases; try reflexivity;
    exfalso; apply Hout; subst w; cbn; tauto.
Qed.

Ltac in_list_cases H :=
  cbn [In web_table web_image rpc_fixed Codes.named] in H;
  codes_to_numbers;
  repeat (destruct H as [H | H]; [try subst; try lia |]);
  try contradiction.

(** X6: a web code that has a case in [ToGRPCCode] comes back unchanged from
    [ToHTTPCode]; every other web code comes back as 500.  In the other
    direction exactly eleven RPC codes come back unchanged; the other named
    codes do not (unknown and data-loss come back as internal, canceled as
    unknown, already-exists as aborted, failed-precondition and out-of-range
    as invalid-argument). *)
Theorem translation_there_and_back :
  (forall w : Z, In w web_table -> ToHTTPCode (ToGRPCCode w) = w)
  /\ (forall w : Z, ~ In w web_table -> ToHTTPCode (ToGRPCCode w) = 500)
  /\ (forall c : Codes.Code, ToGRPCCode (ToHTTPCode c) = c <-> In c rpc_fixed)
  /\ ToGRPCCode (ToHTTPCode Codes.Unknown) = Codes.Internal
  /\ ToGRPCCode (ToHTTPCode Codes.DataLoss) = Codes.Internal
  /\ ToGRPCCode (ToHTTPCode Codes.Canceled) = Codes.Unknown
  /\ ToGRPCCode (ToHTTPCode Codes.AlreadyExists) = Codes.Aborted
  /\ ToGRPCCode (ToHTTPCode Codes.FailedPrecondition) = Codes.InvalidArgument
  /\ ToGRPCCode (ToHTTPCode Codes.OutOfRange) = Codes.InvalidArgument.
Proof.
  repeat split; try reflexivity.
  - intros w Hw. in_list_cases Hw; reflexivity.
  - intros w Hw.
    rewrite (ToGRPCCode_default w Hw). reflexivity.
  - intros E. unfold ToHTTPCode in E. cbn [In rpc_fixed].
    revert E. switch_cases; subst; cbn; codes_to_numbers; intros E;
      try discriminate E; try tauto; try lia.
  - intros Hc. in_list_cases Hc; reflexivity.
Qed.

Lemma translation_there_and_back_witness :
  ToHTTPCode (ToGRPCCode 404) = 404 /\ ToHTTPCode (ToGRPCCode 418) = 500
  /\ ToGRPCCode (ToHTTPCode Codes.NotFound) = Codes.NotFound.
Proof.
  destruct translation_there_and_back as (Hin & Hout & Hfix & _).
  split; [| split].
  - apply Hin. cbn. tauto.
  - apply Hout. cbn. intros H.
    repeat (destruct H as [H | H]; [discriminate |]). exact H.
  - apply Hfix. cbn. tauto.
Defined.

Lemma ToHTTPCode_image (c : Codes.Code) : In (ToHTTPCode c) web_image.
Proof. unfold ToHTTPCode. switch_cases; cbn; tauto. Qed.

(** X7: success and failure are never confused by the translation: only web
    200 becomes RPC OK and only RPC OK becomes web 200.  [ToHTTPCode] returns
    one of twelve web codes, and [ToGRPCCode] one of the named RPC codes. *)
Theorem translation_keeps_success_apart :
  (forall w : Z, ToGRPCCode w = Codes.OK <-> w = 200)
  /\ (forall c : Codes.Code, ToHTTPCode c = 200 <-> c = Codes.OK)
  /\ (forall c : Codes.Code, In (ToHTTPCode c) web_image)
  /\ (forall w : Z, In (ToGRPCCode w) Codes.named).
Proof.
  split; [exact ToGRPCCode_OK |].
  split; [| split].
  - intros c. unfold ToHTTPCode. switch_cases; codes_to_numbers; lia.
  - exact ToHTTPCode_image.
  - intros w. unfold ToGRPCCode. switch_cases; cbn; tauto.
Qed.

(** ** Constructing and deriving error values *)

Lemma int32_range (z : Z) : - 2 ^ 31 <= int32 z < 2 ^ 31.
Proof. unfold int32. pose proof (Z.mod_pos_bound (z + 2 ^ 31) (2 ^ 32)). lia. Qed.

Lemma int32_small (z : Z) : - 2 ^ 31 <= z < 2 ^ 31 -> int32 z = z.
Proof. intros Hz. unfold int32. rewrite Z.mod_small; lia. Qed.

(** X8: [New] allocates a new error and touches nothing else.  The error
    carries the code converted to 32 bits (the code itself when it fits), the
    reason and the message, a nil metadata map, no cause, and an id that is
    not empty. *)
Theorem New_makes_a_fresh_error (env : Env) (code : Z) (reason message : string)
        (h : Store) :
  exists (q : loc) (h' : Store),
    New env code reason message h = Some (q, h')
    /\ errs h !! q = None
    /\ errs h' !! q =
         Some (mkError (mkStatus (int32 code) reason message None
                          (generateErrorID 2 env)) None)
    /\ generateErrorID 2 env <> EmptyString
    /\ (- 2 ^ 31 <= code < 2 ^ 31 -> int32 code = code)
    /\ (forall p, p <> q -> errs h' !! p = errs h !! p)
    /\ maps h' = maps h.
Proof.
  eexists _, _. split; [reflexivity |]. cbn [errs maps].
  rewrite lookup_insert_eq.
  repeat split.
  - apply fresh_error_unused.
  - apply generateErrorID_nonempty.
  - apply int32_small.
  - intros p Hp. now rewrite lookup_insert_ne.
Qed.

Lemma New_makes_a_fresh_error_witness : int32 404 = 404.
Proof.
  destruct (New_makes_a_fresh_error sample_env 404 "USER_NOT_FOUND" "missing"
              sample_store) as (q & h' & _ & _ & _ & _ & Hsmall & _).
  apply Hsmall. lia.
Defined.

(** What [WithID] and [WithCause] do to the store. *)
Lemma WithID_run (h : Store) (p : loc) (e : Error) (src : gmap string string)
      (id : string) :
  errs h !! p = Some e ->
  entries (Metadata (status e)) h = Some (src, h) ->
  let a := fresh (dom (maps h)) in
  let q := fresh (dom (errs h)) in
  WithID p id h =
    Some (q,
          mkStore (<[q := mkError (mkStatus (Code (status e)) (Reason (status e))
                                     (Message (status e)) (Some a) id)
                            (cause e)]> (errs h))
                  (<[a := src]> (maps h))).
Proof.
  intros Hp Hsrc a q. unfold WithID.
  rewrite (bind_Some _ _ _ _ _ (Clone_run h p e src Hp Hsrc)).
  fold a. fold q.
  erewrite bind_Some by (apply load_Some; cbn [errs]; apply lookup_insert_eq).
  unfold bind, store, ret.
  cbn [errs maps set_ID status cause Code Reason Message Metadata].
  now rewrite insert_insert_eq.
Qed.

Lemma WithCause_run (h : Store) (p : loc) (e : Error) (src : gmap string string)
      (c : option GoError) :
  errs h !! p = Some e ->
  entries (Metadata (status e)) h = Some (src, h) ->
  let a := fresh (dom (maps h)) in
  let q := fresh (dom (errs h)) in
  WithCause p c h =
    Some (q,
          mkStore (<[q := mkError (mkStatus (Code (status e)) (Reason (status e))
                                     (Message (status e)) (Some a) (ID (status e)))
                            c]> (errs h))
                  (<[a := src]> (maps h))).
Proof.
  intros Hp Hsrc a q. unfold WithCause.
  rewrite (bind_Some _ _ _ _ _ (Clone_run h p e src Hp Hsrc)).
  fold a. fold q.
  erewrite bind_Some by (apply load_Some; cbn [errs]; apply lookup_insert_eq).
  unfold bind, store, ret. cbn [errs maps set_cause status].
  now rewrite insert_insert_eq.
Qed.

(** X9: [WithID] returns a new error that carries the given id and, apart
    from that, the receiver's code, reason, message and cause, with a
    metadata map of its own, new, that holds the receiver's entries.  Nothing
    that existed before is changed: every other error, the receiver among
    them, is as it was, and so is every other map, so the receiver's map
    holds the entries it held.  [GetID] of the result returns the given id
    when it is not empty; an empty id is replaced by a generated one on that
    first read. *)
Theorem WithID_overrides_the_id (env : Env) (h : Store) (p : loc) (e : Error)
        (src : gmap string string) (id : string) :
  errs h !! p = Some e ->
  entries (Metadata (status e)) h = Some (src, h) ->
  exists (q a : loc) (h' : Store),
    WithID p id h = Some (q, h')
    /\ q <> p
    /\ errs h' !! p = Some e
    /\ errs h' !! q =
         Some (mkError (mkStatus (Code (status e)) (Reason (status e))
                          (Message (status e)) (Some a) id) (cause e))
    /\ Metadata (status e) <> Some a
    /\ entries (Some a) h' = Some (src, h')
    /\ (id <> EmptyString -> GetID env q h' = Some (id, h'))
    /\ (id = EmptyString ->
        exists h'', GetID env q h' = Some (generateErrorID 3 env, h'')
                    /\ generateErrorID 3 env <> EmptyString)
    /\ errs h !! q = None
    /\ maps h !! a = None
    /\ (forall p', p' <> q -> errs h' !! p' = errs h !! p')
    /\ (forall a', a' <> a -> maps h' !! a' = maps h !! a')
    /\ entries (Metadata (status e)) h' = Some (src, h').
Proof.
  intros Hp Hsrc.
  pose proof (fresh_error_unused h) as Hq.
  assert (Hqp : fresh (dom (errs h)) <> p) by (intros E; rewrite E in Hq; congruence).
  set (a := fresh (dom (maps h))).
  set (q := fresh (dom (errs h))) in *.
  set (e' := mkError (mkStatus (Code (status e)) (Reason (status e))
                        (Message (status e)) (Some a) id) (cause e)).
  set (h' := mkStore (<[q := e']> (errs h)) (<[a := src]> (maps h))).
  assert (Hq' : errs h' !! q = Some e') by (cbn [h' errs]; apply lookup_insert_eq).
  exists q, a, h'.
  split; [exact (WithID_run h p e src id Hp Hsrc) |].
  split; [exact Hqp |].
  split; [cbn [h' errs]; now rewrite lookup_insert_ne |].
  split; [exact Hq' |].
  split; [exact (entries_fresh h _ _ Hsrc) |].
  split; [unfold entries; cbn [h' maps]; now rewrite lookup_insert_eq |].
  split; [intros Hid; exact (GetID_stored env h' q e' Hq' Hid) |].
  split.
  { intros Hid. eexists. split; [| apply generateErrorID_nonempty].
    apply (GetID_generates env h' q e' Hq'). exact Hid. }
  split; [exact Hq |]. split; [apply fresh_map_unused |].
  split; [intros p' Hne; cbn [h' errs]; now rewrite lookup_insert_ne |].
  split; [intros a' Hne; cbn [h' maps]; now rewrite lookup_insert_ne |].
  exact (entries_frame h _ _ _ _ _ Hsrc (entries_fresh h _ _ Hsrc)).
Qed.

Lemma WithID_overrides_the_id_witness :
  exists (q : loc) (h' : Store),
    WithID 1%positive "trace-from-upstream" sample_store = Some (q, h')
    /\ GetID sample_env q h' = Some ("trace-from-upstream", h')
    /\ errs h' !! 1%positive = Some sample_error
    /\ entries (Metadata (status sample_error)) h' = Some ({["k" := "v"]}, h').
Proof.
  destruct (WithID_overrides_the_id sample_env sample_store 1%positive sample_error
              {["k" := "v"]} "trace-from-upstream" eq_refl eq_refl)
    as (q & a & h' & Hrun & _ & Horig & _ & _ & _ & Hget & _ & _ & _ & _ & _ & Hmd).
  exists q, h'. split; [exact Hrun |]. split; [| split; [exact Horig | exact Hmd]].
  apply Hget. discriminate.
Defined.

(** X10: [Unwrap] of [WithCause e c] is [c], and [WithCause] keeps the id and
    the other fields of the receiver, whose own cause is unchanged. *)
Theorem Unwrap_WithCause (h : Store) (p : loc) (e : Error)
        (src : gmap string string) (c : option GoError) :
  errs h !! p = Some e ->
  entries (Metadata (status e)) h = Some (src, h) ->
  exists (q a : loc) (h' : Store),
    WithCause p c h = Some (q, h')
    /\ q <> p
    /\ Unwrap q h' = Some (c, h')
    /\ Unwrap p h' = Some (cause e, h')
    /\ errs h' !! q =
         Some (mkError (mkStatus (Code (status e)) (Reason (status e))
                          (Message (status e)) (Some a) (ID (status e))) c)
    /\ entries (Some a) h' = Some (src, h').
Proof.
  intros Hp Hsrc.
  pose proof (fresh_error_unused h) as Hq.
  assert (Hqp : fresh (dom (errs h)) <> p) by (intros E; rewrite E in Hq; congruence).
  eexists _, _, _. split; [exact (WithCause_run h p e src c Hp Hsrc) |].
  unfold Unwrap, bind, load, ret, entries. cbn [errs maps].
  rewrite !lookup_insert_eq, lookup_insert_ne, Hp by exact Hqp.
  repeat split; assumption.
Qed.

Lemma Unwrap_WithCause_witness :
  exists (q : loc) (h' : Store),
    WithCause 1%positive (Some (ErrOther "connection refused")) sample_store
      = Some (q, h')
    /\ Unwrap q h' = Some (Some (ErrOther "connection refused"), h')
    /\ Unwrap 1%positive h' = Some (None, h').
Proof.
  destruct (Unwrap_WithCause sample_store 1%positive sample_error {["k" := "v"]}
              (Some (ErrOther "connection refused")) eq_refl eq_refl)
    as (q & a & h' & Hrun & _ & Hq & Hp & _).
  exists q, h'. auto.
Defined.

(** ** Matching errors by kind *)

Lemma Is_run (h : Store) (p se : loc) (x y : Error) (err : GoError) :
  errors_As err = Some se ->
  errs h !! se = Some y ->
  errs h !! p = Some x ->
  Is p (Some err) h =
    Some ((Code (status y) =? Code (status x))
          && String.eqb (Reason (status y)) (Reason (status x)), h).
Proof.
  intros Has Hy Hx. unfold Is. rewrite Has.
  rewrite (bind_Some _ _ _ _ _ (load_Some h se y Hy)).
  rewrite (bind_Some _ _ _ _ _ (load_Some h p x Hx)).
  reflexivity.
Qed.

(** X11: [Is] compares the receiver with the first error value of the
    target's chain by code and reason only: it holds exactly when both are
    equal, whatever the messages, metadata, ids and causes, and whatever
    wraps the target.  It is reflexive and symmetric between error values; it
    is false for nil and for a target whose chain holds no error value (a
    foreign error or the error of a remote status); it never changes the
    store. *)
Theorem Is_compares_code_and_reason (h : Store) (p : loc) (x : Error) :
  errs h !! p = Some x ->
  Is p None h = Some (false, h)
  /\ Is p (Some (ErrPtr p)) h = Some (true, h)
  /\ (forall err, errors_As err = None -> Is p (Some err) h = Some (false, h))
  /\ (forall err se y,
        errors_As err = Some se -> errs h !! se = Some y ->
        exists b,
          Is p (Some err) h = Some (b, h)
          /\ Is se (Some (ErrPtr p)) h = Some (b, h)
          /\ (b = true <->
              Code (status y) = Code (status x)
              /\ Reason (status y) = Reason (status x))).
Proof.
  intros Hx. split; [reflexivity |]. split; [| split].
  - rewrite (Is_run h p p x x (ErrPtr p) eq_refl Hx Hx).
    now rewrite Z.eqb_refl, String.eqb_refl.
  - intros err Has. unfold Is. now rewrite Has.
  - intros err se y Has Hy.
    exists ((Code (status y) =? Code (status x))
            && String.eqb (Reason (status y)) (Reason (status x))).
    split; [exact (Is_run h p se x y err Has Hy Hx) |].
    split.
    + rewrite (Is_run h se p y x (ErrPtr p) eq_refl Hx Hy).
      now rewrite Z.eqb_sym, String.eqb_sym.
    + rewrite andb_true_iff, Z.eqb_eq, String.eqb_eq. reflexivity.
Qed.

Lemma Is_compares_code_and_reason_witness :
  Is 1%positive (Some (ErrWrap "handler failed" (ErrPtr 3%positive))) sample_store
  = Some (false, sample_store)
  /\ Is 1%positive (Some (ErrOther "boom")) sample_store = Some (false, sample_store).
Proof.
  destruct (Is_compares_code_and_reason sample_store 1%positive sample_error eq_refl)
    as (_ & _ & Hforeign & Hnative).
  split; [| apply Hforeign; reflexivity].
  destruct (Hnative (ErrWrap "handler failed" (ErrPtr 3%positive)) 3%positive
              sample_named_error eq_refl eq_refl) as (b & Hrun & _ & Hb).
  rewrite Hrun. destruct b; [| reflexivity].
  destruct (proj1 Hb eq_refl) as [Hcode _]. discriminate Hcode.
Defined.

(** X12: every copy derived from an error (by [Clone], [WithMetadata],
    [WithCause] or [WithID]) matches the original under [Is], in both
    directions. *)
Theorem derived_copies_match_the_original (h : Store) (p : loc) (e : Error)
        (src : gmap string string) (md : option loc) (c : option GoError)
        (id : string) :
  errs h !! p = Some e ->
  entries (Metadata (status e)) h = Some (src, h) ->
  (exists q h', Clone (Some p) h = Some (Some q, h')
                /\ Is p (Some (ErrPtr q)) h' = Some (true, h')
                /\ Is q (Some (ErrPtr p)) h' = Some (true, h'))
  /\ (exists q h', WithMetadata p md h = Some (q, h')
                   /\ Is p (Some (ErrPtr q)) h' = Some (true, h')
                   /\ Is q (Some (ErrPtr p)) h' = Some (true, h'))
  /\ (exists q h', WithCause p c h = Some (q, h')
                   /\ Is p (Some (ErrPtr q)) h' = Some (true, h')
                   /\ Is q (Some (ErrPtr p)) h' = Some (true, h'))
  /\ (exists q h', WithID p id h = Some (q, h')
                   /\ Is p (Some (ErrPtr q)) h' = Some (true, h')
                   /\ Is q (Some (ErrPtr p)) h' = Some (true, h')).
Proof.
  intros Hp Hsrc.
  pose proof (fresh_error_unused h) as Hq.
  assert (Hqp : fresh (dom (errs h)) <> p) by (intros E; rewrite E in Hq; congruence).
  assert (Hmatch : forall (e' : Error) (ms : gmap loc (gmap string string)),
             Code (status e') = Code (status e) ->
             Reason (status e') = Reason (status e) ->
             let h' := mkStore (<[fresh (dom (errs h)) := e']> (errs h)) ms in
             Is p (Some (ErrPtr (fresh (dom (errs h))))) h' = Some (true, h')
             /\ Is (fresh (dom (errs h))) (Some (ErrPtr p)) h' = Some (true, h')).
  { intros e' ms Hc Hr h'.
    assert (Hq' : errs h' !! fresh (dom (errs h)) = Some e')
      by (cbn [h' errs]; apply lookup_insert_eq).
    assert (Hp' : errs h' !! p = Some e)
      by (cbn [h' errs]; now rewrite lookup_insert_ne).
    rewrite (Is_run h' p _ e e' (ErrPtr _) eq_refl Hq' Hp').
    rewrite (Is_run h' _ p e' e (ErrPtr p) eq_refl Hp' Hq').
    rewrite Hc, Hr, Z.eqb_refl, String.eqb_refl. auto. }
  split; [| split; [| split]]; eexists _, _.
  - split; [exact (Clone_run h p e src Hp Hsrc) |]. now apply Hmatch.
  - split; [exact (WithMetadata_run h p e src md Hp Hsrc) |]. now apply Hmatch.
  - split; [exact (WithCause_run h p e src c Hp Hsrc) |]. now apply Hmatch.
  - split; [exact (WithID_run h p e src id Hp Hsrc) |]. now apply Hmatch.
Qed.

Lemma derived_copies_match_the_original_witness :
  exists q h', WithID 1%positive "other-id" sample_store = Some (q, h')
               /\ Is 1%positive (Some (ErrPtr q)) h' = Some (true, h').
Proof.
  destruct (derived_copies_match_the_original sample_store 1%positive sample_error
              {["k" := "v"]} None None "other-id" eq_refl eq_refl)
    as (_ & _ & _ & q & h' & Hrun & His & _).
  exists q, h'. auto.
Defined.

(** ** Converting arbitrary errors *)

Lemma FromError_native_run (env : Env) (h : Store) (err : GoError) (p : loc)
      (e : Error) :
  errors_As err = Some p ->
  errs h !! p = Some e ->
  FromError env (Some err) h =
    match ID (status e) with
    | EmptyString =>
        Some (Some p,
              mkStore (<[p := set_ID e (generateErrorID 3 env)]> (errs h)) (maps h))
    | _ => Some (Some p, h)
    end.
Proof.
  intros Has Hp. unfold FromError. rewrite Has.
  rewrite (bind_Some _ _ _ _ _ (load_Some h p e Hp)).
  destruct (ID (status e)); reflexivity.
Qed.

Lemma FromError_returns_the_error_itself_aux (env : Env) (h : Store) (err : GoError)
      (p : loc) (e : Error) :
  errors_As err = Some p ->
  errs h !! p = Some e ->
  exists (h' : Store) (id : string),
    FromError env (Some err) h = Some (Some p, h')
    /\ errs h' !! p = Some (set_ID e id)
    /\ id <> EmptyString.
Proof.
  intros Has Hp. rewrite (FromError_native_run env h err p e Has Hp).
  destruct (ID (status e)) as [| c rest] eqn:Hid.
  - eexists _, _. split; [reflexivity |]. cbn [errs]. rewrite lookup_insert_eq.
    split; [reflexivity | apply generateErrorID_nonempty].
  - exists h, (String c rest). split; [reflexivity |].
    split; [| discriminate]. rewrite <- Hid, set_ID_same. exact Hp.
Qed.



(** X14: on the error of a remote status that carries no structured detail,
    [FromError] builds a new error whose code is the web translation of the
    RPC code, with an empty reason, the message of the status, a nil metadata
    map and a generated id. *)
Theorem FromError_of_a_bare_status (env : Env) (h : Store) (err : GoError)
        (gs : GrpcStatus) :
  errors_As err = None ->
  status_FromError err = Some gs ->
  first_status_detail (gs_Details gs) = None ->
  exists (q : loc) (h' : Store),
    FromError env (Some err) h = Some (Some q, h')
    /\ errs h !! q = None
    /\ errs h' !! q =
         Some (mkError (mkStatus (int32 (ToHTTPCode (gs_Code gs))) "" (gs_Message gs)
                          None (generateErrorID 2 env)) None)
    /\ int32 (ToHTTPCode (gs_Code gs)) = ToHTTPCode (gs_Code gs)
    /\ generateErrorID 2 env <> EmptyString
    /\ maps h' = maps h.
Proof.
  intros Has Hst Hdet. unfold FromError. rewrite Has, Hst, Hdet.
  eexists _, _. split; [reflexivity |]. cbn [errs maps].
  rewrite lookup_insert_eq.
  split; [apply fresh_error_unused |]. split; [reflexivity |].
  split; [| split; [apply generateErrorID_nonempty | reflexivity]].
  apply int32_small.
  pose proof (ToHTTPCode_image (gs_Code gs)) as Him.
  cbn [In web_image web_table] in Him. codes_to_numbers.
  repeat (destruct Him as [Him | Him]; [rewrite <- Him; lia |]). contradiction.
Qed.

Lemma FromError_of_a_bare_status_witness :
  exists (q : loc) (h' : Store),
    FromError sample_env
      (Some (ErrStatus (mkGrpcStatus Codes.NotFound "no such user" [DetailOther])))
      sample_store = Some (Some q, h')
    /\ errs h' !! q =
         Some (mkError (mkStatus 404 "" "no such user" None
                          (generateErrorID 2 sample_env)) None).
Proof.
  destruct (FromError_of_a_bare_status sample_env sample_store
              (ErrStatus (mkGrpcStatus Codes.NotFound "no such user" [DetailOther]))
              (mkGrpcStatus Codes.NotFound "no such user" [DetailOther])
              eq_refl eq_refl eq_refl)
    as (q & h' & Hrun & _ & Hq & _).
  exists q, h'. split; [exact Hrun | exact Hq].
Defined.

(** X15: [FromError] of a non-nil error never returns nil and never panics
    (the error value of the chain, if there is one, being a live object), and
    the error it returns always has an id that is not empty: the one it had,
    the one the remote status carried, or a generated one. *)
Theorem FromError_always_yields_an_id (env : Env) (h : Store) (err : GoError) :
  (forall p, errors_As err = Some p -> is_Some (errs h !! p)) ->
  exists (q : loc) (h' : Store) (e' : Error),
    FromError env (Some err) h = Some (Some q, h')
    /\ errs h' !! q = Some e'
    /\ ID (status e') <> EmptyString.
Proof.
  intros Hlive.
  pose proof (generateErrorID_nonempty 2 env) as Hgen2.
  destruct (errors_As err) as [p |] eqn:Has.
  - destruct (Hlive p eq_refl) as [e Hp].
    destruct (FromError_returns_the_error_itself_aux env h err p e Has Hp)
      as (h' & id & Hrun & Hp' & Hid).
    exists p, h', (set_ID e id). auto.
  - unfold FromError. rewrite Has.
    destruct (status_FromError err) as [gs |].
    + destruct (first_status_detail (gs_Details gs)) as [d |].
      * unfold unmarshal_map.
        destruct (decide (pb_Metadata d = ∅)) as [Hempty | Hne].
        -- eexists _, _, _. split; [reflexivity |]. cbn [errs].
           rewrite lookup_insert_eq. split; [reflexivity | exact Hgen2].
        -- unfold bind, new_map, ret, entries. cbn [maps errs].
           rewrite lookup_insert_eq.
           destruct (default "" (pb_Metadata d !! "error_id")) as [| c rest] eqn:Hkey.
           ++ eexists _, _, _. split; [reflexivity |]. cbn [errs].
              rewrite lookup_insert_eq. split; [reflexivity | exact Hgen2].
           ++ unfold map_delete, new_error. cbn [maps errs].
              rewrite lookup_insert_eq.
              eexists _, _, _. split; [reflexivity |]. cbn [errs].
              rewrite lookup_insert_eq. split; [reflexivity | discriminate].
      * eexists _, _, _. split; [reflexivity |]. cbn [errs].
        rewrite lookup_insert_eq. split; [reflexivity | exact Hgen2].
    + eexists _, _, _. split; [reflexivity |]. cbn [errs].
      rewrite lookup_insert_eq. split; [reflexivity | exact Hgen2].
Qed.

Lemma FromError_always_yields_an_id_witness :
  exists (q : loc) (h' : Store) (e' : Error),
    FromError sample_env
      (Some (ErrStatus
               (mkGrpcStatus Codes.Unknown "teapot"
                  [DetailOther;
                   DetailAnyStatus (mkStatusPB 418 "TEAPOT" "teapot" ∅)])))
      sample_store = Some (Some q, h')
    /\ errs h' !! q = Some e'
    /\ ID (status e') <> EmptyString.
Proof.
  apply (FromError_always_yields_an_id sample_env sample_store).
  intros p Hp. discriminate Hp.
Defined.

(** ** Reading the code, the reason and the id of any error *)

(** X16: for nil, [Code] is 200, [Reason] and [ID] are empty, and nothing is
    touched.  For an error whose chain holds an error value that has an id,
    they return its code, its reason and its id and leave the store as it is.
    For a foreign error [Code] is 500 and [Reason] is empty. *)
Theorem accessors_of_any_error (env env' : Env) (h : Store) :
  Code_of env None h = Some (200, h)
  /\ Reason_of env None h = Some ("", h)
  /\ ID_of env env' None h = Some ("", h)
  /\ (forall err p e,
        errors_As err = Some p -> errs h !! p = Some e ->
        ID (status e) <> EmptyString ->
        Code_of env (Some err) h = Some (Code (status e), h)
        /\ Reason_of env (Some err) h = Some (Reason (status e), h)
        /\ ID_of env env' (Some err) h = Some (ID (status e), h))
  /\ (forall err,
        errors_As err = None -> status_FromError err = None ->
        exists h' h'',
          Code_of env (Some err) h = Some (500, h')
          /\ Reason_of env (Some err) h = Some ("", h'')).
Proof.
  split; [reflexivity |]. split; [reflexivity |]. split; [reflexivity |]. split.
  - intros err p e Has Hp Hid.
    assert (Hrun : FromError env (Some err) h = Some (Some p, h)).
    { rewrite (FromError_native_run env h err p e Has Hp).
      destruct (ID (status e)); [congruence | reflexivity]. }
    unfold Code_of, Reason_of, ID_of.
    rewrite !(bind_Some _ _ _ _ _ Hrun).
    rewrite !(bind_Some _ _ _ _ _ (load_Some h p e Hp)).
    rewrite (GetID_stored env' h p e Hp Hid). auto.
  - intros err Has Hst. unfold Code_of, Reason_of, FromError.
    rewrite Has, Hst. unfold bind, new_error, ret, load. cbn [errs].
    rewrite lookup_insert_eq. eauto.
Qed.

Lemma accessors_of_any_error_witness :
  Code_of sample_env (Some (ErrWrap "while saving" (ErrPtr 3%positive))) sample_store
  = Some (409, sample_store)
  /\ (exists h', Code_of sample_env (Some (ErrOther "disk full")) sample_store
                 = Some (500, h')).
Proof.
  destruct (accessors_of_any_error sample_env sample_env_later sample_store)
    as (_ & _ & _ & Hnative & Hforeign).
  split.
  - destruct (Hnative (ErrWrap "while saving" (ErrPtr 3%positive)) 3%positive
                sample_named_error eq_refl eq_refl) as [Hcode _]; [discriminate |].
    exact Hcode.
  - destruct (Hforeign (ErrOther "disk full") eq_refl eq_refl)
      as (h' & _ & Hcode & _).
    exists h'. exact Hcode.
Defined.

(** ** Constructors and checkers *)

Lemma checker_on_new_error (env env' : Env) (code code' : Z) (reason message : string)
      (h : Store) :
  - 2 ^ 31 <= code < 2 ^ 31 ->
  exists q h',
    New env code reason message h = Some (q, h')
    /\ (c <- Code_of env' (Some (ErrPtr q)) ;; ret (c =? code')) h'
       = Some (code =? code', h').
Proof.
  intros Hcode.
  eexists _, _. split; [reflexivity |].
  set (q := fresh (dom (errs h))).
  set (e := mkError (mkStatus (int32 code) reason message None (generateErrorID 2 env))
              None).
  set (h' := mkStore (<[q := e]> (errs h)) (maps h)).
  assert (Hq : errs h' !! q = Some e) by (cbn [h' errs]; apply lookup_insert_eq).
  assert (Hrun : FromError env' (Some (ErrPtr q)) h' = Some (Some q, h')).
  { rewrite (FromError_native_run env' h' (ErrPtr q) q e eq_refl Hq).
    cbn [e status ID].
    pose proof (generateErrorID_nonempty 2 env).
    destruct (generateErrorID 2 env); [congruence | reflexivity]. }
  unfold Code_of, bind, ret, load. rewrite Hrun, Hq.
  cbn [e status Code]. now rewrite int32_small.
Qed.

(** X17: each convenience constructor builds an error with its own code, and
    a convenience checker applied to that error answers whether its code is
    the constructor's: the matching checker says yes and every other one says
    no, without changing the store. *)
Theorem conveniences_agree (env env' : Env) (reason message : string) (h : Store) :
  Forall (fun '(construct, code, _) =>
    Forall (fun '(_, code', check) =>
      exists (q : loc) (h' : Store),
        construct env reason message h = Some (q, h')
        /\ (exists e, errs h' !! q = Some e /\ Code (status e) = code
                      /\ Reason (status e) = reason /\ Message (status e) = message)
        /\ check env' (Some (ErrPtr q)) h' = Some (code =? code', h'))
      conveniences)
    conveniences.
Proof.
  unfold conveniences.
  repeat first [apply List.Forall_nil | apply List.Forall_cons
                | progress cbv beta iota];
    match goal with
    | |- exists q h', ?construct env reason message h = _ /\ _ /\ ?check _ _ _ = Some (?code =? ?code', _) =>
        destruct (checker_on_new_error env env' code code' reason message h
                    ltac:(lia)) as (q & h' & Hnew & Hcheck);
        exists q, h'; split; [exact Hnew |]; split; [| exact Hcheck];
        injection Hnew as <- <-; eexists; split;
          [cbn [errs]; apply lookup_insert_eq | auto]
    end.
Qed.

(** X18: the three range predicates read the code and nothing else.  No
    error is both a client and a server error; from code 400 on every error
    is one of the two; an authentication error is a client error; below 400
    all three are false. *)
Theorem range_predicates (h : Store) (p : loc) (e : Error) :
  errs h !! p = Some e ->
  exists client server auth : bool,
    IsClientError p h = Some (client, h)
    /\ IsServerError p h = Some (server, h)
    /\ IsAuthError p h = Some (auth, h)
    /\ (client = true <-> 400 <= Code (status e) < 500)
    /\ (server = true <-> 500 <= Code (status e))
    /\ (auth = true <-> Code (status e) = 401 \/ Code (status e) = 403)
    /\ (client && server = false)
    /\ (400 <= Code (status e) -> client || server = true)
    /\ (auth = true -> client = true)
    /\ (Code (status e) < 400 -> client = false /\ server = false /\ auth = false).
Proof.
  intros Hp. unfold IsClientError, IsServerError, IsAuthError.
  rewrite !(bind_Some _ _ _ _ _ (load_Some h p e Hp)). unfold ret.
  eexists _, _, _. do 3 (split; [reflexivity |]).
  destruct (Z.leb_spec 400 (Code (status e))), (Z.ltb_spec (Code (status e)) 500),
    (Z.leb_spec 500 (Code (status e))), (Z.eqb_spec (Code (status e)) 401),
    (Z.eqb_spec (Code (status e)) 403);
    cbn [andb orb]; repeat split; intros; try lia; try discriminate; auto.
Qed.

Lemma range_predicates_witness :
  IsClientError 1%positive sample_store = Some (true, sample_store)
  /\ IsServerError 1%positive sample_store = Some (false, sample_store)
  /\ IsAuthError 1%positive sample_store = Some (false, sample_store).
Proof.
  destruct (range_predicates sample_store 1%positive sample_error eq_refl)
    as (client & server & auth & Hc & Hs & Ha & Hclient & Hserver & Hauth & _).
  rewrite Hc, Hs, Ha.
  assert (client = true) by (apply Hclient; cbn; lia).
  assert (server = false).
  { destruct server; [| reflexivity]. pose proof (proj1 Hserver eq_refl) as Hge.
    cbn in Hge. lia. }
  assert (auth = false).
  { destruct auth; [| reflexivity]. pose proof (proj1 Hauth eq_refl) as Hor.
    cbn in Hor. destruct Hor; discriminate. }
  subst. auto.
Defined.

(** ** The remote status of an error *)

(** X19: [GRPCStatus] builds its status from a copy of the metadata: the
    error's own map keeps exactly its entries, the reserved key goes into the
    copy only.  The status is nil exactly when the code is 200 or the detail
    cannot be marshalled, which is when the reason, the message, the id or an
    entry of the metadata other than the one under the reserved key is not
    valid UTF-8; otherwise it has the translated RPC code, the message, and
    one detail with the code, reason, message and the copied metadata.  A
    second call returns the same status and leaves the store as it is. *)
Theorem GRPCStatus_copies_the_metadata (env env' : Env) (h : Store) (p : loc)
        (e : Error) (src : gmap string string) :
  errs h !! p = Some e ->
  entries (Metadata (status e)) h = Some (src, h) ->
  exists (s : option GrpcStatus) (h' : Store) (id : string),
    GRPCStatus env p h = Some (s, h')
    /\ id <> EmptyString
    /\ (ID (status e) <> EmptyString -> id = ID (status e) /\ h' = h)
    /\ (ID (status e) = EmptyString ->
        id = generateErrorID 3 env /\ Utf8.ValidString id = true)
    /\ errs h' !! p = Some (set_ID e id)
    /\ entries (Metadata (status e)) h' = Some (src, h')
    /\ (let pb := mkStatusPB (Code (status e)) (Reason (status e))
                    (Message (status e)) (<["error_id" := id]> src) in
        (s = None <-> Code (status e) = 200 \/ marshals pb = false)
        /\ (marshals pb = true <->
            Utf8.ValidString (Reason (status e)) = true
            /\ Utf8.ValidString (Message (status e)) = true
            /\ Utf8.ValidString id = true
            /\ forall k v, k <> "error_id" -> src !! k = Some v ->
                 Utf8.ValidString k = true /\ Utf8.ValidString v = true)
        /\ (Code (status e) <> 200 -> marshals pb = true ->
            s = Some (mkGrpcStatus (ToGRPCCode (Code (status e)))
                        (Message (status e)) [DetailStatus pb])))
    /\ GRPCStatus env' p h' = Some (s, h').
Proof.
  intros Hp Hsrc.
  destruct (GRPCStatus_run env h p e src Hp Hsrc)
    as (id & h1 & Hrun & Hid & Hkeep & Hfresh & Hp1 & Hothers & Hmaps).
  assert (Hsrc1 : entries (Metadata (status e)) h1 = Some (src, h1)).
  { apply entries_inv in Hsrc as [_ Hsrc]. unfold entries.
    destruct (Metadata (status e)) as [a |]; [| now subst src].
    now rewrite Hmaps, Hsrc. }
  assert (Hstay : ID (status e) <> EmptyString -> h1 = h).
  { intros Hne. destruct h as [es ms], h1 as [es1 ms1]. cbn [errs maps] in *.
    subst ms1. f_equal. apply map_eq. intros p'.
    destruct (decide (p' = p)) as [-> | Hne'].
    - rewrite Hp1, Hp, (Hkeep Hne). now rewrite set_ID_same.
    - now apply Hothers. }
  eexists _, h1, id. split; [exact Hrun |].
  split; [exact Hid |]. split; [auto |].
  split; [intros Hnone; rewrite (Hfresh Hnone); split;
          [reflexivity | apply generateErrorID_valid] |].
  split; [exact Hp1 |].
  split; [exact Hsrc1 |].
  split.
  - cbv zeta. unfold status_WithDetails, status_New.
    cbn [gs_Code gs_Message gs_Details app].
    split; [| split; [apply marshals_detail |]].
    + rewrite <- ToGRPCCode_OK.
      destruct (Z.eqb_spec (ToGRPCCode (Code (status e))) Codes.OK) as [Hok | Hno].
      * split; auto.
      * destruct (marshals _); split; auto; try congruence.
        intros [Hok | Hfalse]; congruence.
    + intros Hcode Hmarshal. rewrite <- ToGRPCCode_OK in Hcode.
      destruct (Z.eqb_spec (ToGRPCCode (Code (status e))) Codes.OK); [congruence |].
      now rewrite Hmarshal.
  - destruct (GRPCStatus_run env' h1 p (set_ID e id) src Hp1 Hsrc1)
      as (id2 & h2 & Hrun2 & _ & Hkeep2 & _ & Hp2 & Hothers2 & Hmaps2).
    cbn [set_ID status Code Reason Message ID] in Hrun2, Hkeep2.
    rewrite (Hkeep2 Hid) in Hrun2. rewrite Hrun2.
    f_equal. f_equal.
    destruct h1 as [es1 ms1], h2 as [es2 ms2]. cbn [errs maps] in *.
    subst ms2. f_equal. apply map_eq. intros p'.
    destruct (decide (p' = p)) as [-> | Hne'].
    + rewrite Hp2, Hp1, (Hkeep2 Hid). reflexivity.
    + now apply Hothers2.
Qed.

Lemma GRPCStatus_copies_the_metadata_witness :
  exists (s : option GrpcStatus) (h' : Store),
    GRPCStatus sample_env 3%positive sample_store = Some (s, h')
    /\ entries (Some 3%positive) h' = Some ({["k" := "v"]}, h')
    /\ GRPCStatus sample_env_later 3%positive h' = Some (s, h').
Proof.
  destruct (GRPCStatus_copies_the_metadata sample_env sample_env_later sample_store
              3%positive sample_named_error {["k" := "v"]} eq_refl eq_refl)
    as (s & h' & id & Hrun & _ & _ & _ & _ & Hmd & _ & Hagain).
  exists s, h'. auto.
Defined.

(** ** The transport adapters *)

(** What [FromError] returns for any error: an error object with an id and
    with a metadata map that can be read. *)
Lemma FromError_result (env : Env) (h : Store) (err : GoError) :
  (forall p, errors_As err = Some p ->
     exists e src, errs h !! p = Some e
                   /\ entries (Metadata (status e)) h = Some (src, h)) ->
  exists (q : loc) (h' : Store) (e' : Error) (src : gmap string string),
    FromError env (Some err) h = Some (Some q, h')
    /\ errs h' !! q = Some e'
    /\ ID (status e') <> EmptyString
    /\ entries (Metadata (status e')) h' = Some (src, h').
Proof.
  intros Hlive.
  pose proof (generateErrorID_nonempty 2 env) as Hgen2.
  destruct (errors_As err) as [p |] eqn:Has.
  - destruct (Hlive p eq_refl) as (e & src & Hp & Hsrc).
    rewrite (FromError_native_run env h err p e Has Hp).
    destruct (ID (status e)) as [| c rest] eqn:Hid.
    + eexists p, _, _, src. split; [reflexivity |]. cbn [errs].
      rewrite lookup_insert_eq. split; [reflexivity |].
      split; [apply generateErrorID_nonempty |].
      cbn [set_ID status Metadata].
      apply entries_inv in Hsrc as [_ Hsrc]. unfold entries.
      destruct (Metadata (status e)); cbn [maps]; [now rewrite Hsrc | now subst].
    + exists p, h, e, src. rewrite Hid. repeat split; auto; discriminate.
  - unfold FromError. rewrite Has.
    destruct (status_FromError err) as [gs |].
    + destruct (first_status_detail (gs_Details gs)) as [d |].
      * unfold unmarshal_map.
        destruct (decide (pb_Metadata d = ∅)) as [Hempty | Hne].
        -- eexists _, _, _, ∅. split; [reflexivity |]. cbn [errs].
           rewrite lookup_insert_eq. split; [reflexivity |]. split; [exact Hgen2 |].
           reflexivity.
        -- unfold bind, new_map, ret, entries. cbn [maps errs].
           rewrite lookup_insert_eq.
           destruct (default "" (pb_Metadata d !! "error_id")) as [| c rest] eqn:Hkey.
           ++ eexists _, _, _, _. split; [reflexivity |]. cbn [errs maps].
              rewrite lookup_insert_eq. split; [reflexivity |].
              split; [exact Hgen2 |]. unfold entries.
              cbn [status Metadata maps]. rewrite lookup_insert_eq. reflexivity.
           ++ unfold map_delete, new_error. cbn [maps errs].
              rewrite lookup_insert_eq.
              eexists _, _, _, _. split; [reflexivity |]. cbn [errs maps].
              rewrite lookup_insert_eq. split; [reflexivity |].
              split; [discriminate |]. unfold entries.
              cbn [status Metadata maps]. rewrite lookup_insert_eq. reflexivity.
      * eexists _, _, _, ∅. split; [reflexivity |]. cbn [errs].
        rewrite lookup_insert_eq. split; [reflexivity |]. split; [exact Hgen2 |].
        reflexivity.
    + eexists _, _, _, ∅. split; [reflexivity |]. cbn [errs].
      rewrite lookup_insert_eq. split; [reflexivity |]. split; [exact Hgen2 |].
      reflexivity.
Qed.

(** X20: for nil the HTTP handler answers 500 with the fixed message, an
    empty id and no metadata key.  For any other error it answers with the
    code, reason, message and metadata of the error [FromError] returns: the
    HTTP status is that code, whatever it is, and the id in the body is the
    error's id, which is not empty. *)
Theorem ErrorResponseHandler_answers (env env' : Env) (h : Store) :
  ErrorResponseHandler env env' None h =
    Some ((500, mkErrorBody 500 "" "An unknown error occurred" None ""), h)
  /\ forall err : GoError,
       (forall p, errors_As err = Some p ->
          exists e src, errs h !! p = Some e
                        /\ entries (Metadata (status e)) h = Some (src, h)) ->
       exists (q : loc) (h' : Store) (e' : Error),
         FromError env (Some err) h = Some (Some q, h')
         /\ errs h' !! q = Some e'
         /\ ID (status e') <> EmptyString
         /\ ErrorResponseHandler env env' (Some err) h =
              Some ((Code (status e'),
                     mkErrorBody (Code (status e')) (Reason (status e'))
                       (Message (status e')) (Some (Metadata (status e')))
                       (ID (status e'))),
                    h').
Proof.
  split; [reflexivity |].
  intros err Hlive.
  destruct (FromError_result env h err Hlive) as (q & h' & e' & src & Hrun & Hq & Hid & _).
  exists q, h', e'. repeat split; try assumption.
  unfold ErrorResponseHandler.
  rewrite (bind_Some _ _ _ _ _ Hrun).
  rewrite (bind_Some _ _ _ _ _ (GetID_stored env' h' q e' Hq Hid)).
  rewrite (bind_Some _ _ _ _ _ (load_Some h' q e' Hq)).
  reflexivity.
Qed.

Lemma ErrorResponseHandler_answers_witness :
  exists (q : loc) (h' : Store) (e' : Error),
    FromError sample_env (Some (ErrWrap "while saving" (ErrPtr 3%positive)))
      sample_store = Some (Some q, h')
    /\ errs h' !! q = Some e'
    /\ ID (status e') <> EmptyString
    /\ ErrorResponseHandler sample_env sample_env_later
         (Some (ErrWrap "while saving" (ErrPtr 3%positive))) sample_store =
         Some ((Code (status e'),
                mkErrorBody (Code (status e')) (Reason (status e'))
                  (Message (status e')) (Some (Metadata (status e')))
                  (ID (status e'))),
               h').
Proof.
  apply (proj2 (ErrorResponseHandler_answers sample_env sample_env_later
                  sample_store)).
  intros p [= <-]. exists sample_named_error, {["k" := "v"]}.
  split; reflexivity.
Defined.

Lemma GRPCStatus_with_id (env : Env) (h : Store) (p : loc) (e : Error)
      (src : gmap string string) :
  errs h !! p = Some e ->
  entries (Metadata (status e)) h = Some (src, h) ->
  ID (status e) <> EmptyString ->
  GRPCStatus env p h =
    Some (status_WithDetails
            (status_New (ToGRPCCode (Code (status e))) (Message (status e)))
            (mkStatusPB (Code (status e)) (Reason (status e)) (Message (status e))
               (<["error_id" := ID (status e)]> src)),
          h).
Proof.
  intros Hp Hsrc Hid. unfold GRPCStatus.
  rewrite (bind_Some _ _ _ _ _ (load_Some h p e Hp)).
  destruct (ID (status e)) as [| c rest] eqn:Hid'; [congruence |].
  unfold bind at 1. unfold ret at 1.
  rewrite (bind_Some _ _ _ _ _ (load_Some h p e Hp)).
  rewrite (bind_Some _ _ _ _ _ Hsrc).
  unfold ret. rewrite copy_into_empty, Hid'. reflexivity.
Qed.

(** The error of a status with one detail: nil for the web code 200 and
    for a detail that cannot be marshalled. *)
Lemma Err_WithDetails (code : Z) (msg : string) (pb : StatusPB) :
  status_Err (status_WithDetails (status_New (ToGRPCCode code) msg) pb) =
    if code =? 200 then None
    else if marshals pb
    then Some (ErrStatus (mkGrpcStatus (ToGRPCCode code) msg [DetailStatus pb]))
    else None.
Proof.
  unfold status_Err, status_WithDetails, status_New.
  cbn [gs_Code gs_Message gs_Details].
  destruct (Z.eqb_spec code 200) as [-> | Hne]; [reflexivity |].
  destruct (Z.eqb_spec (ToGRPCCode code) Codes.OK) as [Hok | Hno].
  - apply ToGRPCCode_OK in Hok. contradiction.
  - destruct (marshals pb); [| reflexivity].
    cbn [gs_Code]. destruct (Z.eqb_spec (ToGRPCCode code) Codes.OK); [contradiction |].
    reflexivity.
Qed.

(** The error an interceptor returns for the error object [e'] whose
    metadata has the entries [src]. *)
Lemma interceptor_run {Resp : Type} (env1 env2 env3 : Env) (h h' : Store)
      (resp : Resp) (err : GoError) (q : loc) (e' : Error)
      (src : gmap string string) :
  FromError env1 (Some err) h = Some (Some q, h') ->
  errs h' !! q = Some e' ->
  ID (status e') <> EmptyString ->
  entries (Metadata (status e')) h' = Some (src, h') ->
  let out :=
    let pb := mkStatusPB (Code (status e')) (Reason (status e'))
                (Message (status e')) (<["error_id" := ID (status e')]> src) in
    if Code (status e') =? 200 then None
    else if marshals pb
    then Some (ErrStatus
                 (mkGrpcStatus (ToGRPCCode (Code (status e'))) (Message (status e'))
                    [DetailStatus pb]))
    else None in
  UnaryServerErrorInterceptor env1 env2 env3 resp (Some err) h =
    Some ((resp, out, [LogUnaryError (ID (status e')) err]), h')
  /\ StreamServerErrorInterceptor env1 env2 env3 (Some err) h =
       Some ((out, [LogStreamError (ID (status e')) err]), h').
Proof.
  intros Hrun Hq Hid Hsrc out.
  unfold UnaryServerErrorInterceptor, StreamServerErrorInterceptor.
  rewrite !(bind_Some _ _ _ _ _ Hrun).
  rewrite !(bind_Some _ _ _ _ _ (GetID_stored env2 h' q e' Hq Hid)).
  rewrite !(bind_Some _ _ _ _ _ (GRPCStatus_with_id env3 h' q e' src Hq Hsrc Hid)).
  unfold ret. rewrite Err_WithDetails. split; reflexivity.
Qed.

(** X21: the interceptors pass nil through, log nothing for it and touch
    nothing.  For any other error of the handler they return the error of the
    status of the error object [FromError] yields: nil when that object has
    the code 200 or its detail cannot be marshalled (a text that is not valid
    UTF-8), else a status with the translated code, the message and one
    detail that carries code, reason, message and the metadata with the id
    under the reserved key.  They log one line with that id and the handler's
    error, and never take the branch for an unhandled error. *)
Theorem interceptors_convert_the_error {Resp : Type} (env1 env2 env3 : Env)
        (h : Store) (resp : Resp) :
  UnaryServerErrorInterceptor env1 env2 env3 resp None h = Some ((resp, None, []), h)
  /\ StreamServerErrorInterceptor env1 env2 env3 None h = Some ((None, []), h)
  /\ forall err : GoError,
       (forall p, errors_As err = Some p ->
          exists e src, errs h !! p = Some e
                        /\ entries (Metadata (status e)) h = Some (src, h)) ->
       exists (q : loc) (h' : Store) (e' : Error) (src : gmap string string),
         FromError env1 (Some err) h = Some (Some q, h')
         /\ errs h' !! q = Some e'
         /\ ID (status e') <> EmptyString
         /\ entries (Metadata (status e')) h' = Some (src, h')
         /\ let out :=
              let pb := mkStatusPB (Code (status e')) (Reason (status e'))
                          (Message (status e'))
                          (<["error_id" := ID (status e')]> src) in
              if Code (status e') =? 200 then None
              else if marshals pb
              then Some (ErrStatus
                           (mkGrpcStatus (ToGRPCCode (Code (status e')))
                              (Message (status e')) [DetailStatus pb]))
              else None in
            UnaryServerErrorInterceptor env1 env2 env3 resp (Some err) h =
              Some ((resp, out, [LogUnaryError (ID (status e')) err]), h')
            /\ StreamServerErrorInterceptor env1 env2 env3 (Some err) h =
                 Some ((out, [LogStreamError (ID (status e')) err]), h').
Proof.
  split; [reflexivity |]. split; [reflexivity |].
  intros err Hlive.
  destruct (FromError_result env1 h err Hlive)
    as (q & h' & e' & src & Hrun & Hq & Hid & Hsrc).
  exists q, h', e', src. repeat (split; [assumption |]).
  exact (interceptor_run env1 env2 env3 h h' resp err q e' src Hrun Hq Hid Hsrc).
Qed.

Lemma interceptors_convert_the_error_witness :
  exists (q : loc) (h' : Store) (e' : Error) (src : gmap string string),
    FromError sample_env (Some (ErrOther "connection refused")) sample_store
      = Some (Some q, h')
    /\ errs h' !! q = Some e'
    /\ ID (status e') <> EmptyString
    /\ entries (Metadata (status e')) h' = Some (src, h')
    /\ let out :=
         let pb := mkStatusPB (Code (status e')) (Reason (status e'))
                     (Message (status e'))
                     (<["error_id" := ID (status e')]> src) in
         if Code (status e') =? 200 then None
         else if marshals pb
         then Some (ErrStatus
                      (mkGrpcStatus (ToGRPCCode (Code (status e')))
                         (Message (status e')) [DetailStatus pb]))
         else None in
       UnaryServerErrorInterceptor sample_env sample_env_later sample_env_later tt
         (Some (ErrOther "connection refused")) sample_store =
         Some ((tt, out, [LogUnaryError (ID (status e')) (ErrOther "connection refused")]),
               h')
       /\ StreamServerErrorInterceptor sample_env sample_env_later sample_env_later
            (Some (ErrOther "connection refused")) sample_store =
            Some ((out, [LogStreamError (ID (status e')) (ErrOther "connection refused")]),
                  h').
Proof.
  apply (proj2 (proj2 (interceptors_convert_the_error sample_env sample_env_later
                         sample_env_later sample_store tt))).
  intros p Hp. discriminate Hp.
Defined.

(** X22: an error the unary interceptor returned passes through a second
    interceptor unchanged: the second one converts it to an error object,
    builds and marshals the detail anew, and returns the same status, with
    the same code, message, detail and id, and logs that id. *)
Theorem interceptor_relays_its_own_errors {Resp : Type}
        (env1 env2 env3 env4 env5 env6 : Env) (h : Store) (resp : Resp)
        (err : GoError) :
  (forall p, errors_As err = Some p ->
     exists e src, errs h !! p = Some e
                   /\ entries (Metadata (status e)) h = Some (src, h)) ->
  exists (out : option GoError) (id : string) (h1 : Store),
    UnaryServerErrorInterceptor env1 env2 env3 resp (Some err) h =
      Some ((resp, out, [LogUnaryError id err]), h1)
    /\ id <> EmptyString
    /\ forall relayed : GoError,
         out = Some relayed ->
         exists h2 : Store,
           UnaryServerErrorInterceptor env4 env5 env6 resp (Some relayed) h1 =
             Some ((resp, Some relayed, [LogUnaryError id relayed]), h2).
Proof.
  intros Hlive.
  destruct (FromError_result env1 h err Hlive)
    as (q & h' & e' & src & Hrun & Hq & Hid & Hsrc).
  destruct (interceptor_run env1 env2 env3 h h' resp err q e' src Hrun Hq Hid Hsrc)
    as [Hunary _].
  eexists _, _, h'. split; [exact Hunary |]. split; [exact Hid |].
  intros relayed Hout. cbv zeta in Hout.
  destruct (Z.eqb_spec (Code (status e')) 200) as [| Hcode]; [discriminate |].
  set (pb := mkStatusPB (Code (status e')) (Reason (status e')) (Message (status e'))
               (<["error_id" := ID (status e')]> src)) in *.
  destruct (marshals pb) eqn:Hmarshal; [| discriminate].
  injection Hout as <-.
  set (gs := mkGrpcStatus (ToGRPCCode (Code (status e'))) (Message (status e'))
               [DetailStatus pb]).
  assert (Hrpc : gs_Code gs <> Codes.OK)
    by (cbn [gs gs_Code]; rewrite ToGRPCCode_OK; exact Hcode).
  pose proof (FromError_status_run env4 h' gs pb (ID (status e')) src
                Hrpc eq_refl eq_refl Hid) as Hfrom.
  cbv zeta in Hfrom.
  assert (Herr : status_Err (Some gs) = Some (ErrStatus gs)).
  { unfold status_Err. destruct (Z.eqb_spec (gs_Code gs) Codes.OK); [contradiction |].
    reflexivity. }
  rewrite Herr in Hfrom.
  eexists.
  refine (eq_trans
            (proj1 (interceptor_run env4 env5 env6 h' _ resp (ErrStatus gs) _ _
                      (delete "error_id" src) Hfrom _ _ _)) _).
  - cbn [errs]. apply lookup_insert_eq.
  - exact Hid.
  - unfold entries. cbn [status Metadata maps]. rewrite lookup_insert_eq. reflexivity.
  - cbv zeta. unfold pb in Hmarshal |- *.
    cbn [status Code Reason Message ID pb_Code pb_Reason pb_Message].
    destruct (Z.eqb_spec (Code (status e')) 200); [contradiction |].
    rewrite insert_delete_eq, Hmarshal. reflexivity.
Qed.

Lemma interceptor_relays_its_own_errors_witness :
  exists (out : option GoError) (id : string) (h1 : Store),
    UnaryServerErrorInterceptor sample_env sample_env sample_env tt
      (Some (ErrWrap "lookup" (ErrPtr 3%positive))) sample_store =
      Some ((tt, out, [LogUnaryError id (ErrWrap "lookup" (ErrPtr 3%positive))]), h1)
    /\ id <> EmptyString
    /\ forall relayed : GoError,
         out = Some relayed ->
         exists h2 : Store,
           UnaryServerErrorInterceptor sample_env_later sample_env_later
             sample_env_later tt (Some relayed) h1 =
             Some ((tt, Some relayed, [LogUnaryError id relayed]), h2).
Proof.
  apply (interceptor_relays_its_own_errors sample_env sample_env sample_env
           sample_env_later sample_env_later sample_env_later sample_store tt).
  intros p [= <-]. exists sample_named_error, {["k" := "v"]}.
  split; reflexivity.
Defined.

(** ** The command-line decoder *)

(** Where the parsers return no error, the value is the one of the model that
    returns the value alone. *)
Lemma uint_loop_value (s : string) (n v : Z) :
  0 <= n -> Strconv.parse_digits n s = Some v -> v <= Strconv.uint64_max ->
  StrconvValue.uint_loop n s = (v, None).
Proof.
  revert n. induction s as [| c s IH]; intros n Hn;
    cbn [Strconv.parse_digits StrconvValue.uint_loop].
  - intros [= <-] _. reflexivity.
  - destruct (Strconv.digit_val c) as [d |] eqn:Hd; [| discriminate].
    assert (0 <= d).
    { unfold Strconv.digit_val in Hd.
      destruct ((48 <=? byte_val c) && (byte_val c <=? 57)) eqn:E; [| discriminate].
      apply andb_prop in E as [E1 _]. apply Z.leb_le in E1.
      injection Hd as <-. lia. }
    intros Hrun Hv.
    assert (Hlow : 10 * n + d <= v)
      by (apply (parse_digits_lower s); [lia | exact Hrun]).
    destruct (Z.ltb_spec Strconv.uint64_max (10 * n + d)); [lia |].
    apply IH; [lia | assumption | assumption].
Qed.

Lemma ParseUint_value (s : string) (v : Z) :
  Strconv.ParseUint s = Some v -> StrconvValue.ParseUint s = (v, None).
Proof.
  unfold Strconv.ParseUint, StrconvValue.ParseUint.
  destruct s as [| c s]; [discriminate |].
  destruct (Strconv.parse_digits 0 (String c s)) as [w |] eqn:E; [| discriminate].
  destruct (Z.leb_spec w Strconv.uint64_max); [| discriminate].
  intros [= <-]. apply uint_loop_value; [lia | assumption | assumption].
Qed.

Lemma ParseInt_value (s : string) (v : Z) :
  Strconv.ParseInt s = Some v -> StrconvValue.ParseInt s = (v, None).
Proof.
  unfold Strconv.ParseInt, StrconvValue.ParseInt.
  destruct s as [| c s]; [discriminate |].
  destruct (Strconv.ParseUint _) as [un |] eqn:E; [| discriminate].
  rewrite (ParseUint_value _ _ E).
  destruct (negb (Ascii.eqb c "-") && (2 ^ 63 <=? un)); [discriminate |].
  destruct ((Ascii.eqb c "-") && (2 ^ 63 <? un)); [discriminate |].
  intros [= <-]. reflexivity.
Qed.

Lemma LastIndex_none (s : string) (c : ascii) :
  GoStrings.LastIndex s c = -1 -> GoStrings.contains s c = false.
Proof.
  induction s as [| d s IH]; cbn [GoStrings.LastIndex GoStrings.contains];
    [reflexivity |].
  pose proof (LastIndex_range s c) as Hr.
  destruct (Z.leb_spec 0 (GoStrings.LastIndex s c)); [lia |].
  destruct (Ascii.eqb d c); [lia |].
  intros _. apply IH. lia.
Qed.

(** Behind the last [c] there is no [c]. *)
Lemma slice_from_LastIndex (s : string) (c : ascii) :
  0 <= GoStrings.LastIndex s c ->
  GoStrings.contains (GoStrings.slice_from s (GoStrings.LastIndex s c + 1)) c = false.
Proof.
  unfold GoStrings.slice_from.
  induction s as [| d s IH]; cbn [GoStrings.LastIndex]; [lia |].
  pose proof (LastIndex_range s c) as Hr.
  destruct (Z.leb_spec 0 (GoStrings.LastIndex s c)) as [Hge | Hlt].
  - intros _.
    replace (Z.to_nat (GoStrings.LastIndex s c + 1 + 1))
      with (S (Z.to_nat (GoStrings.LastIndex s c + 1))) by lia.
    cbn [String.length String.substring Nat.sub]. apply IH. exact Hge.
  - destruct (Ascii.eqb d c); [| lia].
    intros _. change (Z.to_nat (0 + 1)) with 1%nat.
    cbn [String.length String.substring Nat.sub].
    rewrite Nat.sub_0_r, substring_all.
    apply LastIndex_none. lia.
Qed.

(** The function name of the record holds no dot, unless the full name ends
    in one. *)
Lemma callSite_function_dot_free (skip : Z) (env : Env)
      (funcName filename : string) (line : Z) :
  callSite skip env = (funcName, filename, line) ->
  (forall fr fullName, runtime_Caller env skip = Some fr ->
     frame_func fr = Some fullName -> GoStrings.last_byte fullName <> Some "."%char) ->
  GoStrings.contains funcName "." = false.
Proof.
  unfold callSite. intros Hsite Hlast.
  destruct (runtime_Caller env skip) as [fr |]; [| injection Hsite as <- _ _; reflexivity].
  injection Hsite as <- _ _.
  destruct (frame_func fr) as [fullName |] eqn:Hfn; [| reflexivity].
  specialize (Hlast fr fullName eq_refl Hfn).
  unfold findLastDot.
  pose proof (LastIndex_range fullName ".") as Hr.
  destruct (Z.leb_spec 0 (GoStrings.LastIndex fullName ".")) as [Hge | Hlt];
    cbn [andb].
  - destruct (Z.ltb_spec (GoStrings.LastIndex fullName ".") (strlen fullName - 1))
      as [Hin | Hend].
    + apply slice_from_LastIndex. exact Hge.
    + exfalso. apply Hlast. apply LastIndex_final; [exact Hge | lia].
  - assert (Hnone : GoStrings.contains fullName "." = false)
      by (apply LastIndex_none; lia).
    destruct (_ =? _); exact Hnone.
Qed.

(** [parseErrorID] on an identifier whose payload has at least six fields
    and an [@] in the first. *)
Lemma parseErrorID_long (tz : Z -> string) (id raw : string) :
  Base64.DecodeString id = Some raw ->
  (6 <= length (GoStrings.Split raw ":"))%nat ->
  let parts := GoStrings.Split raw ":" in
  let atIndex := GoStrings.LastIndex (part parts 0) "@" in
  let pkgFunc := GoStrings.slice_to (part parts 0) atIndex in
  let lastDotIndex := GoStrings.LastIndex pkgFunc "." in
  atIndex <> -1 ->
  ErrorDecoder.parseErrorID tz id =
    (Some (ErrorDecoder.mkErrorInfo
             (if negb (lastDotIndex =? -1) then GoStrings.slice_to pkgFunc lastDotIndex
              else "main")
             (if negb (lastDotIndex =? -1)
              then GoStrings.slice_from pkgFunc (lastDotIndex + 1) else pkgFunc)
             (GoStrings.slice_from (part parts 0) (atIndex + 1))
             (fst (StrconvValue.Atoi (part parts 1)))
             (fst (StrconvValue.ParseInt (part parts 2)))
             (fst (StrconvValue.ParseUint (part parts 3)))
             (fst (StrconvValue.Atoi (part parts 4)))
             (part parts 5)
             (tz (fst (StrconvValue.ParseInt (part parts 2))))
             raw),
     None).
Proof.
  intros Hraw Hlen parts atIndex pkgFunc lastDotIndex Hat.
  unfold ErrorDecoder.parseErrorID. rewrite Hraw. fold parts.
  destruct (Z.ltb_spec (Z.of_nat (length parts)) 6); [unfold parts in *; lia |].
  fold atIndex. destruct (Z.eqb_spec atIndex (-1)); [contradiction |].
  fold pkgFunc. fold lastDotIndex.
  destruct (negb (lastDotIndex =? -1)); reflexivity.
Qed.

(** X23: the command-line decoder reads every field of a regular identifier
    back, and reports the package [main] for it whatever the package of the
    caller was: the record holds the function name without its package. *)
Theorem cli_reads_a_regular_id (tz : Z -> string) (skip : Z) (env : Env)
        (id funcName filename : string) (line : Z) :
  generateErrorIDInternal skip env = Some id ->
  callSite skip env = (funcName, filename, line) ->
  (forall fr fullName, runtime_Caller env skip = Some fr ->
     frame_func fr = Some fullName -> GoStrings.last_byte fullName <> Some "."%char) ->
  GoStrings.contains funcName ":" = false ->
  GoStrings.contains filename ":" = false ->
  GoStrings.contains filename "@" = false ->
  Strconv.int64_min <= line <= Strconv.int64_max ->
  Strconv.int64_min <= time_UnixNano env <= Strconv.int64_max ->
  Strconv.int64_min <= os_Getpid env <= Strconv.int64_max ->
  ErrorDecoder.parseErrorID tz id =
    (Some (ErrorDecoder.mkErrorInfo "main" funcName filename line
             (time_UnixNano env) (getGoroutineID env) (os_Getpid env)
             (generateRandomSuffix env) (tz (time_UnixNano env))
             (internalRecord skip env)),
     None).
Proof.
  intros Hid Hsite Hlast Hf Hn Hat Hline Hts Hpid.
  pose proof (callSite_function_dot_free skip env _ _ _ Hsite Hlast) as Hdot.
  unfold generateErrorIDInternal in Hid.
  destruct (internal_panics env); [discriminate |]. injection Hid as <-.
  assert (Hfields := internalRecord_exact_fields skip env _ _ _ Hsite Hf Hn).
  assert (Hindex : GoStrings.LastIndex (funcName ++ "@" ++ filename) "@"
                   = strlen funcName).
  { change ("@" ++ filename) with (String "@" filename).
    apply LastIndex_app_last. exact Hat. }
  rewrite (parseErrorID_long tz _ _ (DecodeString_EncodeToString _)
             (internalRecord_six_fields skip env)).
  - cbv zeta. rewrite Hfields. unfold part. cbn [nth].
    rewrite Hindex, slice_to_app.
    rewrite (LastIndex_absent funcName "." Hdot). cbn [Z.eqb Pos.eqb negb].
    rewrite <- app_assoc_s.
    replace (strlen funcName + 1) with (strlen (funcName ++ "@"))
      by (rewrite strlen_app; reflexivity).
    rewrite slice_from_app.
    unfold StrconvValue.Atoi, Strconv.Itoa.
    rewrite (ParseInt_value _ _ (ParseInt_FormatInt line Hline)).
    rewrite (ParseInt_value _ _ (ParseInt_FormatInt _ Hts)).
    rewrite (ParseInt_value _ _ (ParseInt_FormatInt _ Hpid)).
    rewrite (ParseUint_value _ _ (ParseUint_FormatUint _ (getGoroutineID_range env))).
    reflexivity.
  - cbv zeta. rewrite Hfields. unfold part. cbn [nth]. rewrite Hindex.
    unfold strlen. lia.
Qed.

Lemma cli_reads_a_regular_id_witness :
  ErrorDecoder.parseErrorID unix_nanos_text
    "Q3JlYXRlQHNlcnZpY2UuZ286ODc6MTcwMDAwMDAwMDAwMDAwMDAwMDoxNzo0MjQyOmRlYWRiZWVm"
  = (Some (ErrorDecoder.mkErrorInfo "main" "Create" "service.go" 87
             1700000000000000000 17 4242 "deadbeef" "1700000000000000000"
             "Create@service.go:87:1700000000000000000:17:4242:deadbeef"),
     None).
Proof.
  apply (cli_reads_a_regular_id unix_nanos_text 3 sample_env _
           "Create" "service.go" 87);
    try reflexivity;
    try (unfold Strconv.int64_min, Strconv.int64_max; cbn; lia).
  intros fr fullName [= <-] [= <-]. discriminate.
Defined.

(** A text with a [c] is the part before the last [c], the [c], and the part
    behind it. *)
Lemma slice_at_LastIndex (s : string) (c : ascii) :
  0 <= GoStrings.LastIndex s c ->
  s = GoStrings.slice_to s (GoStrings.LastIndex s c)
      ++ String c (GoStrings.slice_from s (GoStrings.LastIndex s c + 1)).
Proof.
  unfold GoStrings.slice_to, GoStrings.slice_from.
  induction s as [| d s IH]; cbn [GoStrings.LastIndex]; [lia |].
  pose proof (LastIndex_range s c) as Hr.
  destruct (Z.leb_spec 0 (GoStrings.LastIndex s c)) as [Hge | Hlt].
  - intros _.
    replace (Z.to_nat (GoStrings.LastIndex s c + 1 + 1))
      with (S (Z.to_nat (GoStrings.LastIndex s c + 1))) by lia.
    replace (Z.to_nat (GoStrings.LastIndex s c + 1))
      with (S (Z.to_nat (GoStrings.LastIndex s c))) at 1 by lia.
    cbn [String.length String.substring Nat.sub]. rewrite app_cons.
    f_equal. apply IH. exact Hge.
  - destruct (Ascii.eqb_spec d c) as [-> |]; [| lia].
    intros _. change (Z.to_nat (0 + 1)) with 1%nat. change (Z.to_nat 0) with 0%nat.
    cbn [String.length String.substring Nat.sub].
    rewrite Nat.sub_0_r, substring_all, app_empty. reflexivity.
Qed.

Lemma default_value (o : option Z) : default 0 o <> 0 -> o = Some (default 0 o).
Proof. destruct o; cbn [from_option Datatypes.id]; congruence. Qed.

(** X24: the command-line decoder rejects every identifier of the fallback
    path: the record has four parts where it asks for six. *)
Theorem cli_rejects_fallback_ids (tz : Z -> string) (skip : Z) (env : Env) :
  internal_panics env = true ->
  ErrorDecoder.parseErrorID tz (generateErrorID skip env) =
    (None, Some (ErrorDecoder.ErrParts 4)).
Proof.
  intros Hpanic. rewrite generateErrorID_paths, Hpanic.
  unfold generateFallbackErrorID, ErrorDecoder.parseErrorID.
  rewrite DecodeString_EncodeToString.
  destruct (fallback_fields env) as (t & p & r & ->). reflexivity.
Qed.

Lemma cli_rejects_fallback_ids_witness :
  ErrorDecoder.parseErrorID unix_nanos_text (generateErrorID 2 sample_env_panicking) =
    (None, Some (ErrorDecoder.ErrParts 4)).
Proof.
  apply (cli_rejects_fallback_ids unix_nanos_text 2 sample_env_panicking).
  reflexivity.
Defined.

(** X25: whatever the command-line decoder accepts, [DecodeErrorID] accepts
    too, and the two agree: same record, same file and same random suffix;
    the function [DecodeErrorID] reports is the function of the command-line
    decoder, with its package and a dot in front unless that package is the
    default [main]; and every number [DecodeErrorID] reports other than 0 is
    the number of the command-line decoder. *)
Theorem cli_agrees_with_DecodeErrorID (tz tz' : Z -> string) (id : string)
        (info : ErrorDecoder.ErrorInfo) :
  ErrorDecoder.parseErrorID tz id = (Some info, None) ->
  exists info' : ErrorIDInfo,
    DecodeErrorID tz' id = (Some info', None)
    /\ Raw info' = ErrorDecoder.Raw info
    /\ File info' = ErrorDecoder.File info
    /\ RandomSuffix info' = ErrorDecoder.Random info
    /\ (Function info' = ErrorDecoder.Package info ++ "." ++ ErrorDecoder.Function info
        \/ ErrorDecoder.Package info = "main"
           /\ Function info' = ErrorDecoder.Function info)
    /\ (Line info' <> 0 -> ErrorDecoder.Line info = Line info')
    /\ (Timestamp info' <> 0 -> ErrorDecoder.Timestamp info = Timestamp info')
    /\ (GoroutineID info' <> 0 -> ErrorDecoder.GoroutineID info = GoroutineID info')
    /\ (ProcessID info' <> 0 -> ErrorDecoder.ProcessID info = ProcessID info').
Proof.
  unfold ErrorDecoder.parseErrorID.
  destruct (Base64.DecodeString id) as [raw |] eqn:Hraw; [| discriminate].
  cbv zeta.
  destruct (Z.ltb_spec (Z.of_nat (length (GoStrings.Split raw ":"))) 6) as [| Hlen];
    [discriminate |].
  set (parts := GoStrings.Split raw ":") in *.
  set (funcPart := part parts 0).
  pose proof (LastIndex_range funcPart "@") as Hat.
  destruct (Z.eqb_spec (GoStrings.LastIndex funcPart "@") (-1)) as [| Hfound];
    [discriminate |].
  set (atIndex := GoStrings.LastIndex funcPart "@") in *.
  set (pkgFunc := GoStrings.slice_to funcPart atIndex).
  pose proof (LastIndex_range pkgFunc ".") as Hdot.
  intros Hinfo.
  assert (Hlong := DecodeErrorID_long tz' id raw Hraw ltac:(fold parts; lia)).
  cbv zeta in Hlong. fold parts funcPart atIndex pkgFunc in Hlong.
  destruct (Z.leb_spec 0 atIndex) as [_ |]; [| lia].
  eexists. split; [exact Hlong |].
  cbn [Raw File RandomSuffix Function Line Timestamp GoroutineID ProcessID].
  assert (Hnumbers :
    (default 0 (Strconv.Atoi (part parts 1)) <> 0 ->
       fst (StrconvValue.Atoi (part parts 1)) = default 0 (Strconv.Atoi (part parts 1)))
    /\ (default 0 (Strconv.ParseInt (part parts 2)) <> 0 ->
          fst (StrconvValue.ParseInt (part parts 2))
          = default 0 (Strconv.ParseInt (part parts 2)))
    /\ (default 0 (Strconv.ParseUint (part parts 3)) <> 0 ->
          fst (StrconvValue.ParseUint (part parts 3))
          = default 0 (Strconv.ParseUint (part parts 3)))
    /\ (default 0 (Strconv.Atoi (part parts 4)) <> 0 ->
          fst (StrconvValue.Atoi (part parts 4))
          = default 0 (Strconv.Atoi (part parts 4)))).
  { unfold StrconvValue.Atoi, Strconv.Atoi.
    repeat split; intros Hne; apply default_value in Hne;
      first [ now rewrite (ParseInt_value _ _ Hne)
            | now rewrite (ParseUint_value _ _ Hne) ]. }
  destruct (Z.eqb_spec (GoStrings.LastIndex pkgFunc ".") (-1)) as [Hnodot | Hdotted];
    cbn [negb] in Hinfo; injection Hinfo as <-;
    cbn [ErrorDecoder.Raw ErrorDecoder.File ErrorDecoder.Random ErrorDecoder.Package
         ErrorDecoder.Function ErrorDecoder.Line ErrorDecoder.Timestamp
         ErrorDecoder.GoroutineID ErrorDecoder.ProcessID];
    (split; [reflexivity |]); (split; [reflexivity |]); (split; [reflexivity |]);
    (split; [| exact Hnumbers]).
  - right. split; reflexivity.
  - left. change ("." ++ ?x) with (String "." x).
    apply slice_at_LastIndex. lia.
Qed.

Lemma cli_agrees_with_DecodeErrorID_witness :
  exists info' : ErrorIDInfo,
    DecodeErrorID unix_nanos_text "b3JkZXIuQ3JlYXRlQHNlcnZpY2UuZ286ODc6MTc6NTo5OmFi"
      = (Some info', None)
    /\ Raw info' = "order.Create@service.go:87:17:5:9:ab"
    /\ File info' = "service.go"
    /\ RandomSuffix info' = "ab"
    /\ (Function info' = "order" ++ "." ++ "Create"
        \/ "order" = "main" /\ Function info' = "Create")
    /\ (Line info' <> 0 -> 87 = Line info')
    /\ (Timestamp info' <> 0 -> 17 = Timestamp info')
    /\ (GoroutineID info' <> 0 -> 5 = GoroutineID info')
    /\ (ProcessID info' <> 0 -> 9 = ProcessID info').
Proof.
  apply (cli_agrees_with_DecodeErrorID unix_nanos_text unix_nanos_text
           "b3JkZXIuQ3JlYXRlQHNlcnZpY2UuZ286ODc6MTc6NTo5OmFi"
           (ErrorDecoder.mkErrorInfo "order" "Create" "service.go" 87 17 5 9 "ab"
              "17" "order.Create@service.go:87:17:5:9:ab")).
  reflexivity.
Defined.

(** X26: a record of six parts whose first part holds no [@] is read by
    [DecodeErrorID], with the function [unknown] and the whole first part as
    the file, and is rejected by the command-line decoder. *)
Theorem library_reads_what_cli_rejects (tz tz' : Z -> string) (id raw : string) :
  Base64.DecodeString id = Some raw ->
  (6 <= length (GoStrings.Split raw ":"))%nat ->
  GoStrings.contains (part (GoStrings.Split raw ":") 0) "@" = false ->
  ErrorDecoder.parseErrorID tz id = (None, Some ErrorDecoder.ErrNoAt)
  /\ exists info' : ErrorIDInfo,
       DecodeErrorID tz' id = (Some info', None)
       /\ Function info' = "unknown"
       /\ File info' = part (GoStrings.Split raw ":") 0
       /\ Raw info' = raw.
Proof.
  intros Hraw Hlen Hat. apply LastIndex_absent in Hat. split.
  - unfold ErrorDecoder.parseErrorID. rewrite Hraw. cbv zeta.
    destruct (Z.ltb_spec (Z.of_nat (length (GoStrings.Split raw ":"))) 6); [lia |].
    rewrite Hat. reflexivity.
  - eexists. split; [exact (DecodeErrorID_long tz' id raw Hraw Hlen) |].
    cbv zeta. rewrite Hat. cbn [Function File Raw Z.leb Z.compare].
    repeat split.
Qed.

Lemma library_reads_what_cli_rejects_witness :
  ErrorDecoder.parseErrorID unix_nanos_text "Q3JlYXRlOjg3OjE3OjU6OTphYg=="
    = (None, Some ErrorDecoder.ErrNoAt)
  /\ exists info' : ErrorIDInfo,
       DecodeErrorID unix_nanos_text "Q3JlYXRlOjg3OjE3OjU6OTphYg==" = (Some info', None)
       /\ Function info' = "unknown"
       /\ File info' = part (GoStrings.Split "Create:87:17:5:9:ab" ":") 0
       /\ Raw info' = "Create:87:17:5:9:ab".
Proof.
  apply (library_reads_what_cli_rejects unix_nanos_text unix_nanos_text
           "Q3JlYXRlOjg3OjE3OjU6OTphYg==" "Create:87:17:5:9:ab").
  - reflexivity.
  - cbn. lia.
  - reflexivity.
Defined.

(** ** The reserved metadata key *)


